(** * Torus wallet: approval orchestration and provider pipeline

    A shallow embedding of the parts of the wallet that decide which
    pending request is shown to the user and how a decision is resolved:

    - [src/app/src/store/store.js]: [showPopup], [handleConfirm],
      [handleDeny], [getLatestMessageParams], [isTorusTransaction];
    - the provider pipeline's [transformStream];
    - [src/app/src/views/ProviderChange/ProviderChange.vue]:
      [triggerSign], [triggerDeny].

    JavaScript values are modelled by the inductive type [jsval]; mutable
    objects of the Vuex store are modelled by an explicit store that the
    functions thread through a small state-and-exception monad. *)

From Stdlib Require Import ZArith List String Ascii Bool Lia DecimalString Sorted.
From Stdlib.Strings Require Import Byte.
Import ListNotations.
Local Open Scope string_scope.
Local Open Scope Z_scope.
Local Open Scope list_scope.

(** ** JavaScript values *)

Module JS.

(** Class of an object: a plain object, an array, or a [Buffer] holding
    raw bytes. *)
Inductive objclass : Type :=
| CPlain
| CArray
| CBuffer (bytes : list byte).

(** Numbers are the integers (all the numbers the program handles are
    ids, timestamps and indices) plus [NaN], which [parseInt] produces. *)
#[warnings="-register-all"]
Inductive jsval : Type :=
| JUndefined
| JNull
| JBool (b : bool)
| JNum (z : Z)
| JNaN
| JStr (s : string)
| JObj (c : objclass) (props : list (string * jsval)).

(** Exceptions the modelled code can raise. *)
Inductive exn : Type :=
| TypeError                 (* property access on undefined or null *)
| SyntaxError               (* JSON.parse of a non-JSON text *)
| LibraryError              (* raised by a library function *)
| Error (message : string). (* throw new Error(message) *)

(** [assoc_get k l] is the value of the first binding of [k]. *)
Fixpoint assoc_get {A : Type} (k : string) (l : list (string * A)) : option A :=
  match l with
  | [] => None
  | (k', v) :: r => if String.eqb k k' then Some v else assoc_get k r
  end.

(** [assoc_set k v l] overwrites the binding of [k] in place, or adds it
    after the existing ones (the insertion order of an object's keys). *)
Fixpoint assoc_set {A : Type} (k : string) (v : A) (l : list (string * A)) : list (string * A) :=
  match l with
  | [] => [(k, v)]
  | (k', v') :: r => if String.eqb k k' then (k, v) :: r else (k', v') :: assoc_set k v r
  end.

Definition digit_of (a : ascii) : option nat :=
  let n := nat_of_ascii a in
  if (Nat.leb 48 n && Nat.leb n 57)%bool then Some (n - 48)%nat else None.

Fixpoint index_acc (s : string) (acc : nat) : option nat :=
  match s with
  | EmptyString => Some acc
  | String a r =>
      match digit_of a with
      | Some d => index_acc r (10 * acc + d)%nat
      | None => None
      end
  end.

(** A property key is an index when it is a canonical decimal numeral. *)
Definition index_of_key (k : string) : option nat :=
  match k with
  | EmptyString => None
  | String "0"%char EmptyString => Some 0%nat
  | String "0"%char _ => None
  | _ => index_acc k 0
  end.

Definition char_at (s : string) (i : nat) : jsval :=
  match String.get i s with
  | Some a => JStr (String a EmptyString)
  | None => JUndefined
  end.

Definition byte_at (bs : list byte) (i : nat) : jsval :=
  match nth_error bs i with
  | Some b => JNum (Z.of_N (Byte.to_N b))
  | None => JUndefined
  end.

(** [get_prop v k] is the read [v.k] (or [v[k]]): [None] is the TypeError
    raised on [undefined] and [null].  Own properties only: members
    inherited from a prototype are not modelled (none of the names the
    program reads is one). *)
Definition get_prop (v : jsval) (k : string) : option jsval :=
  match v with
  | JUndefined | JNull => None
  | JBool _ | JNum _ | JNaN => Some JUndefined
  | JStr s =>
      match index_of_key k with
      | Some i => Some (char_at s i)
      | None => Some JUndefined
      end
  | JObj (CBuffer bs) props =>
      match index_of_key k with
      | Some i => Some (byte_at bs i)
      | None =>
          match assoc_get k props with
          | Some x => Some x
          | None => Some JUndefined
          end
      end
  | JObj _ props =>
      match assoc_get k props with
      | Some x => Some x
      | None => Some JUndefined
      end
  end.

(** Truthiness, as tested by [if (v)], [!v] and [v && ...]. *)
Definition truthy (v : jsval) : bool :=
  match v with
  | JUndefined | JNull | JNaN => false
  | JBool b => b
  | JNum z => negb (z =? 0)
  | JStr s => negb (String.eqb s "")
  | JObj _ _ => true
  end.

(** [typeof v === "string"]. *)
Definition is_string (v : jsval) : bool :=
  match v with
  | JStr _ => true
  | _ => false
  end.

(** Strict equality [a === b].  Two objects are equal only when they are
    the same reference; every object compared by the program has crossed
    a message channel (a structured clone), so it is never the same
    reference as a value the program holds: objects compare unequal. *)
Definition strict_eq (a b : jsval) : bool :=
  match a, b with
  | JUndefined, JUndefined => true
  | JNull, JNull => true
  | JBool x, JBool y => Bool.eqb x y
  | JNum x, JNum y => x =? y
  | JStr x, JStr y => String.eqb x y
  | _, _ => false
  end.

(** [s.substring(0, 2)] and [s.slice(2)]. *)
Definition substring02 (s : string) : string := String.substring 0 2 s.
Definition slice2 (s : string) : string :=
  String.substring 2 (String.length s - 2) s.

(** The array literal [[]]. *)
Definition empty_array : jsval := JObj CArray [].

(** The object [Buffer.from(..)] returns for the bytes [bs]. *)
Definition buffer_of (bs : list byte) : jsval := JObj (CBuffer bs) [].

(** [store_prop o k x] writes property [k] of the object [o]. *)
Definition store_prop (o : jsval) (k : string) (x : jsval) : jsval :=
  match o with
  | JObj c props => JObj c (assoc_set k x props)
  | _ => o
  end.

End JS.
Export JS.

(** ** Outcome of running a piece of code *)

Inductive completion (A : Type) : Type :=
| Normal (a : A)
| Throw (e : exn).
Arguments Normal {A} a.
Arguments Throw {A} e.

(** ** Functions of the JavaScript runtime and of third-party libraries

    They are not part of the repository; the program is verified for
    every behaviour of theirs. *)
Class Builtins : Type := {
  (** [parseInt(v, 10)] *)
  parseInt10 : jsval -> jsval;
  (** the property key [v] denotes in [obj[v]] *)
  ToPropertyKey : jsval -> string;
  (** [hexToUtf8(v)] of web3-utils; [None] when it throws *)
  hexToUtf8 : jsval -> option jsval;
  (** [Buffer.from(s, 'hex')]: the decoded bytes; [None] when it throws *)
  Buffer_from_hex : string -> option (list byte);
  (** [JSON.parse(JSON.stringify(v))] on a property value *)
  JSON_roundtrip : jsval -> jsval;
  (** [fromWei(n.toString())] of web3-utils *)
  fromWei : Z -> jsval
}.

(** ** Payload transform stage (provider pipeline) *)

Module Transform.

Section WithBuiltins.

Context {rt : Builtins}.

(** The assignment [chunk.params[0].from = v], where [ps] is
    [chunk.params] and [p0] is [chunk.params[0]].  The file is a plain
    script (no strict-mode directive), so assigning a property of a
    primitive is silently ignored. *)
Definition assign_from (chunk ps p0 v : jsval) : jsval :=
  match p0 with
  | JObj c props =>
      store_prop chunk "params"
        (store_prop ps "0" (JObj c (assoc_set "from" v props)))
  | _ => chunk
  end.

(** The [transform] function of [transformStream]: [Normal c] is
    [cb(null, c)], [Throw e] is [cb(err, null)]. *)
Definition transform (chunk : jsval) : completion jsval :=
  match get_prop chunk "method" with
  | None => Throw TypeError
  | Some m =>
      if (strict_eq m (JStr "eth_call") || strict_eq m (JStr "eth_estimateGas"))%bool
      then
        match get_prop chunk "params" with
        | None => Throw TypeError
        | Some ps =>
            match get_prop ps "0" with
            | None => Throw TypeError
            | Some p0 =>
                match get_prop p0 "from" with
                | None => Throw TypeError
                | Some from =>
                    if (truthy from && is_string from)%bool then
                      match from with
                      | JStr s =>
                          if String.eqb (substring02 s) "0x" then
                            match Buffer_from_hex (slice2 s) with
                            | Some bs => Normal (assign_from chunk ps p0 (buffer_of bs))
                            | None => Throw LibraryError
                            end
                          else Normal chunk
                      | _ => Normal chunk
                      end
                    else if negb (truthy from) then
                      Normal (assign_from chunk ps p0 empty_array)
                    else Normal chunk
                end
            end
        end
      else Normal chunk
  end.

(** Applying the stage to the output of a previous application; an error
    of the first application ends the stream. *)
Definition transform_twice (chunk : jsval) : completion jsval :=
  match transform chunk with
  | Normal c => transform c
  | Throw e => Throw e
  end.

(** The request's method is one of the two simulation calls. *)
Definition simulation_call (chunk : jsval) : Prop :=
  get_prop chunk "method" = Some (JStr "eth_call") \/
  get_prop chunk "method" = Some (JStr "eth_estimateGas").

(** [chunk.params[0].from], when the reads succeed. *)
Definition from_field (chunk : jsval) : option jsval :=
  match get_prop chunk "params" with
  | Some ps =>
      match get_prop ps "0" with
      | Some p0 => get_prop p0 "from"
      | None => None
      end
  | None => None
  end.

End WithBuiltins.

End Transform.

(** ** The Vuex store and the pending-request registry (store.js) *)

Module Store.

(** The three message collections: [unapprovedMsgs] (plain),
    [unapprovedPersonalMsgs] (personal), [unapprovedTypedMessages]
    (typed). *)
Inductive kind : Type := Plain | Personal | Typed.

Definition kind_eqb (a b : kind) : bool :=
  match a, b with
  | Plain, Plain | Personal, Personal | Typed, Typed => true
  | _, _ => false
  end.

(** Position of a collection in the scan of [getLatestMessageParams]. *)
Definition scan_rank (k : kind) : nat :=
  match k with
  | Plain => 0
  | Personal => 1
  | Typed => 2
  end.

(** An object's own properties, in enumeration order. *)
Definition props : Type := list (string * jsval).

(** A pending message: the fields the program reads. *)
Record Message : Type := {
  msgParams : props;
  time : Z
}.

Inductive TxStatus : Type :=
| unapproved | approved | submitted | confirmed | failed.

Definition is_unapproved (s : TxStatus) : bool :=
  match s with
  | unapproved => true
  | _ => false
  end.

(** [txParams]: hex strings, [data] optional; [gasPrice] may hold any
    value a decision carried. *)
Record TxParams : Type := {
  from : string;
  to : string;
  value : string;
  gas : string;
  gasPrice : jsval;
  data : option string
}.

Record TxMeta : Type := {
  id : Z;
  txParams : TxParams;
  status : TxStatus;
  txTime : Z;
  hash : option string
}.

(** [VuexStore.state]: each collection is an object keyed by id, given as
    its bindings in [for (id in ...)] order. *)
Record State : Type := {
  unapprovedMsgs : list (string * Message);
  unapprovedPersonalMsgs : list (string * Message);
  unapprovedTypedMessages : list (string * Message);
  transactions : list (string * TxMeta);
  (** [weiBalance[selectedAddress]], [None] when it is undefined *)
  weiBalance : option Z;
  (** [networkType.host] *)
  networkHost : jsval
}.

(** Calls into the signing collaborator ([torusController]) and the other
    effects the program has on its environment, in the order made.  Of the
    log lines only [log.error('user closed popup')] is kept.  The two
    [enter_] events record each invocation of [handleConfirm] and of
    [handleDeny], so that invocations can be counted even when they make
    no call. *)
Inductive Event : Type :=
| signPersonalMessage (p : props)
| signMessage (p : props)
| signTypedMessage (p : props)
| updateTransaction (t : TxMeta)
| updateAndApproveTransaction (t : option TxMeta)
| cancelPersonalMessage (n : jsval)
| cancelMessage (n : jsval)
| cancelTypedMessage (n : jsval)
| cancelTransaction (n : jsval)
| log_error (text : string)
| new_channel (name : string)
| window_open (height width : Z)
| postTransaction (origin : jsval) (t : TxMeta) (network : jsval) (balance : jsval)
| postMessage (origin : jsval) (p : option props) (id : jsval)
| enter_handleConfirm (evdata : jsval)
| enter_handleDeny (id : jsval).

Record World : Type := {
  state : State;
  trace : list Event
}.

(** Code that reads and writes the store, records effects and may throw;
    what was written before a throw stays written. *)
Definition M (A : Type) : Type := World -> completion A * World.

Definition ret {A : Type} (a : A) : M A := fun w => (Normal a, w).

Definition bind {A B : Type} (c : M A) (f : A -> M B) : M B :=
  fun w =>
    match c w with
    | (Normal a, w') => f a w'
    | (Throw e, w') => (Throw e, w')
    end.

Definition throw {A : Type} (e : exn) : M A := fun w => (Throw e, w).

Definition get_state : M State := fun w => (Normal (state w), w).

Definition put_state (st : State) : M unit :=
  fun w => (Normal tt, {| state := st; trace := trace w |}).

Definition emit (e : Event) : M unit :=
  fun w => (Normal tt, {| state := state w; trace := trace w ++ [e] |}).

(** A read that raises TypeError on [undefined]. *)
Definition defined {A : Type} (o : option A) : M A :=
  match o with
  | Some a => ret a
  | None => throw TypeError
  end.

Declare Scope js_scope.
Delimit Scope js_scope with js.
Notation "x <- c ;; k" := (bind c (fun x => k))
  (at level 61, c at next level, right associativity) : js_scope.
Notation "c ;; k" := (bind c (fun _ => k))
  (at level 61, right associativity) : js_scope.
Local Open Scope js_scope.

(** A reference to a message object of the store: its collection and its
    key there. *)
Definition ref : Type := (kind * string)%type.

Definition coll (k : kind) (st : State) : list (string * Message) :=
  match k with
  | Plain => unapprovedMsgs st
  | Personal => unapprovedPersonalMsgs st
  | Typed => unapprovedTypedMessages st
  end.

Definition set_coll (k : kind) (c : list (string * Message)) (st : State) : State :=
  match k with
  | Plain =>
      {| unapprovedMsgs := c;
         unapprovedPersonalMsgs := unapprovedPersonalMsgs st;
         unapprovedTypedMessages := unapprovedTypedMessages st;
         transactions := transactions st;
         weiBalance := weiBalance st; networkHost := networkHost st |}
  | Personal =>
      {| unapprovedMsgs := unapprovedMsgs st;
         unapprovedPersonalMsgs := c;
         unapprovedTypedMessages := unapprovedTypedMessages st;
         transactions := transactions st;
         weiBalance := weiBalance st; networkHost := networkHost st |}
  | Typed =>
      {| unapprovedMsgs := unapprovedMsgs st;
         unapprovedPersonalMsgs := unapprovedPersonalMsgs st;
         unapprovedTypedMessages := c;
         transactions := transactions st;
         weiBalance := weiBalance st; networkHost := networkHost st |}
  end.

Definition deref (r : ref) (st : State) : option Message :=
  assoc_get (snd r) (coll (fst r) st).

(** [update_at key f c] rewrites the [msgParams] of the object bound to
    [key]. *)
Fixpoint update_at (key : string) (f : props -> props)
  (c : list (string * Message)) : list (string * Message) :=
  match c with
  | [] => []
  | (k, m) :: r =>
      if String.eqb key k
      then (k, {| msgParams := f (msgParams m); time := time m |}) :: r
      else (k, m) :: update_at key f r
  end.

(** Mutation of the [msgParams] of the referenced message object. *)
Definition mutate (r : ref) (f : props -> props) (st : State) : State :=
  set_coll (fst r) (update_at (snd r) f (coll (fst r) st)) st.

(** [p.name], for an object [p]. *)
Definition prop (name : string) (p : props) : jsval :=
  match assoc_get name p with
  | Some v => v
  | None => JUndefined
  end.

(** [Object.keys(c).length > 0] *)
Definition nonempty {A : Type} (c : list A) : bool :=
  match c with
  | [] => false
  | _ :: _ => true
  end.

(** Modelled from the spec: the getter [unApprovedTransactions] of the
    store's getters, which is not among the sources.  The registry
    "enumerates members currently in unapproved-equivalent status": the
    transactions of [state.transactions] whose status is [unapproved], in
    enumeration order. *)
Definition unApprovedTransactions (st : State) : list TxMeta :=
  filter (fun t => is_unapproved (status t)) (map snd (transactions st)).

Section WithBuiltins.

Context {rt : Builtins}.

(** *** isTorusTransaction *)

Definition isTorusTransaction : M bool :=
  st <- get_state ;;
  if nonempty (unapprovedPersonalMsgs st) then ret false
  else if nonempty (unapprovedMsgs st) then ret false
  else if nonempty (unapprovedTypedMessages st) then ret false
  else if nonempty (unApprovedTransactions st) then ret true
  else throw (Error "No new transactions.").

(** *** handleDeny *)

Definition handleDeny (id : jsval) : M unit :=
  emit (enter_handleDeny id) ;;
  st <- get_state ;;
  if nonempty (unapprovedPersonalMsgs st) then
    emit (cancelPersonalMessage (parseInt10 id))
  else if nonempty (unapprovedMsgs st) then
    emit (cancelMessage (parseInt10 id))
  else if nonempty (unapprovedTypedMessages st) then
    emit (cancelTypedMessage (parseInt10 id))
  else if nonempty (transactions st) then
    emit (cancelTransaction (parseInt10 id))
  else ret tt.

(** *** handleConfirm *)

Definition sign_event (k : kind) (p : props) : Event :=
  match k with
  | Plain => signMessage p
  | Personal => signPersonalMessage p
  | Typed => signTypedMessage p
  end.

(** One message branch of [handleConfirm], for the collection [k]:
    [let msgParams = state.<k>[ev.data.id].msgParams;
     msgParams.metamaskId = parseInt(ev.data.id, 10);
     torusController.sign<k>(msgParams)]. *)
Definition confirm_message (k : kind) (evdata : jsval) : M unit :=
  evid <- defined (get_prop evdata "id") ;;
  st <- get_state ;;
  let r := (k, ToPropertyKey evid) in
  _ <- defined (deref r st) ;;
  put_state (mutate r (assoc_set "metamaskId" (parseInt10 evid)) st) ;;
  st' <- get_state ;;
  m <- defined (deref r st') ;;
  emit (sign_event k (msgParams m)).

(** [JSON.parse(JSON.stringify(txMeta))]: a deep copy.  Ids, times,
    statuses and hex strings are JSON values and are copied as they are;
    an absent [data] or [hash] stays absent. *)
Definition json_clone (t : TxMeta) : TxMeta :=
  {| id := id t;
     txParams :=
       {| from := from (txParams t); to := to (txParams t);
          value := value (txParams t); gas := gas (txParams t);
          gasPrice := JSON_roundtrip (gasPrice (txParams t));
          data := data (txParams t) |};
     status := status t; txTime := txTime t; hash := hash t |}.

(** [t.txParams.gasPrice = g] *)
Definition set_gasPrice (g : jsval) (t : TxMeta) : TxMeta :=
  {| id := id t;
     txParams :=
       {| from := from (txParams t); to := to (txParams t);
          value := value (txParams t); gas := gas (txParams t);
          gasPrice := g;
          data := data (txParams t) |};
     status := status t; txTime := txTime t; hash := hash t |}.

(** The transaction branch of [handleConfirm]. *)
Definition confirm_transaction (evdata : jsval) : M unit :=
  st <- get_state ;;
  evid <- defined (get_prop evdata "id") ;;
  let txMeta := find (fun x => strict_eq (JNum (id x)) evid) (unApprovedTransactions st) in
  g <- defined (get_prop evdata "gasPrice") ;;
  if truthy g then
    match txMeta with
    | None => throw SyntaxError   (* JSON.parse(undefined) *)
    | Some t =>
        let newTxMeta := set_gasPrice g (json_clone t) in
        emit (updateTransaction newTxMeta) ;;
        emit (updateAndApproveTransaction (Some newTxMeta))
    end
  else emit (updateAndApproveTransaction txMeta).

Definition handleConfirm (evdata : jsval) : M unit :=
  emit (enter_handleConfirm evdata) ;;
  st <- get_state ;;
  if nonempty (unapprovedPersonalMsgs st) then confirm_message Personal evdata
  else if nonempty (unapprovedMsgs st) then confirm_message Plain evdata
  else if nonempty (unapprovedTypedMessages st) then confirm_message Typed evdata
  else if nonempty (transactions st) then confirm_transaction evdata
  else throw (Error "No new transactions.").

(** *** getLatestMessageParams *)

(** The loop variables [time], [msg] and [finalId]. *)
Record scan : Type := {
  s_time : Z;
  s_msg : option ref;     (* [None] is [null] *)
  s_finalId : jsval
}.

Definition scan_init : scan :=
  {| s_time := 0; s_msg := None; s_finalId := JNum 0 |}.

(** Body of the loops over the plain and the personal collection. *)
Definition scan_step (k : kind) (acc : scan) (e : string * Message) : scan :=
  if time (snd e) >? s_time acc
  then {| s_time := time (snd e); s_msg := Some (k, fst e); s_finalId := JStr (fst e) |}
  else acc.

(** [msg.msgParams.message = finalMsg], with [finalMsg] the decoded
    [data], or [data] itself when decoding throws. *)
Definition set_message (p : props) : props :=
  let d := prop "data" p in
  assoc_set "message" (match hexToUtf8 d with Some t => t | None => d end) p.

(** [msg.msgParams.typedMessages = msg.msgParams.data] *)
Definition set_typedMessages (p : props) : props :=
  assoc_set "typedMessages" (prop "data" p) p.

(** Body of the loop over the typed collection; it also writes to the
    selected message. *)
Definition typed_step (acc : scan * State) (e : string * Message) : scan * State :=
  if time (snd e) >? s_time (fst acc)
  then ({| s_time := time (snd e); s_msg := Some (Typed, fst e); s_finalId := JStr (fst e) |},
        mutate (Typed, fst e) set_typedMessages (snd acc))
  else acc.

(** The result [{ msgParams, id }]; [None] is the empty object [{}]. *)
Definition getLatestMessageParams : M (option (props * jsval)) :=
  st <- get_state ;;
  let a1 := fold_left (scan_step Plain) (unapprovedMsgs st) scan_init in
  let a2 := fold_left (scan_step Personal) (unapprovedPersonalMsgs st) a1 in
  let st1 :=
    match s_msg a2 with
    | Some r => mutate r set_message st
    | None => st
    end in
  let (a3, st2) := fold_left typed_step (unapprovedTypedMessages st1) (a2, st1) in
  put_state st2 ;;
  match s_msg a3 with
  | Some r =>
      m <- defined (deref r st2) ;;
      ret (Some (msgParams m, s_finalId a3))
  | None => ret None
  end.

(** The [msgParams] of the selected message of collection [k], as
    [getLatestMessageParams] leaves them. *)
Definition shown_params (k : kind) (p : props) : props :=
  match k with
  | Typed => set_typedMessages p
  | _ => set_message p
  end.

End WithBuiltins.

(** [m] is the message bound to [key] in collection [k]. *)
Definition pending (st : State) (k : kind) (key : string) (m : Message) : Prop :=
  In (key, m) (coll k st).

(** An object has one binding per key. *)
Definition keys_unique (st : State) : Prop :=
  forall k, NoDup (map fst (coll k st)).

(** The bindings of a collection, each with the reference to its
    message. *)
Definition tag (k : kind) (c : list (string * Message)) : list (ref * Message) :=
  map (fun e => ((k, fst e), snd e)) c.

(** All messages in the order [getLatestMessageParams] visits them. *)
Definition scan_order (st : State) : list (ref * Message) :=
  tag Plain (unapprovedMsgs st) ++ tag Personal (unapprovedPersonalMsgs st)
  ++ tag Typed (unapprovedTypedMessages st).

(** The update of [time], [msg] and [finalId] common to the three loops. *)
Definition select (e : ref * Message) : scan :=
  {| s_time := time (snd e); s_msg := Some (fst e); s_finalId := JStr (snd (fst e)) |}.

Definition pick_step (acc : scan) (e : ref * Message) : scan :=
  if time (snd e) >? s_time acc then select e else acc.

Definition pick (acc : scan) (l : list (ref * Message)) : scan :=
  fold_left pick_step l acc.

(** [a] is visited in a collection no later than that of [b]. *)
Definition rank_le (a b : ref * Message) : Prop :=
  (scan_rank (fst (fst a)) <= scan_rank (fst (fst b)))%nat.

(** [w] after the further effects [es]. *)
Definition extend (w : World) (es : list Event) : World :=
  {| state := state w; trace := trace w ++ es |}.

(** The three message collections are empty. *)
Definition messages_empty (st : State) : Prop :=
  unapprovedPersonalMsgs st = [] /\ unapprovedMsgs st = [] /\
  unapprovedTypedMessages st = [].

(** The reject call for a message of collection [k]. *)
Definition cancel_event (k : kind) (n : jsval) : Event :=
  match k with
  | Plain => cancelMessage n
  | Personal => cancelPersonalMessage n
  | Typed => cancelTypedMessage n
  end.

(** The reject call [handleDeny] makes in state [st] with the parsed id
    [n]: for the first non-empty collection among personal, plain, typed
    and transactions; none when all four are empty. *)
Definition reject_calls (st : State) (n : jsval) : list Event :=
  if nonempty (unapprovedPersonalMsgs st) then [cancelPersonalMessage n]
  else if nonempty (unapprovedMsgs st) then [cancelMessage n]
  else if nonempty (unapprovedTypedMessages st) then [cancelTypedMessage n]
  else if nonempty (transactions st) then [cancelTransaction n]
  else [].

(** Number of invocations of [handleDeny] recorded in a trace. *)
Fixpoint deny_count (tr : list Event) : nat :=
  match tr with
  | [] => 0
  | enter_handleDeny _ :: r => S (deny_count r)
  | _ :: r => deny_count r
  end.

(** The calls into the signing collaborator's accept and reject
    operations recorded in a trace. *)
Definition is_accept (e : Event) : bool :=
  match e with
  | signPersonalMessage _ | signMessage _ | signTypedMessage _
  | updateTransaction _ | updateAndApproveTransaction _ => true
  | _ => false
  end.

Definition is_reject (e : Event) : bool :=
  match e with
  | cancelPersonalMessage _ | cancelMessage _ | cancelTypedMessage _
  | cancelTransaction _ => true
  | _ => false
  end.

Definition collaborator_calls (tr : list Event) : list Event :=
  filter (fun e => (is_accept e || is_reject e)%bool) tr.

End Store.

(** ** The approval session opened by [showPopup] (store.js) *)

Module Popup.

Import Store.
Local Open Scope js_scope.

(** The approval window, as the orchestrator sees it. *)
Record Window : Type := { closed : bool }.

(** What [showPopup] reads from its environment. *)
Record Env : Type := {
  instanceId : string;      (* torus.instanceId *)
  origin : jsval;           (* ancestorOrigins[0] or document.referrer *)
  popup_allowed : bool      (* window.open returns a window, not null *)
}.

(** The variables one call of [showPopup] closes over. *)
Record Session : Type := {
  confirmWindow : option Window;        (* [None]: undefined or null *)
  iClosedConfirmWindow : jsval;
  txId : jsval;
  bc_closed : bool;                     (* bc.close() has been called *)
  confirmTimer : bool;                  (* the interval is set and not cleared *)
  isTx : bool;
  shown_tx : option TxMeta;             (* var txParams *)
  shown_msg : option (props * jsval);   (* var { msgParams, id } *)
  balance : jsval
}.

Definition last_opt {A : Type} (l : list A) : option A :=
  match rev l with
  | [] => None
  | x :: _ => Some x
  end.

(** [confirmWindow && confirmWindow.close()] *)
Definition close_window (cw : option Window) : option Window :=
  match cw with
  | Some _ => Some {| closed := true |}
  | None => None
  end.

Section WithBuiltins.

Context {rt : Builtins}.
Variable env : Env.

(** [showPopup]: the session it sets up. *)
Definition showPopup : M Session :=
  emit (new_channel ("torus_channel_" ++ instanceId env)%string) ;;
  tx <- isTorusTransaction ;;
  emit (window_open (if tx then 660 else 400) 500) ;;
  let cw := if popup_allowed env then Some {| closed := false |} else None in
  if tx then
    st <- get_state ;;
    wei <- defined (weiBalance st) ;;
    ret {| confirmWindow := cw; iClosedConfirmWindow := JUndefined;
           txId := JUndefined; bc_closed := false; confirmTimer := true;
           isTx := true;
           shown_tx := last_opt (unApprovedTransactions st);
           shown_msg := None;
           balance := fromWei wei |}
  else
    latest <- getLatestMessageParams ;;
    ret {| confirmWindow := cw; iClosedConfirmWindow := JUndefined;
           txId := JUndefined; bc_closed := false; confirmTimer := true;
           isTx := false;
           shown_tx := None;
           shown_msg := latest;
           balance := JUndefined |}.

(** [txId = ...; await bc.postMessage(...)] on the ready signal. *)
Definition on_ready (s : Session) : M Session :=
  if isTx s then
    t <- defined (shown_tx s) ;;
    st <- get_state ;;
    emit (postTransaction (origin env) t (networkHost st) (balance s)) ;;
    ret {| confirmWindow := confirmWindow s;
           iClosedConfirmWindow := iClosedConfirmWindow s;
           txId := JNum (id t);
           bc_closed := bc_closed s; confirmTimer := confirmTimer s;
           isTx := isTx s; shown_tx := shown_tx s; shown_msg := shown_msg s;
           balance := balance s |}
  else
    let i := match shown_msg s with Some (_, i) => i | None => JUndefined end in
    emit (postMessage (origin env) (option_map fst (shown_msg s)) i) ;;
    ret {| confirmWindow := confirmWindow s;
           iClosedConfirmWindow := iClosedConfirmWindow s;
           txId := i;
           bc_closed := bc_closed s; confirmTimer := confirmTimer s;
           isTx := isTx s; shown_tx := shown_tx s; shown_msg := shown_msg s;
           balance := balance s |}.

(** [bc.close(); iClosedConfirmWindow = true; txId = undefined;
     confirmWindow && confirmWindow.close()] *)
Definition close_by_orchestrator (s : Session) : Session :=
  {| confirmWindow := close_window (confirmWindow s);
     iClosedConfirmWindow := JBool true;
     txId := JUndefined;
     bc_closed := true; confirmTimer := confirmTimer s;
     isTx := isTx s; shown_tx := shown_tx s; shown_msg := shown_msg s;
     balance := balance s |}.

(** The body of [bc.onmessage], the same in both branches of [showPopup]
    but for [on_ready].  [Throw] rejects the promise of the async
    handler; every throw happens before the session variables are
    written. *)
Definition onmessage (s : Session) (evdata : jsval) : M Session :=
  stale <-
    (if negb (strict_eq (txId s) JUndefined) then
       evid <- defined (get_prop evdata "id") ;;
       ret (negb (strict_eq (txId s) evid))
     else ret false) ;;
  if (stale : bool) then ret s   (* ignore message if txId is different *)
  else if (strict_eq evdata (JStr "popup-loaded") && strict_eq (txId s) JUndefined)%bool
  then on_ready s
  else
    ty <- defined (get_prop evdata "type") ;;
    if strict_eq ty (JStr "confirm-transaction") then
      handleConfirm evdata ;;
      ret (close_by_orchestrator s)
    else if strict_eq ty (JStr "deny-transaction") then
      evid <- defined (get_prop evdata "id") ;;
      handleDeny evid ;;
      ret (close_by_orchestrator s)
    else ret s.

(** The callback of [confirmTimer], run every second while the interval
    is set. *)
Definition watchdog (s : Session) : M Session :=
  w <- defined (confirmWindow s) ;;
  if closed w then
    (if negb (truthy (iClosedConfirmWindow s)) then
       emit (log_error "user closed popup") ;;
       handleDeny (txId s)
     else ret tt) ;;
    ret {| confirmWindow := None;
           iClosedConfirmWindow := JBool false;
           txId := JUndefined;
           bc_closed := true;
           confirmTimer := false;      (* clearInterval(confirmTimer) *)
           isTx := isTx s; shown_tx := shown_tx s; shown_msg := shown_msg s;
           balance := balance s |}
  else ret s.

(** What can happen to an open session. *)
Inductive Input : Type :=
| Deliver (evdata : jsval)   (* a message arrives on the channel *)
| Tick                       (* one watchdog interval elapses *)
| UserClose.                 (* the user closes the approval window *)

(** A callback that throws leaves the session variables as they were;
    what it wrote to the store and the calls it made remain. *)
Definition settle (s : Session) (r : completion Session * World) : Session * World :=
  match r with
  | (Normal s', w') => (s', w')
  | (Throw _, w') => (s, w')
  end.

Definition step (c : Session * World) (i : Input) : Session * World :=
  let (s, w) := c in
  match i with
  | Deliver evdata =>
      if bc_closed s then c else settle s (onmessage s evdata w)
  | Tick =>
      if confirmTimer s then settle s (watchdog s w) else c
  | UserClose =>
      ({| confirmWindow := close_window (confirmWindow s);
          iClosedConfirmWindow := iClosedConfirmWindow s;
          txId := txId s;
          bc_closed := bc_closed s; confirmTimer := confirmTimer s;
          isTx := isTx s; shown_tx := shown_tx s; shown_msg := shown_msg s;
          balance := balance s |}, w)
  end.

Definition run (c : Session * World) (inputs : list Input) : Session * World :=
  fold_left step inputs c.

End WithBuiltins.

(** The session after the watchdog has seen the window closed. *)
Definition torn_down (s : Session) : Session :=
  {| confirmWindow := None;
     iClosedConfirmWindow := JBool false;
     txId := JUndefined;
     bc_closed := true;
     confirmTimer := false;
     isTx := isTx s; shown_tx := shown_tx s; shown_msg := shown_msg s;
     balance := balance s |}.

(** A message that carries an id other than the session's [txId]
    ([txId !== ev.data.id]). *)
Definition carries_other_id (s : Session) (evdata : jsval) : Prop :=
  exists evid, get_prop evdata "id" = Some evid /\ strict_eq (txId s) evid = false.

End Popup.

(** ** The network-change surface (ProviderChange.vue) *)

Module ProviderChange.

(** Effects of the component's methods, in the order made. *)
Inductive Effect : Type :=
| new_BroadcastChannel (name : string)
| bc_postMessage (name : string) (message : jsval)
| bc_close (name : string)
| window_close.

(** The component's [data()]. *)
Record Component : Type := {
  origin : string;
  type : string;
  network : jsval;
  rpcNetwork : jsval;
  payload : jsval
}.

Definition obj (fields : list (string * jsval)) : jsval := JObj CPlain fields.

Definition triggerSign (this : Component) : list Effect :=
  [ new_BroadcastChannel "torus_provider_change_channel";
    bc_postMessage "torus_provider_change_channel"
      (obj [("data", obj [("type", JStr "confirm-provider-change");
                          ("payload", payload this);
                          ("approve", JBool true)])]);
    bc_close "torus_provider_change_channel";
    window_close ].

Definition triggerDeny (this : Component) : list Effect :=
  [ new_BroadcastChannel "torus_provider_change_channel";
    bc_postMessage "torus_provider_change_channel"
      (obj [("data", obj [("type", JStr "deny-provider-change");
                          ("approve", JBool false)])]);
    bc_close "torus_provider_change_channel";
    window_close ].

(** The two user actions of the surface. *)
Inductive Action : Type := Confirm | Cancel.

Definition on_click (a : Action) (this : Component) : list Effect :=
  match a with
  | Confirm => triggerSign this
  | Cancel => triggerDeny this
  end.

(** The [approve] field of the decision a message carries. *)
Definition approve_of (message : jsval) : option jsval :=
  match get_prop message "data" with
  | Some d => get_prop d "approve"
  | None => None
  end.

End ProviderChange.

(** ** A reference runtime

    Executable builtins, used to run the program on concrete inputs.
    They follow the JavaScript runtime and the libraries on the values
    the examples use: numbers, [undefined], decimal numerals, text that
    is not hexadecimal and well-formed hexadecimal ASCII. *)

Module Reference.

Fixpoint digits (s : string) (acc : option Z) : option Z :=
  match s with
  | EmptyString => acc
  | String a r =>
      match digit_of a with
      | Some d =>
          digits r (Some (10 * match acc with Some z => z | None => 0 end + Z.of_nat d))
      | None => acc
      end
  end.

Definition number_or_NaN (o : option Z) : jsval :=
  match o with
  | Some z => JNum z
  | None => JNaN
  end.

Definition parseInt10 (v : jsval) : jsval :=
  match v with
  | JNum z => JNum z
  | JStr (String "-"%char r) => number_or_NaN (option_map Z.opp (digits r None))
  | JStr s => number_or_NaN (digits s None)
  | _ => JNaN
  end.

Definition ToPropertyKey (v : jsval) : string :=
  match v with
  | JStr s => s
  | JNum z => DecimalString.NilZero.string_of_int (Z.to_int z)
  | JUndefined => "undefined"
  | JNull => "null"
  | JBool true => "true"
  | JBool false => "false"
  | JNaN => "NaN"
  | JObj _ _ => "[object Object]"
  end.

Definition hex_digit (a : ascii) : option N :=
  let n := N_of_ascii a in
  if (N.leb 48 n && N.leb n 57)%bool then Some (n - 48)%N
  else if (N.leb 97 n && N.leb n 102)%bool then Some (n - 87)%N
  else if (N.leb 65 n && N.leb n 70)%bool then Some (n - 55)%N
  else None.

Fixpoint hex_bytes (s : string) : option (list byte) :=
  match s with
  | EmptyString => Some []
  | String _ EmptyString => None
  | String a (String b r) =>
      match hex_digit a, hex_digit b, hex_bytes r with
      | Some x, Some y, Some l =>
          match Byte.of_N (16 * x + y) with
          | Some c => Some (c :: l)
          | None => None
          end
      | _, _, _ => None
      end
  end.

Fixpoint ascii_text (l : list byte) : option string :=
  match l with
  | [] => Some EmptyString
  | b :: r =>
      if N.ltb (Byte.to_N b) 128 then
        option_map (String (ascii_of_N (Byte.to_N b))) (ascii_text r)
      else None
  end.

Definition hexToUtf8 (v : jsval) : option jsval :=
  match v with
  | JStr s =>
      if String.eqb (substring02 s) "0x" then
        match hex_bytes (slice2 s) with
        | Some l => option_map JStr (ascii_text l)
        | None => None
        end
      else None
  | _ => None
  end.

Definition JSON_roundtrip (v : jsval) : jsval :=
  match v with
  | JNaN => JNull
  | _ => v
  end.

Definition fromWei (wei : Z) : jsval :=
  JStr (DecimalString.NilZero.string_of_int (Z.to_int (wei / 10 ^ 18))).

Definition builtins : Builtins :=
  Build_Builtins parseInt10 ToPropertyKey hexToUtf8 hex_bytes JSON_roundtrip fromWei.

End Reference.

(** ** Concrete inputs *)

Module Examples.

Import Store.

Definition obj (fields : list (string * jsval)) : jsval := JObj CPlain fields.
Definition arr1 (x : jsval) : jsval := JObj CArray [("0", x)].

(** [{ method: 'eth_call', params: [{ from: '0x0aff', to: '0x01' }] }] *)
Definition call_request : jsval :=
  obj [("method", JStr "eth_call");
       ("params", arr1 (obj [("from", JStr "0x0aff"); ("to", JStr "0x01")]))].

(** [{ method: 'eth_estimateGas', params: [{ to: '0x01' }] }] *)
Definition estimate_request : jsval :=
  obj [("method", JStr "eth_estimateGas");
       ("params", arr1 (obj [("to", JStr "0x01")]))].

Definition mk_world (plain personal typed : list (string * Message))
  (txs : list (string * TxMeta)) : World :=
  {| state :=
       {| unapprovedMsgs := plain;
          unapprovedPersonalMsgs := personal;
          unapprovedTypedMessages := typed;
          transactions := txs;
          weiBalance := Some (2 * 10 ^ 18);
          networkHost := JStr "mainnet" |};
     trace := [] |}.

Definition message (text : string) (t : Z) : Message :=
  {| msgParams := [("data", JStr text); ("from", JStr "0xab")]; time := t |}.

Definition transaction (i : Z) (s : TxStatus) : TxMeta :=
  {| id := i;
     txParams := {| from := "0xab"; to := "0xcd"; value := "0x0"; gas := "0x5208";
                    gasPrice := JStr "0x1"; data := None |};
     status := s; txTime := 100; hash := None |}.

(** Nothing pending. *)
Definition w_idle : World := mk_world [] [] [] [].

(** One pending transaction. *)
Definition w_tx : World := mk_world [] [] [] [("7", transaction 7 unapproved)].

(** One pending personal message and one pending transaction. *)
Definition w_both : World :=
  mk_world [] [("1", message "hello" 50)] [] [("7", transaction 7 unapproved)].

(** [{ type: 'confirm-transaction', id: 7 }] and the same with a gas
    price. *)
Definition confirm7 : jsval :=
  obj [("type", JStr "confirm-transaction"); ("id", JNum 7)].
Definition confirm7_gas : jsval :=
  obj [("type", JStr "confirm-transaction"); ("id", JNum 7); ("gasPrice", JStr "0x2")].

(** One pending personal message. *)
Definition w_personal : World := mk_world [] [("1", message "hello" 50)] [] [].

Definition env0 : Popup.Env :=
  {| Popup.instanceId := "abc";
     Popup.origin := JStr "https://dapp.example";
     Popup.popup_allowed := true |}.

Definition no_session : Popup.Session :=
  {| Popup.confirmWindow := None; Popup.iClosedConfirmWindow := JUndefined;
     Popup.txId := JUndefined; Popup.bc_closed := true; Popup.confirmTimer := false;
     Popup.isTx := false; Popup.shown_tx := None; Popup.shown_msg := None;
     Popup.balance := JUndefined |}.

(** The session [showPopup] opens in the world [w]. *)
Definition open_popup (w : World) : Popup.Session * World :=
  Popup.settle no_session (@Popup.showPopup Reference.builtins env0 w).

(** The session for the pending transaction, after the surface has
    reported ready. *)
Definition tx_session_ready : Popup.Session * World :=
  @Popup.run Reference.builtins env0 (open_popup w_tx)
    [Popup.Deliver (JStr "popup-loaded")].

(** Decisions for other ids: a number, a string, and none at all. *)
Definition stale_messages : list jsval :=
  [ obj [("type", JStr "deny-transaction"); ("id", JNum 8)];
    obj [("type", JStr "confirm-transaction"); ("id", JStr "7")];
    JStr "popup-loaded" ].

(** A plain and a typed message with the same time. *)
Definition w_tie : World :=
  mk_world [("1", message "hello" 5)] [] [("2", message "typed" 5)] [].

(** A pending message whose time is 0. *)
Definition w_epoch : World := mk_world [("1", message "hello" 0)] [] [] [].

(** A personal message at time 50 and a typed message at time 75. *)
Definition w_two : World :=
  mk_world [] [("1", message "0x6869" 50)] [("2", message "typed" 75)] [].

(** A plain message, a typed message and a transaction, all pending. *)
Definition w_crowded : World :=
  mk_world [("1", message "hello" 5)] [] [("2", message "typed" 9)]
    [("7", transaction 7 unapproved)].

(** Nothing pending; one transaction, already approved, is still stored
    in [state.transactions]. *)
Definition w_approved : World := mk_world [] [] [] [("7", transaction 7 approved)].

End Examples.

(** ** What the selection and the resolution leave untouched *)

Module Registry.

Import Store.

(** [p'] has the properties of [p], but for [message] and
    [typedMessages]. *)
Definition untouched (p p' : props) : Prop :=
  forall name, name <> "message" -> name <> "typedMessages" ->
               prop name p' = prop name p.

(** [c'] has the keys of [c] in the same order, each bound to a message
    of the same time whose [msgParams] are [untouched]. *)
Definition same_messages (c c' : list (string * Message)) : Prop :=
  Forall2 (fun e e' => fst e' = fst e /\ time (snd e') = time (snd e) /\
                       untouched (msgParams (snd e)) (msgParams (snd e')))
          c c'.

(** The message collection [handleConfirm] and [handleDeny] serve: the
    first non-empty one among personal, plain and typed. *)
Definition serving (st : State) : option kind :=
  if nonempty (unapprovedPersonalMsgs st) then Some Personal
  else if nonempty (unapprovedMsgs st) then Some Plain
  else if nonempty (unapprovedTypedMessages st) then Some Typed
  else None.

(** The reject calls recorded in a trace. *)
Definition rejects (tr : list Event) : list Event := filter is_reject tr.

(** The world after [msgParams.metamaskId = n] on the message [r] and the
    effects [es]. *)
Definition signed_world (r : ref) (n : jsval) (es : list Event) (w : World) : World :=
  {| state := mutate r (assoc_set "metamaskId" n) (state w);
     trace := trace w ++ es |}.

(** [st'] differs from [st] at most in the [message] and [typedMessages]
    properties of pending messages. *)
Definition frame (st st' : State) : Prop :=
  transactions st' = transactions st /\
  weiBalance st' = weiBalance st /\
  networkHost st' = networkHost st /\
  forall k, same_messages (coll k st) (coll k st').

Section WithBuiltins.

Context {rt : Builtins}.

(** The stages of [getLatestMessageParams]: the loop variables after the
    plain and the personal loop, the store after the selected message's
    text is decoded, and the outcome of the typed loop. *)
Definition after_two_loops (st : State) : scan :=
  fold_left (scan_step Personal) (unapprovedPersonalMsgs st)
    (fold_left (scan_step Plain) (unapprovedMsgs st) scan_init).

Definition decoded (st : State) : State :=
  match s_msg (after_two_loops st) with
  | Some r => mutate r set_message st
  | None => st
  end.

Definition typed_loop (st : State) : scan * State :=
  fold_left typed_step (unapprovedTypedMessages (decoded st))
    (after_two_loops st, decoded st).

End WithBuiltins.

(** The keys and times of a collection, in order. *)
Definition skeleton (c : list (string * Message)) : list (string * Z) :=
  map (fun e => (fst e, time (snd e))) c.

(** The typed collection [c] after the typed loop has run over it from
    the loop variables [acc]: each message the loop selected on its way
    has [typedMessages] set. *)
Fixpoint mark (acc : scan) (c : list (string * Message)) : list (string * Message) :=
  match c with
  | [] => []
  | (k, m) :: r =>
      if time m >? s_time acc
      then (k, {| msgParams := set_typedMessages (msgParams m); time := time m |})
           :: mark {| s_time := time m; s_msg := Some (Typed, k); s_finalId := JStr k |} r
      else (k, m) :: mark acc r
  end.

End Registry.


(** ** Opening a session and the handshake *)

Module Handshake.

Import Store Popup.

(** The name of the session's channel. *)
Definition channel_name (env : Env) : string :=
  ("torus_channel_" ++ instanceId env)%string.

(** The session variables right after [showPopup]. *)
Definition fresh_session (env : Env) (tx : bool) (t : option TxMeta)
  (latest : option (props * jsval)) (bal : jsval) : Session :=
  {| confirmWindow := if popup_allowed env then Some {| closed := false |} else None;
     iClosedConfirmWindow := JUndefined;
     txId := JUndefined;
     bc_closed := false;
     confirmTimer := true;
     isTx := tx;
     shown_tx := t;
     shown_msg := latest;
     balance := bal |}.

(** [s] after [txId = v]. *)
Definition with_txId (s : Session) (v : jsval) : Session :=
  {| confirmWindow := confirmWindow s;
     iClosedConfirmWindow := iClosedConfirmWindow s;
     txId := v;
     bc_closed := bc_closed s; confirmTimer := confirmTimer s;
     isTx := isTx s; shown_tx := shown_tx s; shown_msg := shown_msg s;
     balance := balance s |}.

(** A decision carrying [evid] passes the first test of the handler:
    [txId] is unset, or [txId === ev.data.id]. *)
Definition accepted (s : Session) (evid : jsval) : Prop :=
  strict_eq (txId s) JUndefined = true \/ strict_eq (txId s) evid = true.

(** Inputs that are not messages. *)
Definition not_a_message (i : Input) : Prop := i = Tick \/ i = UserClose.

End Handshake.


(** ** More of the provider pipeline *)

Module Pipeline.

(** [chunk.params[k]] and [chunk.params[0][k]]; [None] when a read on
    the way raises. *)
Definition param (chunk : jsval) (k : string) : option jsval :=
  match get_prop chunk "params" with
  | Some ps => get_prop ps k
  | None => None
  end.

Definition param0_field (chunk : jsval) (k : string) : option jsval :=
  match param chunk "0" with
  | Some p0 => get_prop p0 k
  | None => None
  end.

(** [undefined] or [null]. *)
Definition nullish (v : jsval) : Prop := v = JUndefined \/ v = JNull.

(** *** buf2hex *)

(** The digit of [n < 16] in [toString(16)]. *)
Definition hex_char (n : N) : ascii :=
  nth (N.to_nat n)
    ["0"; "1"; "2"; "3"; "4"; "5"; "6"; "7"; "8"; "9"; "a"; "b"; "c"; "d"; "e"; "f"]%char
    "0"%char.

(** [x.toString(16)] for an element [x] of a [Uint8Array] ([x < 256]). *)
Definition toString16 (x : N) : string :=
  if N.ltb x 16 then String (hex_char x) EmptyString
  else String (hex_char (x / 16)) (String (hex_char (x mod 16)) EmptyString).

(** [s.slice(-2)] *)
Definition slice_last2 (s : string) : string :=
  String.substring (String.length s - 2) 2 s.

(** [('00' + x.toString(16)).slice(-2)] *)
Definition byte_hex (x : byte) : string :=
  slice_last2 ("00" ++ toString16 (Byte.to_N x))%string.

(** [Array.prototype.map.call(new Uint8Array(buffer), ...).join('')] *)
Definition buf2hex (buffer : list byte) : string :=
  String.concat "" (map byte_hex buffer).

End Pipeline.

(** ** The network-change surface receives its request (ProviderChange.vue) *)

Module NetworkChange.

Import ProviderChange.

(** The surface: the component and whether the channel opened by
    [mounted] is still open. *)
Record Surface : Type := {
  component : Component;
  listening : bool
}.

(** What [mounted] does at once: it opens the channel and posts the ready
    signal. *)
Definition mounted : list Effect :=
  [ new_BroadcastChannel "torus_provider_change_channel";
    bc_postMessage "torus_provider_change_channel" (obj [("data", JStr "popup-loaded")]) ].

Section WithURL.

(** [new URL(origin).hostname]; [None] when the constructor throws. *)
Variable URL_hostname : jsval -> option string.

(** The body of the [bc.onmessage] handler set by [mounted], up to
    [bc.close()]: the component it leaves, or the exception that rejects
    the async handler. *)
Definition handle (this : Component) (evdata : jsval) : completion Component :=
  let d := if truthy evdata then evdata else obj [] in   (* ev.data || {} *)
  match get_prop d "payload" with
  | None => Throw TypeError
  | Some p =>
      (* { network, type } = payload: raises on undefined and null *)
      match get_prop p "network", get_prop p "type", get_prop d "origin" with
      | Some network', Some type', Some origin' =>
          let hostname :=
            match URL_hostname origin' with
            | Some h => h
            | None => ""      (* url = { hostname: '' } *)
            end in
          let payload' := obj [("network", network'); ("type", type')] in
          if (truthy type' && strict_eq type' (JStr "rpc"))%bool then
            Normal {| origin := hostname; type := "rpc"; network := network this;
                      rpcNetwork := network'; payload := payload' |}
          else
            Normal {| origin := hostname; type := "non-rpc"; network := network';
                      rpcNetwork := rpcNetwork this; payload := payload' |}
      | _, _, _ => Throw TypeError
      end
  end.

(** A message arrives: it is handled while the channel is open, and the
    handler closes the channel when it has run to its end. *)
Definition deliver (sf : Surface) (evdata : jsval) : Surface :=
  if listening sf then
    match handle (component sf) evdata with
    | Normal c => {| component := c; listening := false |}
    | Throw _ => sf
    end
  else sf.

End WithURL.

(** A message that carries no request: [ev.data] is falsy, or its
    [payload] is [undefined] or [null]. *)
Definition no_request (evdata : jsval) : Prop :=
  truthy evdata = false \/
  exists p, get_prop evdata "payload" = Some p /\ (p = JUndefined \/ p = JNull).

End NetworkChange.


(** ** More concrete inputs *)

Module Scenarios.

Import Store.

(** Two plain messages with the same time. *)
Definition w_same_kind : World :=
  Examples.mk_world [("1", Examples.message "first" 7); ("2", Examples.message "second" 7)]
    [] [] [].

(** One pending transaction, the balance of the selected address
    unknown. *)
Definition w_no_balance : World :=
  {| state :=
       {| unapprovedMsgs := []; unapprovedPersonalMsgs := [];
          unapprovedTypedMessages := [];
          transactions := [("7", Examples.transaction 7 unapproved)];
          weiBalance := None;
          networkHost := JStr "mainnet" |};
     trace := [] |}.

(** A browser that refuses to open windows. *)
Definition env_blocked : Popup.Env :=
  {| Popup.instanceId := "abc";
     Popup.origin := JStr "https://dapp.example";
     Popup.popup_allowed := false |}.

Definition blocked_session : Popup.Session * World :=
  Popup.settle Examples.no_session
    (@Popup.showPopup Reference.builtins env_blocked Examples.w_tx).

(** Decisions. *)
Definition deny7 : jsval :=
  Examples.obj [("type", JStr "deny-transaction"); ("id", JNum 7)].
Definition confirm1 : jsval :=
  Examples.obj [("type", JStr "confirm-transaction"); ("id", JNum 1)].
Definition confirm8 : jsval :=
  Examples.obj [("type", JStr "confirm-transaction"); ("id", JNum 8)].

(** A simulation call without parameters. *)
Definition call_without_params : jsval :=
  Examples.obj [("method", JStr "eth_call")].

(** [{ method: 'eth_sendTransaction', params: [{ from: '0x0aff', to: '0x01' }] }] *)
Definition send_request : jsval :=
  Examples.obj
    [("method", JStr "eth_sendTransaction");
     ("params", Examples.arr1 (Examples.obj [("from", JStr "0x0aff"); ("to", JStr "0x01")]))].

(** [new URL(origin).hostname] for origins of the form [https://host]. *)
Definition hostname_of (v : jsval) : option string :=
  match v with
  | JStr s =>
      if String.eqb (String.substring 0 8 s) "https://"
      then Some (String.substring 8 (String.length s - 8) s)
      else None
  | _ => None
  end.

(** A request to switch to a custom RPC endpoint. *)
Definition rpc_endpoint : jsval :=
  Examples.obj [("networkName", JStr "local"); ("networkUrl", JStr "http://localhost:8545")].

Definition rpc_request : jsval :=
  Examples.obj
    [("origin", JStr "https://dapp.example");
     ("payload", Examples.obj [("network", rpc_endpoint); ("type", JStr "rpc")])].

(** The component's [data()]. *)
Definition initial_component : ProviderChange.Component :=
  {| ProviderChange.origin := "";
     ProviderChange.type := "none";
     ProviderChange.network := JStr "";
     ProviderChange.rpcNetwork := Examples.obj [];
     ProviderChange.payload := Examples.obj [] |}.

Definition initial_surface : NetworkChange.Surface :=
  {| NetworkChange.component := initial_component; NetworkChange.listening := true |}.

End Scenarios.


(** ** The life of a session *)

Module Lifetime.

Import Store Popup.

(** The calls that resolve a request: an accept (a signature or the
    approval of a transaction) or a reject.  [updateTransaction] only
    records the edited gas price ahead of the approval. *)
Definition is_resolution (e : Event) : bool :=
  match e with
  | signPersonalMessage _ | signMessage _ | signTypedMessage _
  | updateAndApproveTransaction _ => true
  | cancelPersonalMessage _ | cancelMessage _ | cancelTypedMessage _
  | cancelTransaction _ => true
  | _ => false
  end.

Definition resolutions (tr : list Event) : nat :=
  List.length (filter is_resolution tr).

(** What happens around a session: an input to the session itself, or a
    change of the store made elsewhere in the wallet (a new request, a
    status update). *)
Inductive Happening : Type :=
| To_session (i : Input)
| Store_update (st : State).

Section WithBuiltins.

Context {rt : Builtins}.
Variable env : Env.

Definition happen (c : Session * World) (h : Happening) : Session * World :=
  match h with
  | To_session i => step env c i
  | Store_update st => (fst c, {| state := st; trace := trace (snd c) |})
  end.

Definition live (c : Session * World) (hs : list Happening) : Session * World :=
  fold_left happen hs c.

End WithBuiltins.

(** The session can make no further call: its channel is closed and its
    watchdog, if still running, knows the close was the orchestrator's. *)
Definition settled (s : Session) : Prop :=
  bc_closed s = true /\
  (confirmTimer s = true -> truthy (iClosedConfirmWindow s) = true).

End Lifetime.


(** * Verified properties *)

(** ** Association lists *)

Lemma assoc_get_set_same {A : Type} (k : string) (v : A) (l : list (string * A)) :
  assoc_get k (assoc_set k v l) = Some v.
Proof.
  induction l as [|[k' v'] r IH]; simpl.
  - now rewrite String.eqb_refl.
  - destruct (String.eqb k k') eqn:E; simpl.
    + now rewrite String.eqb_refl.
    + now rewrite E.
Qed.

Lemma assoc_get_set_other {A : Type} (k k' : string) (v : A) (l : list (string * A)) :
  k <> k' -> assoc_get k' (assoc_set k v l) = assoc_get k' l.
Proof.
  intros Hne. induction l as [|[k0 v0] r IH]; simpl.
  - apply String.eqb_neq in Hne. rewrite String.eqb_sym in Hne. now rewrite Hne.
  - destruct (String.eqb k k0) eqn:E; simpl.
    + apply String.eqb_eq in E. subst k0.
      assert (String.eqb k' k = false) as ->; [|reflexivity].
      apply String.eqb_neq. congruence.
    + now rewrite IH.
Qed.

(** ** Payload transform stage *)

Section TransformFacts.

Import Transform.
Context {rt : Builtins}.

(** Reading a named (non-index) property of an object. *)
Lemma get_prop_named (c : objclass) (p : list (string * jsval)) (k : string) :
  index_of_key k = None ->
  get_prop (JObj c p) k =
  Some match assoc_get k p with Some x => x | None => JUndefined end.
Proof.
  intros Hk. unfold get_prop. destruct c; try rewrite Hk; now destruct (assoc_get k p).
Qed.

(** Only an object that is not a buffer has objects as elements. *)
Lemma get_prop_0_object (ps : jsval) (c : objclass) (p : list (string * jsval)) :
  get_prop ps "0" = Some (JObj c p) ->
  exists cp pp, ps = JObj cp pp /\ assoc_get "0" pp = Some (JObj c p) /\
                forall pp', get_prop (JObj cp pp') "0" =
                            Some match assoc_get "0" pp' with Some x => x | None => JUndefined end.
Proof.
  destruct ps as [| | | | |s|cp pp]; simpl; try discriminate.
  - unfold char_at. destruct (String.get 0 s); discriminate.
  - destruct cp as [| |bs]; simpl.
    + destruct (assoc_get "0" pp) eqn:E; intros [= ->]; exists CPlain, pp.
      split; [reflexivity|split; [assumption|]].
      intros pp'; simpl; now destruct (assoc_get "0" pp').
    + destruct (assoc_get "0" pp) eqn:E; intros [= ->]; exists CArray, pp.
      split; [reflexivity|split; [assumption|]].
      intros pp'; simpl; now destruct (assoc_get "0" pp').
    + unfold byte_at. destruct (nth_error bs 0); discriminate.
Qed.

Lemma get_prop_params_object (chunk : jsval) (c : objclass) (p : list (string * jsval)) :
  get_prop chunk "params" = Some (JObj c p) ->
  exists cc cp, chunk = JObj cc cp /\ assoc_get "params" cp = Some (JObj c p).
Proof.
  destruct chunk as [| | | | |s|cc cp]; try (cbv; discriminate).
  intros H. exists cc, cp. split; [reflexivity|].
  rewrite get_prop_named in H by reflexivity.
  destruct (assoc_get "params" cp); [congruence|discriminate].
Qed.

(** After [chunk.params[0].from = v] on an object [params[0]], the method
    is as before and the field reads [v]. *)
Lemma assign_from_reads (chunk ps : jsval) (c : objclass) (p : list (string * jsval)) (v : jsval) :
  get_prop chunk "params" = Some ps ->
  get_prop ps "0" = Some (JObj c p) ->
  get_prop (assign_from chunk ps (JObj c p) v) "method" = get_prop chunk "method" /\
  from_field (assign_from chunk ps (JObj c p) v) = Some v.
Proof.
  intros Hps Hp0.
  destruct (get_prop_0_object _ _ _ Hp0) as (cp & pp & -> & Hpp & Hread).
  destruct (get_prop_params_object _ _ _ Hps) as (cc & cprops & -> & Hc).
  unfold assign_from, from_field, store_prop. split.
  - rewrite !get_prop_named by reflexivity.
    rewrite assoc_get_set_other; [reflexivity|discriminate].
  - rewrite get_prop_named by reflexivity.
    rewrite assoc_get_set_same, Hread, assoc_get_set_same.
    rewrite get_prop_named by reflexivity.
    now rewrite assoc_get_set_same.
Qed.

(** A request whose [from] is already an object (a buffer, an array) is
    passed on as it is. *)
Lemma transform_object_from (chunk : jsval) (c : objclass) (p : list (string * jsval)) :
  (exists m, get_prop chunk "method" = Some m) ->
  from_field chunk = Some (JObj c p) ->
  transform chunk = Normal chunk.
Proof.
  intros [m Hm] Hf. unfold transform, from_field in *. rewrite Hm.
  destruct (strict_eq m (JStr "eth_call") || strict_eq m (JStr "eth_estimateGas"))%bool;
    [|reflexivity].
  destruct (get_prop chunk "params") as [ps|]; [|discriminate].
  destruct (get_prop ps "0") as [p0|]; [|discriminate].
  rewrite Hf. reflexivity.
Qed.

Lemma transform_output_fixed (chunk c : jsval) :
  transform chunk = Normal c -> transform c = Normal c.
Proof.
  intros H. pose proof H as H0. unfold transform in H.
  destruct (get_prop chunk "method") as [m|] eqn:Hm; [|discriminate].
  destruct (strict_eq m (JStr "eth_call") || strict_eq m (JStr "eth_estimateGas"))%bool;
    [|congruence].
  destruct (get_prop chunk "params") as [ps|] eqn:Hps; [|discriminate].
  destruct (get_prop ps "0") as [p0|] eqn:Hp0; [|discriminate].
  destruct (get_prop p0 "from") as [f|] eqn:Hf; [|discriminate].
  assert (Hassign : forall v cv pv, v = JObj cv pv ->
             Normal (assign_from chunk ps p0 v) = Normal c -> transform c = Normal c).
  { intros v cv pv -> [= <-].
    destruct p0 as [| | | | | |c0 props0]; try exact H0.
    destruct (assign_from_reads chunk ps c0 props0 (JObj cv pv) Hps Hp0) as [Hmeth Hfrom].
    eapply transform_object_from; [|exact Hfrom].
    exists m. now rewrite Hmeth. }
  destruct (truthy f && is_string f)%bool.
  - destruct f; try congruence.
    destruct (String.eqb (substring02 s) "0x"); [|congruence].
    destruct (Buffer_from_hex (slice2 s)) as [bs|]; [|discriminate].
    eapply Hassign; [|exact H]. reflexivity.
  - destruct (negb (truthy f)); [|congruence].
    eapply Hassign; [|exact H]. reflexivity.
Qed.

(** C6: the payload transform stage is idempotent.  For every request
    whose method is [eth_call] or [eth_estimateGas], applying the stage
    to its own output gives what one application gives (the same request,
    or the same error); and a request whose [from] is already a buffer of
    raw bytes, or already the empty array, passes unchanged. *)
Theorem transform_idempotent (chunk : jsval) :
  simulation_call chunk ->
  transform_twice chunk = transform chunk /\
  (forall bs, from_field chunk = Some (buffer_of bs) -> transform chunk = Normal chunk) /\
  (from_field chunk = Some empty_array -> transform chunk = Normal chunk).
Proof.
  intros Hsim.
  assert (Hm : exists m, get_prop chunk "method" = Some m)
    by (destruct Hsim as [H|H]; rewrite H; eauto).
  repeat split.
  - unfold transform_twice. destruct (transform chunk) as [c|e] eqn:E; [|reflexivity].
    now apply (transform_output_fixed chunk).
  - intros bs Hf. eapply transform_object_from; eauto.
  - intros Hf. eapply transform_object_from; eauto.
Qed.

End TransformFacts.

(** The stage on a call request: [from] becomes a buffer, and a second
    pass changes nothing. *)
Lemma transform_idempotent_witness :
  Transform.simulation_call Examples.call_request /\
  @Transform.transform_twice Reference.builtins Examples.call_request =
  @Transform.transform Reference.builtins Examples.call_request.
Proof.
  split; [left; reflexivity|].
  apply (@transform_idempotent Reference.builtins Examples.call_request).
  left. reflexivity.
Defined.

Example transform_call_request :
  @Transform.transform Reference.builtins Examples.call_request =
  Normal (Examples.obj
    [("method", JStr "eth_call");
     ("params", Examples.arr1 (Examples.obj
        [("from", buffer_of [x0a; xff]%byte); ("to", JStr "0x01")]))]).
Proof. reflexivity. Qed.

Example transform_estimate_request :
  @Transform.transform Reference.builtins Examples.estimate_request =
  Normal (Examples.obj
    [("method", JStr "eth_estimateGas");
     ("params", Examples.arr1 (Examples.obj
        [("to", JStr "0x01"); ("from", empty_array)]))]).
Proof. reflexivity. Qed.

(** ** Classification and resolution of pending work *)

Section StoreFacts.

Import Store.
Context {rt : Builtins}.

(** What [isTorusTransaction] does, case by case. *)
Lemma isTorusTransaction_cases (w : World) :
  isTorusTransaction w =
  if (nonempty (unapprovedPersonalMsgs (state w))
      || nonempty (unapprovedMsgs (state w))
      || nonempty (unapprovedTypedMessages (state w)))%bool
  then (Normal false, w)
  else if nonempty (unApprovedTransactions (state w)) then (Normal true, w)
  else (Throw (Error "No new transactions."), w).
Proof.
  unfold isTorusTransaction, bind, get_state, ret, throw.
  destruct (nonempty (unapprovedPersonalMsgs (state w))); [reflexivity|].
  destruct (nonempty (unapprovedMsgs (state w))); [reflexivity|].
  destruct (nonempty (unapprovedTypedMessages (state w))); [reflexivity|].
  destruct (nonempty (unApprovedTransactions (state w))); reflexivity.
Qed.

(** What [handleDeny] does: it returns normally after at most one reject
    call. *)
Lemma handleDeny_calls (id : jsval) (w : World) :
  handleDeny id w =
  (Normal tt, extend w (enter_handleDeny id :: reject_calls (state w) (parseInt10 id))).
Proof.
  unfold handleDeny, reject_calls, bind, get_state, emit, ret, extend. simpl.
  destruct (nonempty (unapprovedPersonalMsgs (state w))); simpl;
    [now rewrite <- app_assoc|].
  destruct (nonempty (unapprovedMsgs (state w))); simpl;
    [now rewrite <- app_assoc|].
  destruct (nonempty (unapprovedTypedMessages (state w))); simpl;
    [now rewrite <- app_assoc|].
  destruct (nonempty (transactions (state w))); simpl;
    [now rewrite <- app_assoc|reflexivity].
Qed.

Lemma unApproved_nonempty (st : State) :
  nonempty (unApprovedTransactions st) = true -> nonempty (transactions st) = true.
Proof.
  unfold unApprovedTransactions. destruct (transactions st); simpl; congruence.
Qed.

(** C2: [isTorusTransaction] fails with the error "No new transactions."
    if and only if the three message collections and the pending
    (unapproved) transactions are all empty; whenever one of the four is
    non-empty it returns a classification and raises nothing. *)
Theorem isTorusTransaction_fails_iff (w : World) :
  (fst (isTorusTransaction w) = Throw (Error "No new transactions.") <->
   unApprovedTransactions (state w) = [] /\ messages_empty (state w)) /\
  (~ (unApprovedTransactions (state w) = [] /\ messages_empty (state w)) ->
   exists b : bool, isTorusTransaction w = (Normal b, w)).
Proof.
  rewrite isTorusTransaction_cases. unfold messages_empty.
  destruct (unapprovedPersonalMsgs (state w)) eqn:E1; simpl.
  2:{ split; [split; [discriminate|intros (_ & H & _); discriminate]|eauto]. }
  destruct (unapprovedMsgs (state w)) eqn:E2; simpl.
  2:{ split; [split; [discriminate|intros (_ & _ & H & _); discriminate]|eauto]. }
  destruct (unapprovedTypedMessages (state w)) eqn:E3; simpl.
  2:{ split; [split; [discriminate|intros (_ & _ & _ & H); discriminate]|eauto]. }
  destruct (unApprovedTransactions (state w)) eqn:E4; simpl.
  - split; [split; auto|]. intros H. exfalso. apply H. auto.
  - split; [split; [discriminate|intros (H & _); discriminate]|eauto].
Qed.

End StoreFacts.

Lemma isTorusTransaction_fails_iff_witness :
  fst (Store.isTorusTransaction Examples.w_idle) = Throw (Error "No new transactions.") /\
  exists b : bool, Store.isTorusTransaction Examples.w_tx = (Normal b, Examples.w_tx).
Proof.
  split.
  - apply (proj1 (isTorusTransaction_fails_iff Examples.w_idle)).
    repeat split; reflexivity.
  - apply (proj2 (isTorusTransaction_fails_iff Examples.w_tx)).
    intros [H _]. vm_compute in H. discriminate H.
Defined.

Section PriorityFacts.

Import Store.
Context {rt : Builtins}.

Lemma handleConfirm_dispatch (evdata : jsval) (w : World) :
  handleConfirm evdata w =
  let w' := extend w [enter_handleConfirm evdata] in
  if nonempty (unapprovedPersonalMsgs (state w)) then confirm_message Personal evdata w'
  else if nonempty (unapprovedMsgs (state w)) then confirm_message Plain evdata w'
  else if nonempty (unapprovedTypedMessages (state w)) then confirm_message Typed evdata w'
  else if nonempty (transactions (state w)) then confirm_transaction evdata w'
  else (Throw (Error "No new transactions."), w').
Proof.
  unfold handleConfirm, bind, emit, get_state, throw, extend. simpl.
  destruct (nonempty (unapprovedPersonalMsgs (state w))); [reflexivity|].
  destruct (nonempty (unapprovedMsgs (state w))); [reflexivity|].
  destruct (nonempty (unapprovedTypedMessages (state w))); [reflexivity|].
  destruct (nonempty (transactions (state w))); reflexivity.
Qed.

(** The message collection that [handleConfirm] and [handleDeny] serve
    when some message is pending. *)
Lemma first_message_kind (st : State) :
  ~ messages_empty st ->
  exists k,
    nonempty (coll k st) = true /\
    (forall n, reject_calls st n = [cancel_event k n]) /\
    (forall evdata w, state w = st ->
       handleConfirm evdata w =
       confirm_message k evdata (extend w [enter_handleConfirm evdata])).
Proof.
  intros Hne. unfold messages_empty in Hne.
  destruct (unapprovedPersonalMsgs st) eqn:E1.
  2:{ exists Personal. simpl. rewrite E1. repeat split.
      - intros n. unfold reject_calls. now rewrite E1.
      - intros evdata w <-. rewrite handleConfirm_dispatch. now rewrite E1. }
  destruct (unapprovedMsgs st) eqn:E2.
  2:{ exists Plain. simpl. rewrite E2. repeat split.
      - intros n. unfold reject_calls. now rewrite E1, E2.
      - intros evdata w <-. rewrite handleConfirm_dispatch. now rewrite E1, E2. }
  destruct (unapprovedTypedMessages st) eqn:E3.
  2:{ exists Typed. simpl. rewrite E3. repeat split.
      - intros n. unfold reject_calls. now rewrite E1, E2, E3.
      - intros evdata w <-. rewrite handleConfirm_dispatch. now rewrite E1, E2, E3. }
  exfalso. apply Hne. auto.
Qed.

Lemma confirm_message_not_Error (k : kind) (evdata : jsval) (w : World) (s : string) :
  fst (confirm_message k evdata w) <> Throw (Error s).
Proof.
  unfold confirm_message, bind, defined, get_state, put_state, ret, throw, emit.
  destruct (get_prop evdata "id") as [evid|]; [|discriminate]. cbn [state trace].
  destruct (deref (k, ToPropertyKey evid) (state w)); [|discriminate]. cbn [state trace].
  destruct (deref (k, ToPropertyKey evid) _); discriminate.
Qed.

Lemma confirm_transaction_not_Error (evdata : jsval) (w : World) (s : string) :
  fst (confirm_transaction evdata w) <> Throw (Error s).
Proof.
  unfold confirm_transaction, bind, defined, get_state, ret, throw, emit.
  destruct (get_prop evdata "id") as [evid|]; [|discriminate]. cbn [state trace].
  destruct (get_prop evdata "gasPrice") as [g|]; [|discriminate].
  destruct (truthy g); [|discriminate].
  destruct (find _ _); discriminate.
Qed.

(** C9, amended: [handleDeny] and [handleConfirm] test the stored
    collection [state.transactions], whatever the status of its members,
    not the pending (unapproved) transactions.  When the three message
    collections and [state.transactions] are empty, [handleDeny] makes no
    call into the signing collaborator and returns without raising,
    whatever the id, and [handleConfirm] throws "No new transactions.".
    These are the only states in which [handleDeny] makes no call and the
    only ones in which [handleConfirm] throws that error: with no message
    pending and a transaction of any status stored, [handleDeny] calls
    [cancelTransaction]. *)
Theorem handleDeny_silent_iff_nothing_stored (w : World) (id evdata : jsval) :
  (messages_empty (state w) -> transactions (state w) = [] ->
     handleDeny id w = (Normal tt, extend w [enter_handleDeny id])) /\
  (collaborator_calls (trace (snd (handleDeny id w))) = collaborator_calls (trace w) <->
     messages_empty (state w) /\ transactions (state w) = []) /\
  (fst (handleConfirm evdata w) = Throw (Error "No new transactions.") <->
     messages_empty (state w) /\ transactions (state w) = []) /\
  (messages_empty (state w) -> transactions (state w) <> [] ->
     handleDeny id w =
       (Normal tt, extend w [enter_handleDeny id; cancelTransaction (parseInt10 id)])).
Proof.
  assert (Hgrow : forall (l : list Event) e, l ++ [e] = l -> False).
  { intros l e H. apply (f_equal (@List.length Event)) in H.
    rewrite length_app in H. simpl in H. lia. }
  rewrite handleDeny_calls, handleConfirm_dispatch. cbv zeta.
  unfold collaborator_calls, extend, reject_calls, messages_empty.
  cbn [snd trace]. rewrite filter_app.
  destruct (unapprovedPersonalMsgs (state w)) as [|e1 c1];
    cbn [nonempty filter is_accept is_reject orb].
  2:{ split; [intros (H & _); discriminate H|]. split; [|split].
      - split; [intros H; now apply Hgrow in H|intros ((H & _) & _); discriminate H].
      - split; [intros H; now apply confirm_message_not_Error in H
               |intros ((H & _) & _); discriminate H].
      - intros (H & _); discriminate H. }
  destruct (unapprovedMsgs (state w)) as [|e2 c2];
    cbn [nonempty filter is_accept is_reject orb].
  2:{ split; [intros (_ & H & _); discriminate H|]. split; [|split].
      - split; [intros H; now apply Hgrow in H|intros ((_ & H & _) & _); discriminate H].
      - split; [intros H; now apply confirm_message_not_Error in H
               |intros ((_ & H & _) & _); discriminate H].
      - intros (_ & H & _); discriminate H. }
  destruct (unapprovedTypedMessages (state w)) as [|e3 c3];
    cbn [nonempty filter is_accept is_reject orb].
  2:{ split; [intros (_ & _ & H); discriminate H|]. split; [|split].
      - split; [intros H; now apply Hgrow in H|intros ((_ & _ & H) & _); discriminate H].
      - split; [intros H; now apply confirm_message_not_Error in H
               |intros ((_ & _ & H) & _); discriminate H].
      - intros (_ & _ & H); discriminate H. }
  destruct (transactions (state w)) as [|e4 c4];
    cbn [nonempty filter is_accept is_reject orb].
  - split; [reflexivity|]. split; [|split].
    + split; [auto|intros _; now rewrite app_nil_r].
    + split; [auto|reflexivity].
    + intros _ H. now contradiction H.
  - split; [intros _ H; discriminate H|]. split; [|split].
    + split; [intros H; now apply Hgrow in H|intros (_ & H); discriminate H].
    + split; [intros H; now apply confirm_transaction_not_Error in H
             |intros (_ & H); discriminate H].
    + reflexivity.
Qed.

(** C3, amended: with a pending transaction, the pending work is handled
    as a transaction exactly when the three message collections are
    empty: then the classification is "transaction" and confirm and deny
    take the transaction path.  When a message collection is non-empty
    the classification is "message", and confirm and deny take the path
    of the first non-empty collection among personal, plain and typed:
    the personal one if it is non-empty; otherwise the plain one if it is
    non-empty; otherwise the typed one. *)
Theorem transaction_handled_iff_no_message (w : World) (id evdata : jsval) :
  nonempty (unApprovedTransactions (state w)) = true ->
  (messages_empty (state w) ->
     isTorusTransaction w = (Normal true, w) /\
     handleDeny id w =
       (Normal tt, extend w [enter_handleDeny id; cancelTransaction (parseInt10 id)]) /\
     handleConfirm evdata w =
       confirm_transaction evdata (extend w [enter_handleConfirm evdata])) /\
  (~ messages_empty (state w) ->
     isTorusTransaction w = (Normal false, w) /\
     (unapprovedPersonalMsgs (state w) <> [] ->
        handleDeny id w =
          (Normal tt,
           extend w [enter_handleDeny id; cancelPersonalMessage (parseInt10 id)]) /\
        handleConfirm evdata w =
          confirm_message Personal evdata (extend w [enter_handleConfirm evdata])) /\
     (unapprovedPersonalMsgs (state w) = [] -> unapprovedMsgs (state w) <> [] ->
        handleDeny id w =
          (Normal tt, extend w [enter_handleDeny id; cancelMessage (parseInt10 id)]) /\
        handleConfirm evdata w =
          confirm_message Plain evdata (extend w [enter_handleConfirm evdata])) /\
     (unapprovedPersonalMsgs (state w) = [] -> unapprovedMsgs (state w) = [] ->
        handleDeny id w =
          (Normal tt, extend w [enter_handleDeny id; cancelTypedMessage (parseInt10 id)]) /\
        handleConfirm evdata w =
          confirm_message Typed evdata (extend w [enter_handleConfirm evdata]))).
Proof.
  intros Htx. pose proof (unApproved_nonempty _ Htx) as Hraw. split.
  - intros (H1 & H2 & H3). repeat split.
    + rewrite isTorusTransaction_cases, H1, H2, H3, Htx. reflexivity.
    + rewrite handleDeny_calls. unfold reject_calls. now rewrite H1, H2, H3, Hraw.
    + rewrite handleConfirm_dispatch. simpl. now rewrite H1, H2, H3, Hraw.
  - intros Hne. rewrite isTorusTransaction_cases, handleDeny_calls, handleConfirm_dispatch.
    unfold reject_calls, messages_empty in *. cbv zeta.
    destruct (unapprovedPersonalMsgs (state w)) as [|e1 c1].
    2:{ cbn [nonempty orb].
        split; [reflexivity|split; [intros _; split; reflexivity|]].
        split; intros H; discriminate H. }
    destruct (unapprovedMsgs (state w)) as [|e2 c2].
    2:{ cbn [nonempty orb].
        split; [reflexivity|split; [intros H; now contradiction H|]].
        split; [intros _ _; split; reflexivity|intros _ H; discriminate H]. }
    destruct (unapprovedTypedMessages (state w)) as [|e3 c3].
    { exfalso. apply Hne. auto. }
    cbn [nonempty orb].
    split; [reflexivity|split; [intros H; now contradiction H|]].
    split; [intros _ H; now contradiction H|intros _ _; split; reflexivity].
Qed.

(** C10: a confirm decision for a pending transaction, with no message
    pending.  If it carries a gas price (a value the test
    [if (ev.data.gasPrice)] accepts), the transaction that is approved is
    a copy whose [txParams.gasPrice] is the carried value and whose other
    [txParams] fields and id are those of the pending transaction; with
    no gas price, the pending transaction is approved as it is. *)
Theorem handleConfirm_gasPrice (w : World) (evdata evid g : jsval) (t : TxMeta) :
  messages_empty (state w) ->
  get_prop evdata "id" = Some evid ->
  get_prop evdata "gasPrice" = Some g ->
  find (fun x => strict_eq (JNum (id x)) evid) (unApprovedTransactions (state w)) = Some t ->
  (truthy g = true ->
     exists t',
       handleConfirm evdata w =
         (Normal tt, extend w [enter_handleConfirm evdata; updateTransaction t';
                               updateAndApproveTransaction (Some t')]) /\
       gasPrice (txParams t') = g /\
       from (txParams t') = from (txParams t) /\
       to (txParams t') = to (txParams t) /\
       value (txParams t') = value (txParams t) /\
       gas (txParams t') = gas (txParams t) /\
       data (txParams t') = data (txParams t) /\
       id t' = id t) /\
  (truthy g = false ->
     handleConfirm evdata w =
       (Normal tt, extend w [enter_handleConfirm evdata;
                             updateAndApproveTransaction (Some t)])).
Proof.
  intros (H1 & H2 & H3) Hid Hg Hfind.
  assert (Hraw : nonempty (transactions (state w)) = true).
  { apply unApproved_nonempty.
    destruct (unApprovedTransactions (state w)); [discriminate|reflexivity]. }
  assert (Hc : handleConfirm evdata w =
               confirm_transaction evdata (extend w [enter_handleConfirm evdata])).
  { rewrite handleConfirm_dispatch. simpl. now rewrite H1, H2, H3, Hraw. }
  rewrite Hc. unfold confirm_transaction, bind, get_state, defined, ret, emit, extend.
  cbn [state trace]. rewrite Hid. cbn [state trace]. rewrite Hg, Hfind.
  split; intros Ht; rewrite Ht.
  - exists (set_gasPrice g (json_clone t)). cbn [state trace].
    rewrite <- !app_assoc. repeat split; reflexivity.
  - cbn [state trace]. rewrite <- !app_assoc. reflexivity.
Qed.

End PriorityFacts.

(** Nothing is pending, but an approved transaction is still stored: a
    deny calls [cancelTransaction], and a confirm does not throw but
    approves [undefined]. *)
Lemma deny_with_nothing_pending_counterexample :
  Store.messages_empty (Store.state Examples.w_approved) /\
  Store.unApprovedTransactions (Store.state Examples.w_approved) = [] /\
  @Store.handleDeny Reference.builtins (JNum 7) Examples.w_approved =
    (Normal tt,
     Store.extend Examples.w_approved
       [Store.enter_handleDeny (JNum 7); Store.cancelTransaction (JNum 7)]) /\
  @Store.handleConfirm Reference.builtins Examples.confirm7 Examples.w_approved =
    (Normal tt,
     Store.extend Examples.w_approved
       [Store.enter_handleConfirm Examples.confirm7;
        Store.updateAndApproveTransaction None]).
Proof. repeat split; reflexivity. Qed.

Lemma handleDeny_silent_iff_nothing_stored_witness :
  @Store.handleDeny Reference.builtins JUndefined Examples.w_idle =
    (Normal tt, Store.extend Examples.w_idle [Store.enter_handleDeny JUndefined]) /\
  fst (@Store.handleConfirm Reference.builtins Examples.confirm7 Examples.w_idle) =
    Throw (Error "No new transactions.") /\
  @Store.handleDeny Reference.builtins (JNum 7) Examples.w_approved =
    (Normal tt,
     Store.extend Examples.w_approved
       [Store.enter_handleDeny (JNum 7); Store.cancelTransaction (JNum 7)]).
Proof.
  assert (H1 : Store.messages_empty (Store.state Examples.w_idle))
    by (repeat split; reflexivity).
  assert (H2 : Store.messages_empty (Store.state Examples.w_approved))
    by (repeat split; reflexivity).
  split; [|split].
  - apply (proj1 (@handleDeny_silent_iff_nothing_stored Reference.builtins
                    Examples.w_idle JUndefined Examples.confirm7));
      [exact H1|reflexivity].
  - apply (proj2 (proj1 (proj2 (proj2 (@handleDeny_silent_iff_nothing_stored
                    Reference.builtins Examples.w_idle JUndefined Examples.confirm7))))).
    split; [exact H1|reflexivity].
  - apply (proj2 (proj2 (proj2 (@handleDeny_silent_iff_nothing_stored Reference.builtins
                    Examples.w_approved (JNum 7) Examples.confirm7))));
      [exact H2|discriminate].
Defined.

(** A pending personal message is served before a pending transaction:
    the classification is "message", a deny for the transaction's id
    cancels a personal message, and a confirm for it approves nothing. *)
Lemma transactions_priority_counterexample :
  Store.nonempty (Store.unApprovedTransactions (Store.state Examples.w_both)) = true /\
  fst (Store.isTorusTransaction Examples.w_both) = Normal false /\
  Store.trace (snd (@Store.handleDeny Reference.builtins (JNum 7) Examples.w_both)) =
    [Store.enter_handleDeny (JNum 7); Store.cancelPersonalMessage (JNum 7)] /\
  @Store.handleConfirm Reference.builtins Examples.confirm7 Examples.w_both =
    (Throw TypeError, Store.extend Examples.w_both [Store.enter_handleConfirm Examples.confirm7]).
Proof. repeat split; reflexivity. Qed.

Lemma transaction_handled_iff_no_message_witness :
  Store.isTorusTransaction Examples.w_tx = (Normal true, Examples.w_tx) /\
  Store.isTorusTransaction Examples.w_both = (Normal false, Examples.w_both) /\
  @Store.handleDeny Reference.builtins (JNum 7) Examples.w_crowded =
    (Normal tt,
     Store.extend Examples.w_crowded
       [Store.enter_handleDeny (JNum 7); Store.cancelMessage (JNum 7)]).
Proof.
  split; [|split].
  - apply (proj1 (@transaction_handled_iff_no_message Reference.builtins
                    Examples.w_tx (JNum 7) Examples.confirm7 eq_refl)).
    repeat split; reflexivity.
  - apply (proj2 (@transaction_handled_iff_no_message Reference.builtins
                    Examples.w_both (JNum 7) Examples.confirm7 eq_refl)).
    intros (H & _). discriminate H.
  - destruct (proj2 (@transaction_handled_iff_no_message Reference.builtins
                       Examples.w_crowded (JNum 7) Examples.confirm7 eq_refl))
      as (_ & _ & Hplain & _).
    + intros (_ & H & _). discriminate H.
    + apply Hplain; [reflexivity|discriminate].
Defined.

Lemma handleConfirm_gasPrice_witness :
  (exists t',
     @Store.handleConfirm Reference.builtins Examples.confirm7_gas Examples.w_tx =
       (Normal tt,
        Store.extend Examples.w_tx
          [Store.enter_handleConfirm Examples.confirm7_gas;
           Store.updateTransaction t';
           Store.updateAndApproveTransaction (Some t')]) /\
     Store.gasPrice (Store.txParams t') = JStr "0x2" /\
     Store.to (Store.txParams t') = "0xcd" /\
     Store.id t' = 7) /\
  @Store.handleConfirm Reference.builtins Examples.confirm7 Examples.w_tx =
    (Normal tt,
     Store.extend Examples.w_tx
       [Store.enter_handleConfirm Examples.confirm7;
        Store.updateAndApproveTransaction (Some (Examples.transaction 7 Store.unapproved))]).
Proof.
  assert (Hm : Store.messages_empty (Store.state Examples.w_tx))
    by (repeat split; reflexivity).
  split.
  - destruct (proj1 (@handleConfirm_gasPrice Reference.builtins Examples.w_tx
                 Examples.confirm7_gas (JNum 7) (JStr "0x2")
                 (Examples.transaction 7 Store.unapproved)
                 Hm eq_refl eq_refl eq_refl) eq_refl)
      as (t' & H & Hg & _ & Hto & _ & _ & _ & Hid).
    exists t'. repeat split; assumption.
  - exact (proj2 (@handleConfirm_gasPrice Reference.builtins Examples.w_tx
                 Examples.confirm7 (JNum 7) JUndefined
                 (Examples.transaction 7 Store.unapproved)
                 Hm eq_refl eq_refl eq_refl) eq_refl).
Defined.

(** ** The network-change surface *)

(** C8: on either user action the network-change surface sends, over the
    channel named by the constant [torus_provider_change_channel] (the
    same for every instance and every component state), a decision whose
    [approve] field is [true] on confirm and [false] on cancel; it then
    closes the channel and its own window. *)
Theorem provider_change_decision (a : ProviderChange.Action) (this : ProviderChange.Component) :
  exists message,
    ProviderChange.on_click a this =
      [ ProviderChange.new_BroadcastChannel "torus_provider_change_channel";
        ProviderChange.bc_postMessage "torus_provider_change_channel" message;
        ProviderChange.bc_close "torus_provider_change_channel";
        ProviderChange.window_close ] /\
    ProviderChange.approve_of message =
      Some (JBool match a with
                  | ProviderChange.Confirm => true
                  | ProviderChange.Cancel => false
                  end).
Proof. destruct a; eexists; split; reflexivity. Qed.

(** ** The approval session *)

Section PopupFacts.

Import Store Popup.
Context {rt : Builtins}.
Variable env : Env.

Lemma deny_count_app (a b : list Event) :
  deny_count (a ++ b) = (deny_count a + deny_count b)%nat.
Proof.
  induction a as [|e a IH]; simpl; [reflexivity|].
  destruct e; simpl; now rewrite IH.
Qed.

Lemma reject_calls_not_accept (st : State) (n : jsval) :
  filter is_accept (reject_calls st n) = [].
Proof.
  unfold reject_calls.
  destruct (nonempty (unapprovedPersonalMsgs st)); [reflexivity|].
  destruct (nonempty (unapprovedMsgs st)); [reflexivity|].
  destruct (nonempty (unapprovedTypedMessages st)); [reflexivity|].
  destruct (nonempty (transactions st)); reflexivity.
Qed.

Lemma reject_calls_deny_count (st : State) (n : jsval) :
  deny_count (reject_calls st n) = 0%nat.
Proof.
  unfold reject_calls.
  destruct (nonempty (unapprovedPersonalMsgs st)); [reflexivity|].
  destruct (nonempty (unapprovedMsgs st)); [reflexivity|].
  destruct (nonempty (unapprovedTypedMessages st)); [reflexivity|].
  destruct (nonempty (transactions st)); reflexivity.
Qed.

(** A message for another id returns at the first test of the handler. *)
Lemma onmessage_stale (s : Session) (evdata : jsval) (w : World) :
  strict_eq (txId s) JUndefined = false ->
  carries_other_id s evdata ->
  onmessage env s evdata w = (Normal s, w).
Proof.
  intros Hset (evid & Hid & Hne).
  unfold onmessage, bind, defined, ret. rewrite Hset. simpl.
  rewrite Hid. simpl. rewrite Hne. reflexivity.
Qed.

(** The tick that finds the window closed by the user. *)
Lemma watchdog_user_closed (s : Session) (w : World) :
  confirmWindow s = Some {| closed := true |} ->
  truthy (iClosedConfirmWindow s) = false ->
  watchdog s w =
  (Normal (torn_down s),
   extend w (log_error "user closed popup" :: enter_handleDeny (txId s)
             :: reject_calls (state w) (parseInt10 (txId s)))).
Proof.
  intros Hw Hi. unfold watchdog, bind, defined, ret, emit. rewrite Hw. simpl.
  rewrite Hi. simpl. rewrite handleDeny_calls. unfold extend, torn_down. simpl.
  now rewrite <- app_assoc.
Qed.

(** Ticks while the window is open do nothing. *)
Lemma ticks_while_open (s : Session) (w : World) (win : Window) (n : nat) :
  confirmWindow s = Some win -> closed win = false ->
  run env (s, w) (repeat Tick n) = (s, w).
Proof.
  intros Hw Hc.
  assert (Hstep : step env (s, w) Tick = (s, w)).
  { unfold step. destruct (confirmTimer s); [|reflexivity].
    unfold watchdog, bind, defined, ret. rewrite Hw. simpl. now rewrite Hc. }
  induction n as [|n IH]; [reflexivity|].
  unfold run in *. cbn [repeat fold_left]. rewrite Hstep. exact IH.
Qed.

(** Once torn down, a session reacts to nothing. *)
Lemma torn_down_inert (s : Session) (w : World) (inputs : list Input) :
  run env (torn_down s, w) inputs = (torn_down s, w).
Proof.
  induction inputs as [|i r IH]; [reflexivity|].
  unfold run in *. simpl. destruct i; simpl; exact IH.
Qed.

(** After the orchestrator has closed the channel and recorded that it
    closed the window, no input reaches the store or the collaborator. *)
Lemma orchestrator_closed_quiet (inputs : list Input) :
  forall (s : Session) (w : World),
    bc_closed s = true ->
    (confirmTimer s = true -> truthy (iClosedConfirmWindow s) = true) ->
    snd (run env (s, w) inputs) = w.
Proof.
  induction inputs as [|i r IH]; intros s w Hbc Hi; [reflexivity|].
  unfold run in *. simpl. destruct i.
  - rewrite Hbc. now apply IH.
  - destruct (confirmTimer s) eqn:Ht; [|apply IH; auto; congruence].
    unfold watchdog, bind, defined, ret.
    destruct (confirmWindow s) as [win|]; simpl; [|apply IH; auto].
    destruct (closed win); simpl; [|apply IH; auto].
    rewrite (Hi eq_refl). simpl. apply IH; simpl; [reflexivity|discriminate].
  - apply IH; simpl; assumption.
Qed.

(** The user closes the window and the next tick elapses. *)
Lemma user_close_then_tick (s : Session) (w : World) (win : Window) :
  confirmTimer s = true ->
  confirmWindow s = Some win ->
  truthy (iClosedConfirmWindow s) = false ->
  run env (s, w) [UserClose; Tick] =
  (torn_down s,
   extend w (log_error "user closed popup" :: enter_handleDeny (txId s)
             :: reject_calls (state w) (parseInt10 (txId s)))).
Proof.
  intros Ht Hw Hi. unfold run. simpl. rewrite Ht.
  rewrite watchdog_user_closed; simpl; [reflexivity|now rewrite Hw|exact Hi].
Qed.

(** C4: in a session whose [txId] is assigned, any number of messages
    that carry an id other than [txId] leave the whole state as it was:
    the session variables ([txId], the channel, the window, the timer),
    the store, and the record of calls made. *)
Theorem stale_decisions_ignored (s : Session) (w : World) (messages : list jsval) :
  strict_eq (txId s) JUndefined = false ->
  Forall (carries_other_id s) messages ->
  run env (s, w) (map Deliver messages) = (s, w).
Proof.
  intros Hset Hall. induction Hall as [|d r Hd _ IH]; [reflexivity|].
  unfold run in *. cbn [map fold_left]. unfold step at 2.
  destruct (bc_closed s); [exact IH|].
  rewrite onmessage_stale by assumption. exact IH.
Qed.

(** C5: the window is open and no decision has been handled; the user
    closes the window.  The first tick that follows calls [handleDeny]
    once, for the current [txId], and tears the session down; whatever
    happens afterwards (ticks included) changes nothing, so there is
    exactly one deny.  And after the orchestrator itself has resolved a
    session ([close_by_orchestrator]), no later input, ticks included,
    produces a deny or any other call. *)
Theorem closing_denies_once (s : Session) (w : World) (win : Window)
    (n : nat) (later : list Input) :
  confirmTimer s = true ->
  confirmWindow s = Some win ->
  closed win = false ->
  truthy (iClosedConfirmWindow s) = false ->
  let c := run env (s, w) (repeat Tick n ++ [UserClose; Tick]) in
  trace (snd c) =
    (trace w ++ log_error "user closed popup" :: enter_handleDeny (txId s)
             :: reject_calls (state w) (parseInt10 (txId s)))%list /\
  deny_count (trace (snd c)) = S (deny_count (trace w)) /\
  run env c later = c /\
  (forall s' w',
     snd (run env (close_by_orchestrator s', w') later) = w').
Proof.
  intros Ht Hw Hc Hi c.
  assert (Hrun : c = (torn_down s,
                      extend w (log_error "user closed popup" :: enter_handleDeny (txId s)
                                :: reject_calls (state w) (parseInt10 (txId s))))).
  { subst c. unfold run. rewrite fold_left_app.
    fold (run env (s, w) (repeat Tick n)).
    rewrite (ticks_while_open s w win n Hw Hc).
    exact (user_close_then_tick s w win Ht Hw Hi). }
  rewrite Hrun. cbn [snd extend trace]. repeat split.
  - rewrite deny_count_app. cbn [deny_count]. rewrite reject_calls_deny_count. lia.
  - apply torn_down_inert.
  - intros s' w'. apply orchestrator_closed_quiet; [reflexivity|reflexivity].
Qed.

(** C7, amended: the watchdog finds the window closed by the user while
    [txId] was never assigned.  [handleDeny] is invoked with the unset
    id; the session ends with [txId] unset; no accept call is made; a
    reject call, with id [parseInt(undefined, 10)], is made for the first
    non-empty collection among personal, plain, typed and transactions,
    and none only when all four are empty. *)
Theorem watchdog_with_unset_id (s : Session) (w : World) (win : Window) :
  txId s = JUndefined ->
  confirmTimer s = true ->
  confirmWindow s = Some win ->
  truthy (iClosedConfirmWindow s) = false ->
  let c := run env (s, w) [UserClose; Tick] in
  txId (fst c) = JUndefined /\
  trace (snd c) =
    (trace w ++ log_error "user closed popup" :: enter_handleDeny JUndefined
             :: reject_calls (state w) (parseInt10 JUndefined))%list /\
  filter is_accept (trace (snd c)) = filter is_accept (trace w) /\
  (messages_empty (state w) -> transactions (state w) = [] ->
   collaborator_calls (trace (snd c)) = collaborator_calls (trace w)) /\
  (~ (messages_empty (state w) /\ transactions (state w) = []) ->
   exists e, is_reject e = true /\
             collaborator_calls (trace (snd c)) = (collaborator_calls (trace w) ++ [e])%list).
Proof.
  intros Hid Ht Hw Hi c. subst c.
  rewrite (user_close_then_tick s w win Ht Hw Hi), Hid.
  cbn [fst snd extend trace torn_down txId]. repeat split.
  - rewrite filter_app. cbn [filter is_accept]. rewrite reject_calls_not_accept.
    now rewrite app_nil_r.
  - intros (H1 & H2 & H3) H4. unfold reject_calls, collaborator_calls.
    rewrite H1, H2, H3, H4, filter_app. simpl. now rewrite app_nil_r.
  - intros Hne. unfold collaborator_calls, reject_calls, messages_empty in *.
    rewrite filter_app. cbn [filter is_accept is_reject orb].
    destruct (unapprovedPersonalMsgs (state w)); simpl; [|eexists; split; [|reflexivity]; reflexivity].
    destruct (unapprovedMsgs (state w)); simpl; [|eexists; split; [|reflexivity]; reflexivity].
    destruct (unapprovedTypedMessages (state w)); simpl; [|eexists; split; [|reflexivity]; reflexivity].
    destruct (transactions (state w)); simpl; [|eexists; split; [|reflexivity]; reflexivity].
    exfalso. apply Hne. auto.
Qed.

End PopupFacts.


(** The session opened for the pending transaction takes [txId = 7] on
    the ready signal. *)
Example tx_session_ready_txId :
  Popup.txId (fst Examples.tx_session_ready) = JNum 7 /\
  Store.trace (snd Examples.tx_session_ready) =
    [ Store.new_channel "torus_channel_abc"; Store.window_open 660 500;
      Store.postTransaction (JStr "https://dapp.example")
        (Examples.transaction 7 Store.unapproved) (JStr "mainnet") (JStr "2") ].
Proof. split; reflexivity. Qed.

Lemma stale_decisions_ignored_witness :
  @Popup.run Reference.builtins Examples.env0 Examples.tx_session_ready
    (map Popup.Deliver Examples.stale_messages) = Examples.tx_session_ready.
Proof.
  apply (@stale_decisions_ignored Reference.builtins Examples.env0
           (fst Examples.tx_session_ready) (snd Examples.tx_session_ready)
           Examples.stale_messages).
  - reflexivity.
  - repeat constructor; eexists; split; reflexivity.
Defined.

Lemma closing_denies_once_witness :
  Store.deny_count
    (Store.trace (snd (@Popup.run Reference.builtins Examples.env0 Examples.tx_session_ready
                         (repeat Popup.Tick 3 ++ [Popup.UserClose; Popup.Tick])))) = 1%nat.
Proof.
  exact (proj1 (proj2 (@closing_denies_once Reference.builtins Examples.env0
           (fst Examples.tx_session_ready) (snd Examples.tx_session_ready)
           {| Popup.closed := false |} 3 [Popup.Tick; Popup.Tick]
           eq_refl eq_refl eq_refl eq_refl))).
Defined.

(** With a personal message pending and the ready signal never received,
    the watchdog's deny reaches the signing collaborator with the id
    [parseInt(undefined, 10)], that is [NaN]. *)
Lemma unset_id_reject_counterexample :
  let c := @Popup.run Reference.builtins Examples.env0
             (Examples.open_popup Examples.w_personal) [Popup.UserClose; Popup.Tick] in
  Popup.txId (fst (Examples.open_popup Examples.w_personal)) = JUndefined /\
  Store.trace (snd c) =
    [ Store.new_channel "torus_channel_abc"; Store.window_open 400 500;
      Store.log_error "user closed popup"; Store.enter_handleDeny JUndefined;
      Store.cancelPersonalMessage JNaN ] /\
  Store.collaborator_calls (Store.trace (snd c)) = [Store.cancelPersonalMessage JNaN].
Proof. repeat split; reflexivity. Qed.

Lemma watchdog_with_unset_id_witness :
  let c := @Popup.run Reference.builtins Examples.env0
             (Examples.open_popup Examples.w_personal) [Popup.UserClose; Popup.Tick] in
  Popup.txId (fst c) = JUndefined /\
  filter Store.is_accept (Store.trace (snd c)) = [].
Proof.
  destruct (@watchdog_with_unset_id Reference.builtins Examples.env0
              (fst (Examples.open_popup Examples.w_personal))
              (snd (Examples.open_popup Examples.w_personal))
              {| Popup.closed := false |} eq_refl eq_refl eq_refl eq_refl)
    as (H1 & _ & H3 & _).
  split; [exact H1|exact H3].
Defined.

(** ** Selection of the latest pending message *)

Section SelectionFacts.

Import Store.
Context {rt : Builtins}.

(** *** The three loops as one scan *)

Lemma scan_loop_pick (k : kind) (c : list (string * Message)) :
  forall acc, fold_left (scan_step k) c acc = pick acc (tag k c).
Proof.
  unfold pick. induction c as [|e c IH]; intros acc; [reflexivity|].
  simpl. rewrite IH. reflexivity.
Qed.

Lemma typed_loop_pick (c : list (string * Message)) :
  forall acc st, fst (fold_left typed_step c (acc, st)) = pick acc (tag Typed c).
Proof.
  unfold pick. induction c as [|e c IH]; intros acc st; [reflexivity|].
  simpl. unfold typed_step at 2, pick_step at 2. simpl.
  destruct (time (snd e) >? s_time acc); apply IH.
Qed.

Lemma pick_app (acc : scan) (a b : list (ref * Message)) :
  pick acc (a ++ b) = pick (pick acc a) b.
Proof. unfold pick. apply fold_left_app. Qed.

(** The scan keeps its accumulator, or selects the first entry whose time
    is greatest and exceeds the accumulator's. *)
Lemma pick_spec (l : list (ref * Message)) :
  forall acc,
    (pick acc l = acc /\ Forall (fun x => time (snd x) <= s_time acc) l) \/
    (exists l1 e l2,
       l = l1 ++ e :: l2 /\
       pick acc l = select e /\
       s_time acc < time (snd e) /\
       Forall (fun x => time (snd x) < time (snd e)) l1 /\
       Forall (fun x => time (snd x) <= time (snd e)) l2).
Proof.
  induction l as [|x r IH]; intros acc.
  - left. split; [reflexivity|constructor].
  - unfold pick. simpl. fold (pick (pick_step acc x) r). unfold pick_step.
    destruct (Z.gtb_spec (time (snd x)) (s_time acc)) as [Hlt|Hle].
    + destruct (IH (select x)) as [[Hp Hall]|(l1 & e & l2 & -> & Hp & Hlt' & H1 & H2)].
      * right. exists [], x, r. simpl in *. repeat split; auto.
      * right. exists (x :: l1), e, l2. simpl in *. repeat split; auto; try lia.
    + destruct (IH acc) as [[Hp Hall]|(l1 & e & l2 & -> & Hp & Hlt' & H1 & H2)].
      * left. split; [exact Hp|]. constructor; assumption.
      * right. exists (x :: l1), e, l2. simpl. repeat split; auto.
        constructor; [lia|assumption].
Qed.

(** *** The scan order groups the collections: plain, personal, typed *)

Lemma tag_kind (k : kind) (c : list (string * Message)) (x : ref * Message) :
  In x (tag k c) -> fst (fst x) = k /\ In (snd (fst x), snd x) c.
Proof.
  unfold tag. rewrite in_map_iff. intros ([key m] & <- & Hin). simpl. auto.
Qed.

Lemma tag_sorted (k : kind) (c : list (string * Message)) :
  StronglySorted rank_le (tag k c).
Proof.
  induction c as [|e c IH]; simpl; constructor; [exact IH|].
  apply Forall_forall. intros x Hx. apply tag_kind in Hx as [Hk _].
  unfold rank_le. simpl. rewrite Hk. lia.
Qed.

Lemma sorted_append (a b : list (ref * Message)) :
  StronglySorted rank_le a -> StronglySorted rank_le b ->
  (forall x y, In x a -> In y b -> rank_le x y) ->
  StronglySorted rank_le (a ++ b).
Proof.
  intros Ha Hb Hab. induction a as [|x a IH]; simpl; [exact Hb|].
  apply StronglySorted_inv in Ha as [Ha Hx]. constructor.
  - apply IH; [exact Ha|]. intros; apply Hab; simpl; auto.
  - apply Forall_app. split; [exact Hx|].
    apply Forall_forall. intros y Hy. apply Hab; simpl; auto.
Qed.

Lemma scan_order_sorted (st : State) : StronglySorted rank_le (scan_order st).
Proof.
  unfold scan_order. apply sorted_append; [apply tag_sorted| |].
  - apply sorted_append; [apply tag_sorted|apply tag_sorted|].
    intros x y Hx Hy. apply tag_kind in Hx as [Hx _]. apply tag_kind in Hy as [Hy _].
    unfold rank_le. rewrite Hx, Hy. simpl. lia.
  - intros x y Hx Hy. apply tag_kind in Hx as [Hx _]. unfold rank_le. rewrite Hx.
    simpl. lia.
Qed.

Lemma sorted_after (l1 l2 : list (ref * Message)) (e : ref * Message) :
  StronglySorted rank_le (l1 ++ e :: l2) -> Forall (rank_le e) l2.
Proof.
  induction l1 as [|x l1 IH]; simpl; intros H;
    apply StronglySorted_inv in H as [H Hx]; [exact Hx|now apply IH].
Qed.

Lemma scan_rank_inj (a b : kind) : scan_rank a = scan_rank b -> a = b.
Proof. destruct a, b; simpl; congruence. Qed.

Lemma pending_scan_order (st : State) (k : kind) (key : string) (m : Message) :
  pending st k key m <-> In ((k, key), m) (scan_order st).
Proof.
  unfold pending, scan_order. rewrite !in_app_iff. split.
  - intros H. destruct k; simpl in H; [left|right; left|right; right];
      unfold tag; apply in_map_iff; exists (key, m); auto.
  - intros [H|[H|H]]; apply tag_kind in H as [Hk H]; simpl in *; subst k; exact H.
Qed.

(** *** Writes to the store *)

Lemma coll_set_coll_same (k : kind) (c : list (string * Message)) (st : State) :
  coll k (set_coll k c st) = c.
Proof. destruct k; reflexivity. Qed.

Lemma coll_set_coll_other (k k' : kind) (c : list (string * Message)) (st : State) :
  k <> k' -> coll k' (set_coll k c st) = coll k' st.
Proof. destruct k, k'; intros H; try reflexivity; congruence. Qed.

Lemma update_at_same (key : string) (f : props -> props) (c : list (string * Message))
    (m : Message) :
  assoc_get key c = Some m ->
  assoc_get key (update_at key f c) =
  Some {| msgParams := f (msgParams m); time := time m |}.
Proof.
  induction c as [|[k0 m0] c IH]; simpl; [discriminate|].
  destruct (String.eqb key k0) eqn:E; simpl; rewrite E.
  - now intros [= ->].
  - exact IH.
Qed.

Lemma update_at_other (key key' : string) (f : props -> props)
    (c : list (string * Message)) :
  key <> key' -> assoc_get key' (update_at key f c) = assoc_get key' c.
Proof.
  intros Hne. induction c as [|[k0 m0] c IH]; simpl; [reflexivity|].
  destruct (String.eqb key k0) eqn:E; simpl.
  - apply String.eqb_eq in E. subst k0.
    assert (String.eqb key' key = false) as -> by (apply String.eqb_neq; congruence).
    reflexivity.
  - now rewrite IH.
Qed.

Lemma deref_mutate_same (r : ref) (f : props -> props) (st : State) (m : Message) :
  deref r st = Some m ->
  deref r (mutate r f st) = Some {| msgParams := f (msgParams m); time := time m |}.
Proof.
  unfold deref, mutate. rewrite coll_set_coll_same. apply update_at_same.
Qed.

Lemma deref_mutate_other (r r' : ref) (f : props -> props) (st : State) :
  r <> r' -> deref r' (mutate r f st) = deref r' st.
Proof.
  destruct r as [k key], r' as [k' key']. unfold deref, mutate. simpl. intros Hne.
  destruct (kind_eqb k k') eqn:E.
  - assert (k = k') by (destruct k, k'; simpl in E; congruence). subst k'.
    rewrite coll_set_coll_same. apply update_at_other. congruence.
  - rewrite coll_set_coll_other; [reflexivity|].
    intros ->. destruct k'; discriminate.
Qed.

Lemma unique_key_get (c : list (string * Message)) (key : string) (m : Message) :
  NoDup (map fst c) -> In (key, m) c -> assoc_get key c = Some m.
Proof.
  induction c as [|[k0 m0] c IH]; simpl; intros Hnd Hin; [contradiction|].
  apply NoDup_cons_iff in Hnd as [Hnot Hnd].
  destruct Hin as [[= -> ->]|Hin].
  - now rewrite String.eqb_refl.
  - destruct (String.eqb key k0) eqn:E.
    + apply String.eqb_eq in E. subst k0. exfalso. apply Hnot.
      apply in_map_iff. exists (key, m). auto.
    + now apply IH.
Qed.

(** The typed loop leaves the store alone, or ends on a typed message to
    which it has written [typedMessages]. *)
Lemma typed_loop_state (c : list (string * Message)) :
  forall acc st,
    NoDup (map fst c) ->
    (forall key m, In (key, m) c -> deref (Typed, key) st = Some m) ->
    fold_left typed_step c (acc, st) = (acc, st) \/
    exists key m,
      In (key, m) c /\
      s_msg (fst (fold_left typed_step c (acc, st))) = Some (Typed, key) /\
      deref (Typed, key) (snd (fold_left typed_step c (acc, st))) =
        Some {| msgParams := set_typedMessages (msgParams m); time := time m |}.
Proof.
  induction c as [|[k0 m0] c IH]; intros acc st Hnd Hget; [now left|].
  apply NoDup_cons_iff in Hnd as [Hnot Hnd]. simpl in Hnot.
  set (acc1 := {| s_time := time m0; s_msg := Some (Typed, k0); s_finalId := JStr k0 |}).
  set (st1 := mutate (Typed, k0) set_typedMessages st).
  assert (Hstep : typed_step (acc, st) (k0, m0) =
                  if time m0 >? s_time acc then (acc1, st1) else (acc, st))
    by reflexivity.
  cbn [fold_left]. rewrite Hstep.
  destruct (time m0 >? s_time acc).
  - right.
    assert (Hget1 : forall key m, In (key, m) c -> deref (Typed, key) st1 = Some m).
    { intros key m Hin. unfold st1. rewrite deref_mutate_other.
      - apply Hget. now right.
      - intros [= ->]. apply Hnot. apply in_map_iff. exists (key, m). auto. }
    destruct (IH acc1 st1 Hnd Hget1) as [Heq|(key & m & Hin & Hs & Hd)].
    + exists k0, m0. rewrite Heq. simpl. repeat split; [now left|].
      apply deref_mutate_same. apply Hget. now left.
    + exists key, m. repeat split; [now right|exact Hs|exact Hd].
  - destruct (IH acc st Hnd) as [Heq|(key & m & Hin & Hs & Hd)].
    + intros key m Hin. apply Hget. now right.
    + now left.
    + right. exists key, m. repeat split; [now right|exact Hs|exact Hd].
Qed.

(** What the first two loops select is a plain or a personal message. *)
Lemma pick_first_two (st : State) (r : ref) :
  s_msg (pick scan_init (tag Plain (unapprovedMsgs st)
                         ++ tag Personal (unapprovedPersonalMsgs st))) = Some r ->
  fst r <> Typed.
Proof.
  intros H.
  destruct (pick_spec (tag Plain (unapprovedMsgs st)
                       ++ tag Personal (unapprovedPersonalMsgs st)) scan_init)
    as [[Hp _]|(l1 & e & l2 & Hl & Hp & _)]; rewrite Hp in H.
  - discriminate.
  - simpl in H. injection H as <-.
    assert (Hin : In e (tag Plain (unapprovedMsgs st)
                        ++ tag Personal (unapprovedPersonalMsgs st)))
      by (rewrite Hl; apply in_elt).
    apply in_app_iff in Hin as [Hin|Hin]; apply tag_kind in Hin as [-> _]; discriminate.
Qed.

(** C1, amended: when the keys of each collection are distinct and some
    pending message has a positive time, [getLatestMessageParams] returns
    the id and the [msgParams] of a pending message whose time is
    maximal; and among pending messages of different collections that
    share the maximal time, it returns the one of the collection scanned
    first (plain before personal before typed). *)
Theorem getLatestMessageParams_first_maximum (w : World) :
  keys_unique (state w) ->
  (exists k0 key0 m0, pending (state w) k0 key0 m0 /\ 0 < time m0) ->
  exists k key m,
    pending (state w) k key m /\
    fst (getLatestMessageParams w) =
      Normal (Some (shown_params k (msgParams m), JStr key)) /\
    (forall k' key' m', pending (state w) k' key' m' -> time m' <= time m) /\
    (forall k' key' m',
       pending (state w) k' key' m' -> time m' = time m -> k' <> k ->
       (scan_rank k < scan_rank k')%nat).
Proof.
  intros Huniq (k0 & key0 & m0 & Hpos & Hpos0).
  set (st := state w) in *.
  set (a2 := fold_left (scan_step Personal) (unapprovedPersonalMsgs st)
               (fold_left (scan_step Plain) (unapprovedMsgs st) scan_init)).
  set (st1 := match s_msg a2 with Some r => mutate r set_message st | None => st end).
  assert (Ha2 : a2 = pick scan_init (tag Plain (unapprovedMsgs st)
                                     ++ tag Personal (unapprovedPersonalMsgs st))).
  { unfold a2. now rewrite !scan_loop_pick, pick_app. }
  assert (Htyped : unapprovedTypedMessages st1 = unapprovedTypedMessages st).
  { unfold st1. destruct (s_msg a2) as [r|] eqn:Er; [|reflexivity].
    rewrite Ha2 in Er. apply pick_first_two in Er.
    unfold mutate. change (unapprovedTypedMessages ?x) with (coll Typed x).
    apply coll_set_coll_other. exact Er. }
  assert (Hget : forall key m, In (key, m) (unapprovedTypedMessages st1) ->
                               deref (Typed, key) st1 = Some m).
  { intros key m Hin. rewrite Htyped in Hin.
    assert (Hd : deref (Typed, key) st = Some m)
      by (apply (unique_key_get _ _ _ (Huniq Typed)); exact Hin).
    unfold st1. destruct (s_msg a2) as [r|] eqn:Er; [|exact Hd].
    rewrite Ha2 in Er. apply pick_first_two in Er.
    rewrite deref_mutate_other; [exact Hd|]. intros ->. now apply Er. }
  assert (Hnd : NoDup (map fst (unapprovedTypedMessages st1)))
    by (rewrite Htyped; exact (Huniq Typed)).
  pose proof (typed_loop_pick (unapprovedTypedMessages st1) a2 st1) as Ha3.
  pose proof (typed_loop_state (unapprovedTypedMessages st1) a2 st1 Hnd Hget) as Hloop.
  assert (Hres : getLatestMessageParams w =
            let r := fold_left typed_step (unapprovedTypedMessages st1) (a2, st1) in
            match s_msg (fst r) with
            | Some x =>
                match deref x (snd r) with
                | Some m => (Normal (Some (msgParams m, s_finalId (fst r))),
                             {| state := snd r; trace := trace w |})
                | None => (Throw TypeError, {| state := snd r; trace := trace w |})
                end
            | None => (Normal None, {| state := snd r; trace := trace w |})
            end).
  { unfold getLatestMessageParams, bind, get_state, put_state, ret, defined, throw.
    fold st. fold a2. fold st1.
    destruct (fold_left typed_step (unapprovedTypedMessages st1) (a2, st1)) as [a3 st2].
    simpl. destruct (s_msg a3); [|reflexivity]. now destruct (deref r st2). }
  rewrite Hres. clear Hres. cbv zeta.
  destruct (fold_left typed_step (unapprovedTypedMessages st1) (a2, st1)) as [a3 st2] eqn:Ef.
  simpl in Ha3, Hloop |- *.
  assert (Hall : a3 = pick scan_init (scan_order st)).
  { unfold scan_order. rewrite app_assoc, pick_app, <- Ha2, Ha3, Htyped. reflexivity. }
  destruct (pick_spec (scan_order st) scan_init)
    as [[_ Hle]|(l1 & e & l2 & Hl & Hp & _ & Hbefore & Hafter)].
  { exfalso. apply pending_scan_order in Hpos. rewrite Forall_forall in Hle.
    apply Hle in Hpos. simpl in Hpos. lia. }
  destruct e as [[k key] m]. rewrite <- Hall in Hp. unfold select in Hp. simpl in Hp.
  assert (Hin : In ((k, key), m) (scan_order st)) by (rewrite Hl; apply in_elt).
  assert (Hpend : pending st k key m) by (now apply pending_scan_order).
  exists k, key, m. split; [exact Hpend|]. split; [|split].
  - rewrite Hp. simpl.
    assert (Hd : deref (k, key) st2 =
                 Some {| msgParams := shown_params k (msgParams m); time := time m |}).
    { destruct Hloop as [[= Ea Est]|(key' & m' & Hin' & Hs & Hd)].
      - subst st2. assert (Hs2 : s_msg a2 = Some (k, key)) by (rewrite <- Ea, Hp; reflexivity).
        assert (Hk : k <> Typed).
        { rewrite Ha2 in Hs2. apply pick_first_two in Hs2. exact Hs2. }
        unfold st1. rewrite Hs2.
        rewrite (deref_mutate_same _ _ _ m).
        + destruct k; try reflexivity. congruence.
        + apply (unique_key_get _ _ _ (Huniq k)). exact Hpend.
      - rewrite Hp in Hs. simpl in Hs. injection Hs as -> ->.
        rewrite Htyped in Hin'.
        assert (m' = m).
        { pose proof (unique_key_get _ _ _ (Huniq Typed) Hin') as E1.
          pose proof (unique_key_get _ _ _ (Huniq Typed) Hpend) as E2.
          simpl in E1, E2. congruence. }
        subst m'. exact Hd. }
    rewrite Hd. reflexivity.
  - intros k' key' m' Hp'. apply pending_scan_order in Hp'. rewrite Hl in Hp'.
    apply in_app_iff in Hp' as [Hx|[Hx|Hx]].
    + rewrite Forall_forall in Hbefore. apply Hbefore in Hx. simpl in Hx. lia.
    + injection Hx as _ _ <-. lia.
    + rewrite Forall_forall in Hafter. apply Hafter in Hx. simpl in Hx. lia.
  - intros k' key' m' Hp' Htime Hk. apply pending_scan_order in Hp'. rewrite Hl in Hp'.
    apply in_app_iff in Hp' as [Hx|[Hx|Hx]].
    + rewrite Forall_forall in Hbefore. apply Hbefore in Hx. simpl in Hx. lia.
    + injection Hx as <- _ _. congruence.
    + pose proof (scan_order_sorted st) as Hs. rewrite Hl in Hs.
      apply sorted_after in Hs. rewrite Forall_forall in Hs. apply Hs in Hx.
      unfold rank_le in Hx. simpl in Hx.
      assert (scan_rank k <> scan_rank k') by (intros E; apply scan_rank_inj in E; congruence).
      lia.
Qed.

End SelectionFacts.



(** A plain and a typed message share the greatest time: the plain one,
    scanned first, is returned, not the typed one.  And a pending message
    whose time is 0 is never selected: the result is the empty object. *)
Lemma last_scanned_wins_counterexample :
  Store.pending (Store.state Examples.w_tie) Store.Plain "1" (Examples.message "hello" 5) /\
  Store.pending (Store.state Examples.w_tie) Store.Typed "2" (Examples.message "typed" 5) /\
  fst (@Store.getLatestMessageParams Reference.builtins Examples.w_tie) =
    Normal (Some ([("data", JStr "hello"); ("from", JStr "0xab"); ("message", JStr "hello")],
                  JStr "1")) /\
  Store.pending (Store.state Examples.w_epoch) Store.Plain "1" (Examples.message "hello" 0) /\
  fst (@Store.getLatestMessageParams Reference.builtins Examples.w_epoch) = Normal None.
Proof. repeat split; try reflexivity; left; reflexivity. Qed.

Lemma getLatestMessageParams_first_maximum_witness :
  exists k key m,
    Store.pending (Store.state Examples.w_two) k key m /\
    fst (@Store.getLatestMessageParams Reference.builtins Examples.w_two) =
      Normal (Some (@Store.shown_params Reference.builtins k (Store.msgParams m), JStr key)) /\
    (forall k' key' m',
       Store.pending (Store.state Examples.w_two) k' key' m' ->
       Store.time m' <= Store.time m).
Proof.
  destruct (@getLatestMessageParams_first_maximum Reference.builtins Examples.w_two)
    as (k & key & m & Hp & Hr & Hmax & _).
  - intros k. destruct k; simpl; repeat constructor; simpl; tauto.
  - exists Store.Typed, "2", (Examples.message "typed" 75). split; [left; reflexivity|].
    simpl. lia.
  - exists k, key, m. auto.
Defined.

(** A personal message at time 50 and a typed message at time 75: the
    typed message is returned; the personal one had its text decoded. *)
Example latest_of_two :
  @Store.getLatestMessageParams Reference.builtins Examples.w_two =
  (Normal (Some ([("data", JStr "typed"); ("from", JStr "0xab");
                  ("typedMessages", JStr "typed")], JStr "2")),
   {| Store.state :=
        Store.state
          (Examples.mk_world []
             [("1", {| Store.msgParams := [("data", JStr "0x6869"); ("from", JStr "0xab");
                                           ("message", JStr "hi")];
                       Store.time := 50 |})]
             [("2", {| Store.msgParams := [("data", JStr "typed"); ("from", JStr "0xab");
                                           ("typedMessages", JStr "typed")];
                       Store.time := 75 |})]
             []);
      Store.trace := [] |}).
Proof. reflexivity. Qed.

(** ** More on the selection of the latest pending message *)

Section RegistryFacts.

Import Store Registry.
Context {rt : Builtins}.

Lemma getLatestMessageParams_stages (w : World) :
  getLatestMessageParams w =
  (match s_msg (fst (typed_loop (state w))) with
   | Some r =>
       match deref r (snd (typed_loop (state w))) with
       | Some m => Normal (Some (msgParams m, s_finalId (fst (typed_loop (state w)))))
       | None => Throw TypeError
       end
   | None => Normal None
   end,
   {| state := snd (typed_loop (state w)); trace := trace w |}).
Proof.
  unfold getLatestMessageParams, bind, get_state, put_state, ret, defined, throw.
  unfold typed_loop, decoded, after_two_loops.
  destruct (fold_left typed_step _ _) as [a3 st2]. simpl.
  destruct (s_msg a3); [|reflexivity]. now destruct (deref r st2).
Qed.

Lemma typed_loop_scan (st : State) :
  fst (typed_loop st) = pick scan_init (scan_order st).
Proof.
  unfold typed_loop. rewrite typed_loop_pick.
  assert (Ha2 : after_two_loops st =
                pick scan_init (tag Plain (unapprovedMsgs st)
                                ++ tag Personal (unapprovedPersonalMsgs st))).
  { unfold after_two_loops. now rewrite !scan_loop_pick, pick_app. }
  assert (Htyped : unapprovedTypedMessages (decoded st) = unapprovedTypedMessages st).
  { unfold decoded. destruct (s_msg (after_two_loops st)) as [r|] eqn:Er; [|reflexivity].
    rewrite Ha2 in Er. apply pick_first_two in Er.
    unfold mutate. change (unapprovedTypedMessages ?x) with (coll Typed x).
    now apply coll_set_coll_other. }
  unfold scan_order. now rewrite app_assoc, pick_app, <- Ha2, Htyped.
Qed.

(** *** Nothing but two display properties is written *)

Lemma same_messages_refl (c : list (string * Message)) : same_messages c c.
Proof.
  induction c as [|e c IH]; constructor; [|exact IH].
  split; [reflexivity|split; [reflexivity|intros name _ _; reflexivity]].
Qed.

Lemma same_messages_trans (a b c : list (string * Message)) :
  same_messages a b -> same_messages b c -> same_messages a c.
Proof.
  intros Hab. revert c. induction Hab as [|x y a b (Hk & Ht & Hp) _ IH]; intros c Hbc.
  - inversion Hbc. constructor.
  - inversion Hbc as [|y' z b' c' (Hk' & Ht' & Hp') Hbc']; subst. constructor.
    + split; [congruence|split; [congruence|]].
      intros name H1 H2. rewrite (Hp' name H1 H2). now apply Hp.
    + now apply IH.
Qed.

Lemma update_at_same_messages (key : string) (f : props -> props)
    (c : list (string * Message)) :
  (forall p, untouched p (f p)) -> same_messages c (update_at key f c).
Proof.
  intros Hf. induction c as [|[k m] c IH]; simpl; [constructor|].
  destruct (String.eqb key k).
  - constructor; [|apply same_messages_refl]. simpl.
    split; [reflexivity|split; [reflexivity|apply Hf]].
  - constructor; [|exact IH].
    split; [reflexivity|split; [reflexivity|intros name _ _; reflexivity]].
Qed.

Lemma set_message_untouched (p : props) : untouched p (set_message p).
Proof.
  intros name H1 _. unfold set_message, prop.
  rewrite assoc_get_set_other; [reflexivity|congruence].
Qed.

Lemma set_typedMessages_untouched (p : props) : untouched p (set_typedMessages p).
Proof.
  intros name _ H2. unfold set_typedMessages, prop.
  rewrite assoc_get_set_other; [reflexivity|congruence].
Qed.

Lemma frame_refl (st : State) : frame st st.
Proof.
  split; [reflexivity|split; [reflexivity|split; [reflexivity|]]].
  intros k. apply same_messages_refl.
Qed.

Lemma frame_trans (a b c : State) : frame a b -> frame b c -> frame a c.
Proof.
  intros (H1 & H2 & H3 & H4) (H1' & H2' & H3' & H4').
  split; [congruence|split; [congruence|split; [congruence|]]].
  intros k. eapply same_messages_trans; eauto.
Qed.

Lemma mutate_frame (r : ref) (f : props -> props) (st : State) :
  (forall p, untouched p (f p)) -> frame st (mutate r f st).
Proof.
  intros Hf. destruct r as [k key]. unfold mutate. simpl.
  split; [now destruct k|split; [now destruct k|split; [now destruct k|]]].
  intros k'. destruct (kind_eqb k k') eqn:E.
  - assert (k = k') by (destruct k, k'; simpl in E; congruence). subst k'.
    rewrite coll_set_coll_same. now apply update_at_same_messages.
  - rewrite coll_set_coll_other; [apply same_messages_refl|].
    intros ->. destruct k'; discriminate.
Qed.

Lemma typed_fold_frame (c : list (string * Message)) :
  forall acc st, frame st (snd (fold_left typed_step c (acc, st))).
Proof.
  induction c as [|e c IH]; intros acc st; [apply frame_refl|].
  cbn [fold_left]. unfold typed_step at 2. cbn [fst snd].
  destruct (time (snd e) >? s_time acc); [|apply IH].
  eapply frame_trans; [|apply IH].
  apply mutate_frame. apply set_typedMessages_untouched.
Qed.

(** X1: [getLatestMessageParams] makes no call, touches neither the
    transactions nor the keys, the order or the times of the pending
    messages, and writes no property of a message other than [message]
    and [typedMessages]. *)
Theorem getLatestMessageParams_frame (w : World) :
  trace (snd (getLatestMessageParams w)) = trace w /\
  frame (state w) (state (snd (getLatestMessageParams w))).
Proof.
  rewrite getLatestMessageParams_stages. cbn [snd state trace]. split; [reflexivity|].
  unfold typed_loop. eapply frame_trans; [|apply typed_fold_frame].
  unfold decoded. destruct (s_msg (after_two_loops (state w))); [|apply frame_refl].
  apply mutate_frame. apply set_message_untouched.
Qed.

(** X2: [getLatestMessageParams] returns the empty object exactly when no
    pending message has a time greater than 0: in particular when the
    three collections are empty. *)
Theorem getLatestMessageParams_empty_iff (w : World) :
  fst (getLatestMessageParams w) = Normal None <->
  (forall k key m, pending (state w) k key m -> time m <= 0).
Proof.
  rewrite getLatestMessageParams_stages, typed_loop_scan. cbn [fst].
  destruct (pick_spec (scan_order (state w)) scan_init)
    as [[Hp Hle]|(l1 & e & l2 & Hl & Hp & Hlt & _)]; rewrite Hp.
  - split; [|reflexivity]. intros _ k key m Hin.
    apply pending_scan_order in Hin. rewrite Forall_forall in Hle.
    apply Hle in Hin. exact Hin.
  - cbn [select s_msg]. split.
    + destruct (deref (fst e) (snd (typed_loop (state w)))); discriminate.
    + intros Hall. exfalso. destruct e as [[k key] m].
      assert (Hin : pending (state w) k key m)
        by (apply pending_scan_order; rewrite Hl; apply in_elt).
      apply Hall in Hin. simpl in Hlt. lia.
Qed.

(** *** The message returned is the first with the greatest time *)

Lemma pick_stays (l : list (ref * Message)) (acc : scan) :
  Forall (fun x => time (snd x) <= s_time acc) l -> pick acc l = acc.
Proof.
  induction 1 as [|x l Hx _ IH]; [reflexivity|].
  unfold pick in *. cbn [fold_left]. unfold pick_step at 2.
  destruct (Z.gtb_spec (time (snd x)) (s_time acc)); [lia|exact IH].
Qed.

Lemma pick_first_max (l1 l2 : list (ref * Message)) (e : ref * Message) :
  forall acc,
    s_time acc < time (snd e) ->
    Forall (fun x => time (snd x) < time (snd e)) l1 ->
    Forall (fun x => time (snd x) <= time (snd e)) l2 ->
    pick acc (l1 ++ e :: l2) = select e.
Proof.
  induction l1 as [|x l1 IH]; intros acc Hacc H1 H2.
  - unfold pick. cbn [app fold_left]. unfold pick_step at 2.
    destruct (Z.gtb_spec (time (snd e)) (s_time acc)); [|lia].
    apply pick_stays. exact H2.
  - apply Forall_cons_iff in H1 as [Hx H1].
    unfold pick. cbn [app fold_left]. fold (pick (pick_step acc x) (l1 ++ e :: l2)).
    apply IH; [|exact H1|exact H2]. unfold pick_step.
    destruct (time (snd x) >? s_time acc); [exact Hx|exact Hacc].
Qed.

Lemma after_two_loops_pick (st : State) :
  after_two_loops st =
  pick scan_init (tag Plain (unapprovedMsgs st) ++ tag Personal (unapprovedPersonalMsgs st)).
Proof. unfold after_two_loops. now rewrite !scan_loop_pick, pick_app. Qed.

Lemma decoded_typed (st : State) :
  unapprovedTypedMessages (decoded st) = unapprovedTypedMessages st.
Proof.
  unfold decoded. destruct (s_msg (after_two_loops st)) as [r|] eqn:Er; [|reflexivity].
  rewrite after_two_loops_pick in Er. apply pick_first_two in Er.
  unfold mutate. change (unapprovedTypedMessages ?x) with (coll Typed x).
  now apply coll_set_coll_other.
Qed.

(** The selected message, as the store holds it when the function
    returns. *)
Lemma selected_message_shown (st : State) (k : kind) (key : string) (m : Message) :
  keys_unique st ->
  pending st k key m ->
  s_msg (fst (typed_loop st)) = Some (k, key) ->
  deref (k, key) (snd (typed_loop st)) =
  Some {| msgParams := shown_params k (msgParams m); time := time m |}.
Proof.
  intros Huniq Hpend Hsel.
  assert (Hget : forall key' m', In (key', m') (unapprovedTypedMessages (decoded st)) ->
                                 deref (Typed, key') (decoded st) = Some m').
  { intros key' m' Hin. rewrite decoded_typed in Hin.
    assert (Hd : deref (Typed, key') st = Some m')
      by (apply (unique_key_get _ _ _ (Huniq Typed)); exact Hin).
    unfold decoded. destruct (s_msg (after_two_loops st)) as [r|] eqn:Er; [|exact Hd].
    rewrite after_two_loops_pick in Er. apply pick_first_two in Er.
    rewrite deref_mutate_other; [exact Hd|]. intros ->. now apply Er. }
  assert (Hnd : NoDup (map fst (unapprovedTypedMessages (decoded st))))
    by (rewrite decoded_typed; exact (Huniq Typed)).
  destruct (typed_loop_state _ (after_two_loops st) (decoded st) Hnd Hget)
    as [Heq|(key' & m' & Hin' & Hs & Hd)]; fold (typed_loop st) in *.
  - rewrite Heq in Hsel |- *. cbn [fst snd] in *.
    assert (Hk : k <> Typed).
    { pose proof Hsel as Hsel'. rewrite after_two_loops_pick in Hsel'.
      apply pick_first_two in Hsel'. exact Hsel'. }
    unfold decoded. rewrite Hsel. rewrite (deref_mutate_same _ _ _ m).
    + destruct k; try reflexivity. congruence.
    + apply (unique_key_get _ _ _ (Huniq k)). exact Hpend.
  - rewrite Hsel in Hs. injection Hs as -> ->. rewrite decoded_typed in Hin'.
    assert (m' = m).
    { pose proof (unique_key_get _ _ _ (Huniq Typed) Hin') as E1.
      pose proof (unique_key_get _ _ _ (Huniq Typed) Hpend) as E2.
      simpl in E1, E2. congruence. }
    subst m'. exact Hd.
Qed.

(** X3: With distinct keys in each collection, [getLatestMessageParams]
    returns the first message, in the order plain, personal, typed and
    within a collection in key enumeration order, whose time is positive
    and not exceeded by any other: of two messages of one collection with
    the same greatest time, the one enumerated first. *)
Theorem getLatestMessageParams_first_in_scan_order (w : World)
    (l1 l2 : list (ref * Message)) (k : kind) (key : string) (m : Message) :
  keys_unique (state w) ->
  scan_order (state w) = l1 ++ ((k, key), m) :: l2 ->
  0 < time m ->
  Forall (fun x => time (snd x) < time m) l1 ->
  Forall (fun x => time (snd x) <= time m) l2 ->
  fst (getLatestMessageParams w) =
  Normal (Some (shown_params k (msgParams m), JStr key)).
Proof.
  intros Huniq Hl Hpos H1 H2.
  assert (Hsel : fst (typed_loop (state w)) = select ((k, key), m)).
  { rewrite typed_loop_scan, Hl. now apply pick_first_max. }
  assert (Hpend : pending (state w) k key m)
    by (apply pending_scan_order; rewrite Hl; apply in_elt).
  rewrite getLatestMessageParams_stages. cbn [fst]. rewrite Hsel. cbn [select s_msg s_finalId fst snd].
  rewrite (selected_message_shown (state w) k key m Huniq Hpend); [reflexivity|].
  now rewrite Hsel.
Qed.

Lemma latest_first_max (w : World)
    (l1 l2 : list (ref * Message)) (k : kind) (key : string) (m : Message) :
  keys_unique (state w) ->
  scan_order (state w) = l1 ++ ((k, key), m) :: l2 ->
  0 < time m ->
  Forall (fun x => time (snd x) < time m) l1 ->
  Forall (fun x => time (snd x) <= time m) l2 ->
  getLatestMessageParams w =
  (Normal (Some (shown_params k (msgParams m), JStr key)),
   {| state := snd (typed_loop (state w)); trace := trace w |}).
Proof.
  intros Huniq Hl Hpos H1 H2.
  assert (Hsel : fst (typed_loop (state w)) = select ((k, key), m)).
  { rewrite typed_loop_scan, Hl. now apply pick_first_max. }
  assert (Hpend : pending (state w) k key m)
    by (apply pending_scan_order; rewrite Hl; apply in_elt).
  rewrite getLatestMessageParams_stages, Hsel. cbn [select s_msg s_finalId fst snd].
  rewrite (selected_message_shown (state w) k key m Huniq Hpend); [reflexivity|].
  now rewrite Hsel.
Qed.

(** With distinct keys the function always returns. *)
Lemma getLatestMessageParams_returns (w : World) :
  keys_unique (state w) -> exists r, fst (getLatestMessageParams w) = Normal r.
Proof.
  intros Huniq. rewrite getLatestMessageParams_stages. cbn [fst].
  destruct (s_msg (fst (typed_loop (state w)))) as [[k key]|] eqn:Es; [|eauto].
  pose proof Es as Es'. rewrite typed_loop_scan in Es'.
  destruct (pick_spec (scan_order (state w)) scan_init)
    as [[Hp _]|(l1 & [[k' key'] m] & l2 & Hl & Hp & _)]; rewrite Hp in Es'.
  - discriminate.
  - cbn in Es'. injection Es' as -> ->.
    assert (Hpend : pending (state w) k key m)
      by (apply pending_scan_order; rewrite Hl; apply in_elt).
    rewrite (selected_message_shown _ _ _ _ Huniq Hpend Es). eauto.
Qed.

End RegistryFacts.

(** ** More on the confirm resolution *)

Section ResolutionFacts.

Import Store Registry.
Context {rt : Builtins}.

Lemma confirm_message_cases (k : kind) (evdata : jsval) (w : World) :
  confirm_message k evdata w =
  match get_prop evdata "id" with
  | None => (Throw TypeError, w)
  | Some evid =>
      match deref (k, ToPropertyKey evid) (state w) with
      | None => (Throw TypeError, w)
      | Some m =>
          (Normal tt,
           signed_world (k, ToPropertyKey evid) (parseInt10 evid)
             [sign_event k (assoc_set "metamaskId" (parseInt10 evid) (msgParams m))] w)
      end
  end.
Proof.
  unfold confirm_message, bind, defined, get_state, put_state, ret, throw, emit.
  destruct (get_prop evdata "id") as [evid|]; [|reflexivity]. cbn [state trace].
  destruct (deref (k, ToPropertyKey evid) (state w)) as [m|] eqn:Ed; [|reflexivity].
  cbn [state trace]. rewrite (deref_mutate_same _ _ _ m Ed). reflexivity.
Qed.

Lemma confirm_transaction_cases (evdata : jsval) (w : World) :
  confirm_transaction evdata w =
  match get_prop evdata "id", get_prop evdata "gasPrice" with
  | Some evid, Some g =>
      let txMeta := find (fun x => strict_eq (JNum (id x)) evid)
                         (unApprovedTransactions (state w)) in
      if truthy g then
        match txMeta with
        | Some t =>
            (Normal tt,
             extend w [updateTransaction (set_gasPrice g (json_clone t));
                       updateAndApproveTransaction (Some (set_gasPrice g (json_clone t)))])
        | None => (Throw SyntaxError, w)
        end
      else (Normal tt, extend w [updateAndApproveTransaction txMeta])
  | _, _ => (Throw TypeError, w)
  end.
Proof.
  unfold confirm_transaction, bind, defined, get_state, ret, throw, emit, extend.
  destruct (get_prop evdata "id") as [evid|]; [|reflexivity].
  destruct (get_prop evdata "gasPrice") as [g|]; [|reflexivity]. cbn [state trace].
  destruct (truthy g); [|reflexivity].
  destruct (find _ _); [|reflexivity]. cbn [state trace]. now rewrite <- app_assoc.
Qed.

Lemma rejects_app (a b : list Event) : rejects (a ++ b) = rejects a ++ rejects b.
Proof. apply filter_app. Qed.

(** X5: A confirm that raises has done nothing but be entered: the store is
    as it was and no call into the signing collaborator was made.  And a
    confirm never makes a reject call. *)
Theorem handleConfirm_atomic (evdata : jsval) (w : World) :
  (forall e, fst (handleConfirm evdata w) = Throw e ->
             snd (handleConfirm evdata w) = extend w [enter_handleConfirm evdata]) /\
  rejects (trace (snd (handleConfirm evdata w))) = rejects (trace w).
Proof.
  rewrite handleConfirm_dispatch. cbv zeta.
  set (w' := extend w [enter_handleConfirm evdata]).
  assert (Hw' : rejects (trace w') = rejects (trace w)).
  { unfold w', extend. cbn [trace]. rewrite rejects_app. cbn. now rewrite app_nil_r. }
  assert (Hmsg : forall k,
            (forall e, fst (confirm_message k evdata w') = Throw e ->
                       snd (confirm_message k evdata w') = w') /\
            rejects (trace (snd (confirm_message k evdata w'))) = rejects (trace w)).
  { intros k. rewrite confirm_message_cases.
    destruct (get_prop evdata "id") as [evid|]; [|now split].
    destruct (deref _ _); [|now split]. split; [discriminate|].
    unfold signed_world. cbn [snd trace]. rewrite rejects_app, Hw'.
    destruct k; cbn; now rewrite app_nil_r. }
  destruct (nonempty (unapprovedPersonalMsgs (state w))); [apply Hmsg|].
  destruct (nonempty (unapprovedMsgs (state w))); [apply Hmsg|].
  destruct (nonempty (unapprovedTypedMessages (state w))); [apply Hmsg|].
  destruct (nonempty (transactions (state w))); [|now split].
  rewrite confirm_transaction_cases.
  destruct (get_prop evdata "id") as [evid|]; [|now split].
  destruct (get_prop evdata "gasPrice") as [g|]; [|now split]. cbv zeta.
  destruct (truthy g).
  - destruct (find _ _); [|now split]. split; [discriminate|].
    unfold extend. cbn [snd trace]. rewrite rejects_app, Hw'. cbn. now rewrite app_nil_r.
  - split; [discriminate|].
    unfold extend. cbn [snd trace]. rewrite rejects_app, Hw'. cbn. now rewrite app_nil_r.
Qed.

(** X6: A confirm while a message is pending serves the first non-empty
    collection among personal, plain and typed, whether or not a
    transaction is pending too.  If that collection has no message under
    the carried id, the confirm raises a TypeError and signs nothing;
    otherwise it writes [metamaskId], the parsed id, to that message's
    [msgParams] and signs them. *)
Theorem handleConfirm_signs_message (w : World) (evdata evid : jsval) (k : kind) :
  serving (state w) = Some k ->
  get_prop evdata "id" = Some evid ->
  (deref (k, ToPropertyKey evid) (state w) = None ->
   handleConfirm evdata w =
     (Throw TypeError, extend w [enter_handleConfirm evdata])) /\
  (forall m,
     deref (k, ToPropertyKey evid) (state w) = Some m ->
     handleConfirm evdata w =
       (Normal tt,
        signed_world (k, ToPropertyKey evid) (parseInt10 evid)
          [enter_handleConfirm evdata;
           sign_event k (assoc_set "metamaskId" (parseInt10 evid) (msgParams m))] w)).
Proof.
  intros Hk Hid.
  assert (Hc : handleConfirm evdata w =
               confirm_message k evdata (extend w [enter_handleConfirm evdata])).
  { rewrite handleConfirm_dispatch. cbv zeta. unfold serving in Hk.
    destruct (nonempty (unapprovedPersonalMsgs (state w))); [now injection Hk as <-|].
    destruct (nonempty (unapprovedMsgs (state w))); [now injection Hk as <-|].
    destruct (nonempty (unapprovedTypedMessages (state w))); [now injection Hk as <-|].
    discriminate. }
  rewrite Hc, confirm_message_cases, Hid. cbn [extend state]. split.
  - intros ->. reflexivity.
  - intros m ->. unfold signed_world, extend. cbn [state trace].
    now rewrite <- app_assoc.
Qed.

(** X7: A confirm whose id matches no unapproved transaction, with no message
    pending and [state.transactions] non-empty: with a gas price it
    raises (the copy of [undefined] cannot be parsed) and approves
    nothing; without one it still calls the approval operation, with
    [undefined]. *)
Theorem handleConfirm_unknown_transaction (w : World) (evdata evid g : jsval) :
  messages_empty (state w) ->
  transactions (state w) <> [] ->
  get_prop evdata "id" = Some evid ->
  get_prop evdata "gasPrice" = Some g ->
  find (fun x => strict_eq (JNum (id x)) evid) (unApprovedTransactions (state w)) = None ->
  handleConfirm evdata w =
  if truthy g
  then (Throw SyntaxError, extend w [enter_handleConfirm evdata])
  else (Normal tt, extend w [enter_handleConfirm evdata; updateAndApproveTransaction None]).
Proof.
  intros (H1 & H2 & H3) H4 Hid Hg Hfind.
  rewrite handleConfirm_dispatch. cbv zeta. rewrite H1, H2, H3. cbn [nonempty].
  destruct (transactions (state w)) eqn:Et; [congruence|]. cbn [nonempty].
  rewrite confirm_transaction_cases, Hid, Hg. cbv zeta. cbn [extend state].
  rewrite Hfind. destruct (truthy g); [reflexivity|].
  unfold extend. cbn [state trace]. now rewrite <- app_assoc.
Qed.

End ResolutionFacts.

(** ** Opening a session, the handshake and the decisions *)

Section HandshakeFacts.

Import Store Registry Popup Handshake.
Context {rt : Builtins}.
Variable env : Env.

(** X8: [showPopup] fails in two ways.  With nothing pending it throws as
    soon as the channel is created: no window is opened.  With only a
    transaction pending and no balance known for the selected address, it
    throws after the window is opened: the window is left without a
    message handler and without a watchdog. *)
Theorem showPopup_failures (w : World) :
  messages_empty (state w) ->
  (unApprovedTransactions (state w) = [] ->
   showPopup env w =
     (Throw (Error "No new transactions."), extend w [new_channel (channel_name env)])) /\
  (unApprovedTransactions (state w) <> [] -> weiBalance (state w) = None ->
   showPopup env w =
     (Throw TypeError,
      extend w [new_channel (channel_name env); window_open 660 500])).
Proof.
  intros (H1 & H2 & H3).
  unfold showPopup, bind, emit, get_state, defined, throw, ret.
  rewrite isTorusTransaction_cases. cbn [state trace]. rewrite H1, H2, H3. cbn [nonempty orb].
  split.
  - intros ->. reflexivity.
  - intros Hne Hbal. destruct (unApprovedTransactions (state w)); [congruence|].
    cbn [nonempty state trace]. rewrite Hbal. unfold extend, channel_name.
    now rewrite <- app_assoc.
Qed.

(** X9: When [showPopup] returns, it has created the session's channel and
    opened one window, 500 wide and 660 high for a transaction, 400 high
    for a message; the session is a transaction session exactly when no
    message is pending; [txId] is unset, the channel is open, the
    watchdog is running, and the window handle is missing only if the
    browser refused to open the window. *)
Theorem showPopup_opens (w : World) (s : Session) :
  fst (showPopup env w) = Normal s ->
  trace (snd (showPopup env w)) =
    trace w ++ [new_channel (channel_name env);
                window_open (if isTx s then 660 else 400) 500] /\
  (isTx s = true <-> messages_empty (state w)) /\
  txId s = JUndefined /\
  iClosedConfirmWindow s = JUndefined /\
  bc_closed s = false /\
  confirmTimer s = true /\
  confirmWindow s = (if popup_allowed env then Some {| closed := false |} else None) /\
  (isTx s = true -> shown_tx s = last_opt (unApprovedTransactions (state w))).
Proof.
  unfold showPopup, bind, emit, get_state, defined, throw, ret.
  rewrite isTorusTransaction_cases. cbn [state trace].
  destruct (nonempty (unapprovedPersonalMsgs (state w))
            || nonempty (unapprovedMsgs (state w))
            || nonempty (unapprovedTypedMessages (state w)))%bool eqn:Emsg.
  - assert (Hne : ~ messages_empty (state w)).
    { intros (H1 & H2 & H3). rewrite H1, H2, H3 in Emsg. discriminate. }
    cbn [state trace]. rewrite getLatestMessageParams_stages. cbn [state trace].
    destruct (s_msg _) as [r|].
    + destruct (deref r _); cbn [fst snd]; [|discriminate].
      intros [= <-]. cbn. unfold channel_name. rewrite <- app_assoc.
      repeat split; try discriminate; try reflexivity. intros H. contradiction.
    + cbn [fst snd]. intros [= <-]. cbn. unfold channel_name. rewrite <- app_assoc.
      repeat split; try discriminate; try reflexivity. intros H. contradiction.
  - assert (He : messages_empty (state w)).
    { apply orb_false_iff in Emsg as [Emsg E3]. apply orb_false_iff in Emsg as [E1 E2].
      unfold messages_empty.
      destruct (unapprovedPersonalMsgs (state w)); [|discriminate].
      destruct (unapprovedMsgs (state w)); [|discriminate].
      destruct (unapprovedTypedMessages (state w)); [|discriminate]. auto. }
    destruct (nonempty (unApprovedTransactions (state w))); [|discriminate].
    cbn [state trace]. destruct (weiBalance (state w)); cbn [fst snd]; [|discriminate].
    intros [= <-]. cbn. unfold channel_name. rewrite <- app_assoc.
    repeat split; auto; apply He.
Qed.

(** A message with a [type] is not the ready signal. *)
Lemma typed_message_not_ready (evdata : jsval) (ty : string) :
  get_prop evdata "type" = Some (JStr ty) ->
  strict_eq evdata (JStr "popup-loaded") = false.
Proof.
  destruct evdata; try reflexivity. cbv. discriminate.
Qed.

(** The first test of the handler lets an accepted decision through. *)
Lemma accepted_passes (s : Session) (evdata evid : jsval) (w : World) (ty : string) :
  get_prop evdata "type" = Some (JStr ty) ->
  get_prop evdata "id" = Some evid ->
  accepted s evid ->
  onmessage env s evdata w =
  (if strict_eq (JStr ty) (JStr "confirm-transaction") then
     bind (handleConfirm evdata) (fun _ => ret (close_by_orchestrator s))
   else if strict_eq (JStr ty) (JStr "deny-transaction") then
     bind (handleDeny evid) (fun _ => ret (close_by_orchestrator s))
   else ret s) w.
Proof.
  intros Hty Hid Hacc. unfold onmessage.
  rewrite (typed_message_not_ready _ _ Hty). cbn [andb].
  unfold bind at 1. unfold defined. rewrite Hid.
  assert (Hstale :
    (if negb (strict_eq (txId s) JUndefined)
     then bind (ret evid) (fun evid0 => ret (negb (strict_eq (txId s) evid0)))
     else ret false) w = (Normal false, w)).
  { destruct (strict_eq (txId s) JUndefined) eqn:Eu; [reflexivity|].
    destruct Hacc as [H|H]; [congruence|]. cbn. unfold bind, ret. now rewrite H. }
  rewrite Hstale. unfold bind at 1. rewrite Hty. unfold ret at 1.
  destruct (strict_eq (JStr ty) (JStr "confirm-transaction")); [reflexivity|].
  destruct (strict_eq (JStr ty) (JStr "deny-transaction")); reflexivity.
Qed.

(** X12: A deny decision that passes the first test of the handler, because
    it carries [txId] or because [txId] is still unset (the carried id is
    then not looked at), resolves the session: [handleDeny] runs once
    with the carried id, then the channel and the window are closed,
    [txId] is unset and the close is marked as the orchestrator's. *)
Theorem deny_decision_resolves (s : Session) (w : World) (evdata evid : jsval) :
  bc_closed s = false ->
  get_prop evdata "type" = Some (JStr "deny-transaction") ->
  get_prop evdata "id" = Some evid ->
  accepted s evid ->
  step env (s, w) (Deliver evdata) =
  (close_by_orchestrator s,
   extend w (enter_handleDeny evid :: reject_calls (state w) (parseInt10 evid))).
Proof.
  intros Hbc Hty Hid Hacc. unfold step. rewrite Hbc.
  rewrite (accepted_passes s evdata evid w _ Hty Hid Hacc). cbn [strict_eq].
  assert (String.eqb "deny-transaction" "confirm-transaction" = false) as -> by reflexivity.
  rewrite String.eqb_refl. unfold bind. rewrite handleDeny_calls. reflexivity.
Qed.

(** X13: A confirm decision that passes the first test of the handler
    resolves the session only if [handleConfirm] returns.  If
    [handleConfirm] raises, the handler stops there: the channel and the
    window stay open, [txId] stays as it was, and nothing is rejected. *)
Theorem confirm_decision_outcome (s : Session) (w : World) (evdata evid : jsval) :
  bc_closed s = false ->
  get_prop evdata "type" = Some (JStr "confirm-transaction") ->
  get_prop evdata "id" = Some evid ->
  accepted s evid ->
  (fst (handleConfirm evdata w) = Normal tt ->
   step env (s, w) (Deliver evdata) =
     (close_by_orchestrator s, snd (handleConfirm evdata w))) /\
  (forall e, fst (handleConfirm evdata w) = Throw e ->
   step env (s, w) (Deliver evdata) = (s, snd (handleConfirm evdata w))).
Proof.
  intros Hbc Hty Hid Hacc. unfold step. rewrite Hbc.
  rewrite (accepted_passes s evdata evid w _ Hty Hid Hacc). cbn [strict_eq].
  rewrite String.eqb_refl. unfold bind, ret.
  destruct (handleConfirm evdata w) as [[[]|e] w']; cbn [fst snd settle]; split;
    intros; try discriminate; reflexivity.
Qed.

(** X14: When the browser refuses to open the window, the watchdog finds no
    window to look at: every tick raises and does nothing, the interval
    is never cleared, and no deny is ever synthesized. *)
Theorem blocked_popup_never_denied (s : Session) (w : World) (inputs : list Input) :
  confirmWindow s = None ->
  Forall not_a_message inputs ->
  run env (s, w) inputs = (s, w).
Proof.
  intros Hw Hall. induction Hall as [|i r Hi _ IH]; [reflexivity|].
  unfold run in *. cbn [fold_left].
  assert (Hstep : step env (s, w) i = (s, w)); [|now rewrite Hstep].
  destruct Hi as [-> | ->]; unfold step.
  - destruct (confirmTimer s); [|reflexivity].
    unfold watchdog, bind, defined. now rewrite Hw.
  - rewrite Hw. destruct s. cbn in *. now subst.
Qed.

Lemma showPopup_transaction_session (w : World) (wei : Z) :
  messages_empty (state w) ->
  unApprovedTransactions (state w) <> [] ->
  weiBalance (state w) = Some wei ->
  showPopup env w =
  (Normal (fresh_session env true (last_opt (unApprovedTransactions (state w))) None
             (fromWei wei)),
   extend w [new_channel (channel_name env); window_open 660 500]).
Proof.
  intros (H1 & H2 & H3) Htx Hbal.
  unfold showPopup, bind, emit, get_state, defined, throw, ret.
  rewrite isTorusTransaction_cases. cbn [state trace]. rewrite H1, H2, H3.
  destruct (unApprovedTransactions (state w)) eqn:E; [congruence|].
  cbn [nonempty orb state trace]. rewrite Hbal, E.
  unfold fresh_session, extend, channel_name. now rewrite <- app_assoc.
Qed.

Lemma showPopup_message_session (w : World) (r : option (props * jsval)) (w2 : World) :
  ~ messages_empty (state w) ->
  getLatestMessageParams
    (extend w [new_channel (channel_name env); window_open 400 500]) = (Normal r, w2) ->
  showPopup env w = (Normal (fresh_session env false None r JUndefined), w2).
Proof.
  intros Hne Hr. destruct (first_message_kind _ Hne) as (k & Hk & _).
  unfold showPopup, bind, emit, get_state, defined, throw, ret.
  rewrite isTorusTransaction_cases. cbn [state trace].
  assert ((nonempty (unapprovedPersonalMsgs (state w))
           || nonempty (unapprovedMsgs (state w))
           || nonempty (unapprovedTypedMessages (state w)))%bool = true) as ->.
  { destruct k; simpl in Hk; rewrite Hk; now rewrite ?orb_true_r, ?orb_true_l. }
  cbn [state trace]. unfold extend, channel_name in Hr. cbn [state trace] in Hr.
  rewrite <- app_assoc. cbn [app]. rewrite Hr. reflexivity.
Qed.

(** The ready signal on a session whose [txId] is unset. *)
Lemma ready_step (s : Session) (w : World) :
  bc_closed s = false ->
  txId s = JUndefined ->
  step env (s, w) (Deliver (JStr "popup-loaded")) = settle s (on_ready env s w).
Proof.
  intros Hbc Hid. unfold step. rewrite Hbc. unfold onmessage, bind at 1.
  rewrite Hid. reflexivity.
Qed.

(** X10: The handshake of a transaction session: with no message pending and
    the balance known, [showPopup] followed by the ready signal sets
    [txId] to the id of the last unapproved transaction in enumeration
    order and posts that transaction, the network host and the balance
    to the surface. *)
Theorem transaction_handshake (w : World) (l : list TxMeta) (t : TxMeta) (wei : Z) :
  messages_empty (state w) ->
  unApprovedTransactions (state w) = l ++ [t] ->
  weiBalance (state w) = Some wei ->
  exists s w1,
    showPopup env w = (Normal s, w1) /\
    step env (s, w1) (Deliver (JStr "popup-loaded")) =
      (with_txId s (JNum (id t)),
       extend w [new_channel (channel_name env); window_open 660 500;
                 postTransaction (origin env) t (networkHost (state w)) (fromWei wei)]).
Proof.
  intros Hm Htx Hbal.
  assert (Hne : unApprovedTransactions (state w) <> [])
    by (rewrite Htx; now destruct l).
  rewrite (showPopup_transaction_session w wei Hm Hne Hbal).
  eexists. eexists. split; [reflexivity|].
  rewrite ready_step by reflexivity.
  unfold on_ready, bind, defined, ret, emit, get_state.
  cbn [fresh_session isTx shown_tx]. rewrite Htx. unfold last_opt.
  rewrite rev_app_distr. cbn [rev app settle].
  unfold with_txId, extend, fresh_session. cbn [state trace balance confirmWindow
    iClosedConfirmWindow txId bc_closed confirmTimer isTx shown_tx shown_msg].
  now rewrite <- !app_assoc.
Qed.

(** X11: The handshake of a message session: with distinct keys and a message
    of positive greatest time, [showPopup] followed by the ready signal
    sets [txId] to the key of the first such message in scan order, a
    string, and posts that message's [msgParams] and key to the surface.
    A decision that carries a number as its id is then ignored, whatever
    the number. *)
Theorem message_handshake (w : World)
    (l1 l2 : list (ref * Message)) (k : kind) (key : string) (m : Message) :
  keys_unique (state w) ->
  scan_order (state w) = l1 ++ ((k, key), m) :: l2 ->
  0 < time m ->
  Forall (fun x => time (snd x) < time m) l1 ->
  Forall (fun x => time (snd x) <= time m) l2 ->
  exists s w1 w2,
    showPopup env w = (Normal s, w1) /\
    step env (s, w1) (Deliver (JStr "popup-loaded")) = (with_txId s (JStr key), w2) /\
    trace w2 =
      trace w ++ [new_channel (channel_name env); window_open 400 500;
                  postMessage (origin env) (Some (shown_params k (msgParams m))) (JStr key)] /\
    (forall evdata n,
       get_prop evdata "id" = Some (JNum n) ->
       step env (with_txId s (JStr key), w2) (Deliver evdata) =
         (with_txId s (JStr key), w2)).
Proof.
  intros Huniq Hl Hpos H1 H2.
  assert (Hpend : pending (state w) k key m)
    by (apply pending_scan_order; rewrite Hl; apply in_elt).
  assert (Hne : ~ messages_empty (state w)).
  { intros (E1 & E2 & E3). unfold pending in Hpend.
    destruct k; simpl in Hpend; rewrite ?E1, ?E2, ?E3 in Hpend; contradiction. }
  set (w0 := extend w [new_channel (channel_name env); window_open 400 500]).
  pose proof (latest_first_max w0 l1 l2 k key m Huniq Hl Hpos H1 H2) as Hlatest.
  rewrite (showPopup_message_session w _ _ Hne Hlatest).
  eexists. eexists. eexists. split; [reflexivity|].
  rewrite ready_step by reflexivity.
  unfold on_ready, bind, ret, emit. cbn [fresh_session isTx shown_msg settle].
  split; [reflexivity|]. split.
  - cbn [trace state option_map fst]. unfold w0, extend. cbn [trace].
    now rewrite <- app_assoc.
  - intros evdata n Hid. unfold step. cbn [with_txId fresh_session bc_closed].
    rewrite onmessage_stale; [reflexivity|reflexivity|].
    exists (JNum n). split; [exact Hid|reflexivity].
Qed.

(** [showPopup] returns in every other case. *)
Lemma showPopup_returns (w : World) :
  (~ messages_empty (state w) -> keys_unique (state w) ->
   exists s, fst (showPopup env w) = Normal s) /\
  (messages_empty (state w) -> unApprovedTransactions (state w) <> [] ->
   weiBalance (state w) <> None ->
   exists s, fst (showPopup env w) = Normal s).
Proof.
  unfold showPopup, bind, emit, get_state, defined, throw, ret.
  rewrite isTorusTransaction_cases. cbn [state trace]. split.
  - intros Hne Huniq.
    destruct (first_message_kind _ Hne) as (k & Hk & _).
    assert ((nonempty (unapprovedPersonalMsgs (state w))
             || nonempty (unapprovedMsgs (state w))
             || nonempty (unapprovedTypedMessages (state w)))%bool = true) as ->.
    { destruct k; simpl in Hk; rewrite Hk; now rewrite ?orb_true_r, ?orb_true_l. }
    cbn [state trace].
    set (w1 := {| state := state w; trace := _ |}).
    destruct (getLatestMessageParams_returns w1 Huniq) as [r Hr].
    destruct (getLatestMessageParams w1) as [c w2]. cbn [fst] in Hr. subst c.
    cbn [fst]. eauto.
  - intros (H1 & H2 & H3) Htx Hbal. rewrite H1, H2, H3. cbn [nonempty orb].
    destruct (unApprovedTransactions (state w)); [congruence|].
    cbn [nonempty state trace]. destruct (weiBalance (state w)); [|congruence].
    cbn [fst]. eauto.
Qed.

End HandshakeFacts.

(** ** More on the payload transform stage *)

Section PipelineFacts.

Import Transform Pipeline.
Context {rt : Builtins}.

Lemma get_prop_none_iff (v : jsval) (k : string) :
  get_prop v k = None <-> nullish v.
Proof.
  unfold nullish. destruct v as [| | | | |s|c p]; simpl;
    try (split; [discriminate|intros [H|H]; discriminate]);
    try (split; auto; fail).
  - destruct (index_of_key k); split; try discriminate; intros [H|H]; discriminate.
  - destruct c; try destruct (index_of_key k); destruct (assoc_get k p);
      split; try discriminate; intros [H|H]; discriminate.
Qed.

Lemma get_prop_store_other (o : jsval) (k k' : string) (x : jsval) :
  k <> k' -> get_prop (store_prop o k x) k' = get_prop o k'.
Proof.
  intros Hne. destruct o as [| | | | |s|c p]; try reflexivity. simpl.
  destruct c; try destruct (index_of_key k'); try reflexivity;
    now rewrite assoc_get_set_other.
Qed.

(** What the stage emits is its input, or its input after the assignment
    to [params[0].from], [params[0]] being an object. *)
Lemma transform_output_shape (chunk c : jsval) :
  transform chunk = Normal c ->
  c = chunk \/
  exists ps cobj props v,
    get_prop chunk "params" = Some ps /\
    get_prop ps "0" = Some (JObj cobj props) /\
    c = assign_from chunk ps (JObj cobj props) v.
Proof.
  unfold transform.
  destruct (get_prop chunk "method") as [m|]; [|discriminate].
  destruct (strict_eq m (JStr "eth_call") || strict_eq m (JStr "eth_estimateGas"))%bool;
    [|intros [= <-]; now left].
  destruct (get_prop chunk "params") as [ps|] eqn:Hps; [|discriminate].
  destruct (get_prop ps "0") as [p0|] eqn:Hp0; [|discriminate].
  destruct (get_prop p0 "from") as [f|]; [|discriminate].
  assert (Hassign : forall v, Normal (assign_from chunk ps p0 v) = Normal c ->
            c = chunk \/
            exists ps0 cobj props v0,
              Some ps = Some ps0 /\ get_prop ps0 "0" = Some (JObj cobj props) /\
              c = assign_from chunk ps0 (JObj cobj props) v0).
  { intros v [= <-]. destruct p0 as [| | | | | |cobj props]; try (now left).
    right. exists ps, cobj, props, v. auto. }
  destruct (truthy f && is_string f)%bool.
  - destruct f; try (intros [= <-]; now left).
    destruct (String.eqb (substring02 s) "0x"); [|intros [= <-]; now left].
    destruct (Buffer_from_hex (slice2 s)); [|discriminate]. apply Hassign.
  - destruct (negb (truthy f)); [apply Hassign|intros [= <-]; now left].
Qed.

(** A value that is not the string [s] fails the test [v === s]. *)
Lemma strict_eq_other_string (v : jsval) (s : string) :
  v <> JStr s -> strict_eq v (JStr s) = false.
Proof.
  intros Hne. destruct v; try reflexivity. simpl.
  destruct (String.eqb_spec s0 s) as [->|]; [now contradiction Hne|reflexivity].
Qed.

(** X16: The stage changes nothing but [params[0].from]: a request whose
    method is neither [eth_call] nor [eth_estimateGas] is passed on as it
    is; and in whatever the stage passes on, every other property of the
    request, every other element of [params] and every other field of
    [params[0]] reads as before. *)
Theorem transform_frame (chunk : jsval) :
  (forall m, get_prop chunk "method" = Some m ->
             m <> JStr "eth_call" -> m <> JStr "eth_estimateGas" ->
             transform chunk = Normal chunk) /\
  (forall c, transform chunk = Normal c ->
     (forall k, k <> "params" -> get_prop c k = get_prop chunk k) /\
     (forall k, k <> "0" -> param c k = param chunk k) /\
     (forall k, k <> "from" -> param0_field c k = param0_field chunk k)).
Proof.
  split.
  { intros m Hm H1 H2. unfold transform. rewrite Hm.
    now rewrite (strict_eq_other_string _ _ H1), (strict_eq_other_string _ _ H2). }
  intros c H. apply transform_output_shape in H
    as [->|(ps & cobj & props & v & Hps & Hp0 & ->)]; [now repeat split|].
  destruct (get_prop_0_object _ _ _ Hp0) as (cp & pp & -> & Hpp & Hread).
  destruct (get_prop_params_object _ _ _ Hps) as (cc & cprops & -> & Hc).
  assert (Hparams : get_prop (assign_from (JObj cc cprops) (JObj cp pp) (JObj cobj props) v)
                      "params" =
                    Some (store_prop (JObj cp pp) "0" (JObj cobj (assoc_set "from" v props)))).
  { unfold assign_from, store_prop. rewrite get_prop_named by reflexivity.
    now rewrite assoc_get_set_same. }
  split; [|split].
  - intros k Hk. unfold assign_from. now apply get_prop_store_other.
  - intros k Hk. unfold param. rewrite Hparams, Hps. now apply get_prop_store_other.
  - intros k Hk. unfold param0_field, param. rewrite Hparams, Hps, Hp0.
    unfold store_prop at 1. rewrite Hread, assoc_get_set_same.
    change (JObj cobj (assoc_set "from" v props))
      with (store_prop (JObj cobj props) "from" v).
    now apply get_prop_store_other.
Qed.

(** X17: On a simulation call the stage fails with a TypeError exactly when
    [params], or [params[0]], is [undefined] or [null]; nothing is then
    passed on. *)
Theorem transform_type_error_iff (chunk : jsval) :
  simulation_call chunk ->
  (transform chunk = Throw TypeError <->
   (exists ps, get_prop chunk "params" = Some ps /\ nullish ps) \/
   (exists p0, param chunk "0" = Some p0 /\ nullish p0)).
Proof.
  intros Hsim. unfold transform, param.
  assert (Hm : exists m, get_prop chunk "method" = Some m /\
                 (strict_eq m (JStr "eth_call") || strict_eq m (JStr "eth_estimateGas"))%bool
                 = true)
    by (destruct Hsim as [H|H]; rewrite H; eexists; split; reflexivity).
  destruct Hm as (m & -> & ->).
  destruct (get_prop chunk "params") as [ps|] eqn:Hps.
  2:{ split; [|reflexivity]. intros _.
      apply get_prop_none_iff in Hps. destruct Hsim as [H|H];
        destruct Hps as [-> | ->]; discriminate. }
  destruct (get_prop ps "0") as [p0|] eqn:Hp0.
  2:{ split; [|reflexivity]. intros _. left. exists ps. split; [reflexivity|].
      now apply get_prop_none_iff in Hp0. }
  assert (Hps_ok : ~ nullish ps).
  { intros Hn. apply (get_prop_none_iff ps "0") in Hn. congruence. }
  destruct (get_prop p0 "from") as [f|] eqn:Hf.
  2:{ split; [|reflexivity]. intros _. right. exists p0. split; [reflexivity|].
      now apply get_prop_none_iff in Hf. }
  assert (Hp0_ok : ~ nullish p0).
  { intros Hn. apply (get_prop_none_iff p0 "from") in Hn. congruence. }
  split.
  - destruct (truthy f && is_string f)%bool.
    + destruct f; try discriminate.
      destruct (String.eqb (substring02 s) "0x"); [|discriminate].
      destruct (Buffer_from_hex (slice2 s)); discriminate.
    + destruct (negb (truthy f)); discriminate.
  - intros [(ps' & [= <-] & Hn)|(p0' & [= <-] & Hn)]; contradiction.
Qed.

(** *** buf2hex *)

Lemma append_empty_r (s : string) : (s ++ "")%string = s.
Proof. induction s as [|a s IH]; simpl; [reflexivity|now rewrite IH]. Qed.

Lemma buf2hex_cons (x : byte) (l : list byte) :
  buf2hex (x :: l) = (byte_hex x ++ buf2hex l)%string.
Proof.
  unfold buf2hex. simpl. destruct (map byte_hex l) eqn:E.
  - simpl. now rewrite append_empty_r.
  - reflexivity.
Qed.

Lemma byte_hex_two (x : byte) :
  exists a b, byte_hex x = String a (String b EmptyString).
Proof. destruct x; eexists; eexists; reflexivity. Qed.

Lemma byte_hex_decodes (x : byte) (s : string) :
  Reference.hex_bytes (byte_hex x ++ s) = option_map (cons x) (Reference.hex_bytes s).
Proof. destruct x; reflexivity. Qed.

Lemma buf2hex_decodes (buffer : list byte) :
  Reference.hex_bytes (buf2hex buffer) = Some buffer.
Proof.
  induction buffer as [|x l IH]; [reflexivity|].
  now rewrite buf2hex_cons, byte_hex_decodes, IH.
Qed.

(** X18: [buf2hex] writes two characters per byte and loses nothing: byte
    sequences with the same text are the same. *)
Theorem buf2hex_faithful (buffer buffer' : list byte) :
  String.length (buf2hex buffer) = (2 * List.length buffer)%nat /\
  (buf2hex buffer = buf2hex buffer' -> buffer = buffer').
Proof.
  split.
  - induction buffer as [|x l IH]; [reflexivity|].
    rewrite buf2hex_cons. destruct (byte_hex_two x) as (a & b & ->).
    simpl. rewrite IH. lia.
  - intros H. pose proof (buf2hex_decodes buffer) as H1.
    rewrite H, buf2hex_decodes in H1. congruence.
Qed.

End PipelineFacts.

(** ** The network-change surface and its request *)

Section NetworkChangeFacts.

Import ProviderChange NetworkChange.
Variable URL_hostname : jsval -> option string.

Lemma strict_eq_string (v : jsval) (s : string) :
  strict_eq v (JStr s) = true <-> v = JStr s.
Proof.
  destruct v; simpl; split; try discriminate.
  - intros H. apply String.eqb_eq in H. now subst.
  - intros [= ->]. apply String.eqb_refl.
Qed.

(** X19: The surface answers the request it was given: once the handler has
    taken a request, the decision sent on confirm carries back exactly
    the [network] and the [type] of that request.  The surface shows the
    request as an RPC endpoint when the type is the string [rpc], and as
    a named network otherwise; it is past the loading state either way. *)
Theorem request_round_trip (this this' : Component) (evdata : jsval) :
  handle URL_hostname this evdata = Normal this' ->
  exists p n t,
    get_prop evdata "payload" = Some p /\
    get_prop p "network" = Some n /\
    get_prop p "type" = Some t /\
    triggerSign this' =
      [ new_BroadcastChannel "torus_provider_change_channel";
        bc_postMessage "torus_provider_change_channel"
          (obj [("data", obj [("type", JStr "confirm-provider-change");
                              ("payload", obj [("network", n); ("type", t)]);
                              ("approve", JBool true)])]);
        bc_close "torus_provider_change_channel";
        window_close ] /\
    (t = JStr "rpc" /\ type this' = "rpc" /\ rpcNetwork this' = n \/
     t <> JStr "rpc" /\ type this' = "non-rpc" /\ network this' = n).
Proof.
  unfold handle. destruct (truthy evdata) eqn:Et.
  2:{ cbv. discriminate. }
  destruct (get_prop evdata "payload") as [p|]; [|discriminate].
  destruct (get_prop p "network") as [n|] eqn:Hn; [|discriminate].
  destruct (get_prop p "type") as [t|] eqn:Ht; [|discriminate].
  destruct (get_prop evdata "origin") as [o|]; [|discriminate]. cbv zeta.
  destruct (truthy t && strict_eq t (JStr "rpc"))%bool eqn:Erpc; intros [= <-];
    exists p, n, t; (split; [reflexivity|split; [exact Hn|split; [exact Ht|split; [reflexivity|]]]]).
  - left. apply andb_true_iff in Erpc as [_ H]. apply strict_eq_string in H. auto.
  - right. split; [|split; reflexivity]. intros ->. discriminate Erpc.
Qed.

(** A message that carries no request makes the handler raise before it
    writes anything, whatever the component. *)
Lemma handle_no_request (this : Component) (evdata : jsval) :
  no_request evdata -> handle URL_hostname this evdata = Throw TypeError.
Proof.
  unfold handle. intros [Hf|(p & Hp & Hn)].
  - rewrite Hf. reflexivity.
  - destruct (truthy evdata) eqn:Et.
    + rewrite Hp. destruct Hn as [-> | ->]; reflexivity.
    + reflexivity.
Qed.

Lemma deliver_closed (sf : Surface) (messages : list jsval) :
  listening sf = false -> fold_left (deliver URL_hostname) messages sf = sf.
Proof.
  intros H. induction messages as [|d r IH]; [reflexivity|].
  cbn [fold_left]. unfold deliver at 2. rewrite H. exact IH.
Qed.

(** X20: The surface takes one request: messages that carry none (the ready
    signal of another surface is one) leave it as it was and still
    listening; the first message the handler accepts fills the component
    and closes the channel; nothing that arrives later is looked at. *)
Theorem surface_takes_one_request (sf : Surface) (before later : list jsval)
    (evdata : jsval) (c : Component) :
  listening sf = true ->
  Forall no_request before ->
  handle URL_hostname (component sf) evdata = Normal c ->
  fold_left (deliver URL_hostname) before sf = sf /\
  fold_left (deliver URL_hostname) (before ++ evdata :: later) sf =
    {| component := c; listening := false |}.
Proof.
  intros Hl Hbefore Hh.
  assert (Hb : fold_left (deliver URL_hostname) before sf = sf).
  { induction Hbefore as [|d r Hd _ IH]; [reflexivity|].
    cbn [fold_left]. unfold deliver at 2. rewrite Hl.
    rewrite (handle_no_request _ _ Hd). exact IH. }
  split; [exact Hb|].
  rewrite fold_left_app, Hb. cbn [fold_left]. unfold deliver at 2.
  rewrite Hl, Hh. now apply deliver_closed.
Qed.

End NetworkChangeFacts.

(** ** The properties above on concrete inputs *)

Lemma getLatestMessageParams_empty_iff_witness :
  fst (@Store.getLatestMessageParams Reference.builtins Examples.w_epoch) = Normal None /\
  fst (@Store.getLatestMessageParams Reference.builtins Examples.w_idle) = Normal None.
Proof.
  split.
  - apply (proj2 (@getLatestMessageParams_empty_iff Reference.builtins Examples.w_epoch)).
    intros k key m H. destruct k; simpl in H; try contradiction.
    destruct H as [[= _ <-]|[]]. simpl. lia.
  - apply (proj2 (@getLatestMessageParams_empty_iff Reference.builtins Examples.w_idle)).
    intros k key m H. destruct k; simpl in H; contradiction.
Defined.

Lemma getLatestMessageParams_first_in_scan_order_witness :
  fst (@Store.getLatestMessageParams Reference.builtins Scenarios.w_same_kind) =
  Normal (Some ([("data", JStr "first"); ("from", JStr "0xab"); ("message", JStr "first")],
                JStr "1")).
Proof.
  apply (@getLatestMessageParams_first_in_scan_order Reference.builtins
           Scenarios.w_same_kind []
           [((Store.Plain, "2"), Examples.message "second" 7)]
           Store.Plain "1" (Examples.message "first" 7)).
  - intros k. destruct k; simpl; repeat constructor; simpl; intuition discriminate.
  - reflexivity.
  - simpl. lia.
  - constructor.
  - constructor; [simpl; lia|constructor].
Defined.

Lemma handleConfirm_atomic_witness :
  snd (@Store.handleConfirm Reference.builtins Examples.confirm7 Examples.w_both) =
  Store.extend Examples.w_both [Store.enter_handleConfirm Examples.confirm7].
Proof.
  apply (proj1 (@handleConfirm_atomic Reference.builtins Examples.confirm7 Examples.w_both)
           TypeError).
  reflexivity.
Defined.

Lemma handleConfirm_signs_message_witness :
  @Store.handleConfirm Reference.builtins Scenarios.confirm1 Examples.w_both =
    (Normal tt,
     Registry.signed_world (Store.Personal, "1") (JNum 1)
       [Store.enter_handleConfirm Scenarios.confirm1;
        Store.signPersonalMessage
          [("data", JStr "hello"); ("from", JStr "0xab"); ("metamaskId", JNum 1)]]
       Examples.w_both) /\
  @Store.handleConfirm Reference.builtins Examples.confirm7 Examples.w_both =
    (Throw TypeError,
     Store.extend Examples.w_both [Store.enter_handleConfirm Examples.confirm7]).
Proof.
  split.
  - exact (proj2 (@handleConfirm_signs_message Reference.builtins Examples.w_both
                    Scenarios.confirm1 (JNum 1) Store.Personal eq_refl eq_refl)
             (Examples.message "hello" 50) eq_refl).
  - exact (proj1 (@handleConfirm_signs_message Reference.builtins Examples.w_both
                    Examples.confirm7 (JNum 7) Store.Personal eq_refl eq_refl)
             eq_refl).
Defined.

Lemma handleConfirm_unknown_transaction_witness :
  @Store.handleConfirm Reference.builtins Scenarios.confirm8 Examples.w_tx =
  (Normal tt,
   Store.extend Examples.w_tx
     [Store.enter_handleConfirm Scenarios.confirm8;
      Store.updateAndApproveTransaction None]).
Proof.
  apply (@handleConfirm_unknown_transaction Reference.builtins Examples.w_tx
           Scenarios.confirm8 (JNum 8) JUndefined).
  - repeat split; reflexivity.
  - discriminate.
  - reflexivity.
  - reflexivity.
  - reflexivity.
Defined.

Lemma showPopup_failures_witness :
  @Popup.showPopup Reference.builtins Examples.env0 Examples.w_idle =
    (Throw (Error "No new transactions."),
     Store.extend Examples.w_idle [Store.new_channel "torus_channel_abc"]) /\
  @Popup.showPopup Reference.builtins Examples.env0 Scenarios.w_no_balance =
    (Throw TypeError,
     Store.extend Scenarios.w_no_balance
       [Store.new_channel "torus_channel_abc"; Store.window_open 660 500]).
Proof.
  split.
  - apply (proj1 (@showPopup_failures Reference.builtins Examples.env0 Examples.w_idle
                    (conj eq_refl (conj eq_refl eq_refl)))).
    reflexivity.
  - apply (proj2 (@showPopup_failures Reference.builtins Examples.env0 Scenarios.w_no_balance
                    (conj eq_refl (conj eq_refl eq_refl)))).
    + discriminate.
    + reflexivity.
Defined.

Lemma showPopup_opens_witness :
  Store.trace (snd (@Popup.showPopup Reference.builtins Examples.env0 Examples.w_two)) =
    [Store.new_channel "torus_channel_abc"; Store.window_open 400 500] /\
  Store.trace (snd (@Popup.showPopup Reference.builtins Examples.env0 Examples.w_tx)) =
    [Store.new_channel "torus_channel_abc"; Store.window_open 660 500].
Proof.
  split.
  - exact (proj1 (@showPopup_opens Reference.builtins Examples.env0 Examples.w_two
                    (fst (Examples.open_popup Examples.w_two)) eq_refl)).
  - exact (proj1 (@showPopup_opens Reference.builtins Examples.env0 Examples.w_tx
                    (fst (Examples.open_popup Examples.w_tx)) eq_refl)).
Defined.

Lemma deny_decision_resolves_witness :
  @Popup.step Reference.builtins Examples.env0 Examples.tx_session_ready
    (Popup.Deliver Scenarios.deny7) =
  (Popup.close_by_orchestrator (fst Examples.tx_session_ready),
   Store.extend (snd Examples.tx_session_ready)
     [Store.enter_handleDeny (JNum 7); Store.cancelTransaction (JNum 7)]).
Proof.
  apply (@deny_decision_resolves Reference.builtins Examples.env0
           (fst Examples.tx_session_ready) (snd Examples.tx_session_ready)
           Scenarios.deny7 (JNum 7)).
  - reflexivity.
  - reflexivity.
  - reflexivity.
  - right. reflexivity.
Defined.

Lemma confirm_decision_outcome_witness :
  @Popup.step Reference.builtins Examples.env0 Examples.tx_session_ready
    (Popup.Deliver Examples.confirm7) =
    (Popup.close_by_orchestrator (fst Examples.tx_session_ready),
     snd (@Store.handleConfirm Reference.builtins Examples.confirm7
            (snd Examples.tx_session_ready))) /\
  @Popup.step Reference.builtins Examples.env0 (Examples.open_popup Examples.w_both)
    (Popup.Deliver Examples.confirm7) =
    (fst (Examples.open_popup Examples.w_both),
     snd (@Store.handleConfirm Reference.builtins Examples.confirm7
            (snd (Examples.open_popup Examples.w_both)))).
Proof.
  split.
  - apply (proj1 (@confirm_decision_outcome Reference.builtins Examples.env0
                    (fst Examples.tx_session_ready) (snd Examples.tx_session_ready)
                    Examples.confirm7 (JNum 7) eq_refl eq_refl eq_refl
                    (or_intror eq_refl))).
    reflexivity.
  - apply (proj2 (@confirm_decision_outcome Reference.builtins Examples.env0
                    (fst (Examples.open_popup Examples.w_both))
                    (snd (Examples.open_popup Examples.w_both))
                    Examples.confirm7 (JNum 7) eq_refl eq_refl eq_refl
                    (or_introl eq_refl)) TypeError).
    reflexivity.
Defined.

Lemma blocked_popup_never_denied_witness :
  @Popup.run Reference.builtins Scenarios.env_blocked Scenarios.blocked_session
    [Popup.Tick; Popup.UserClose; Popup.Tick] = Scenarios.blocked_session.
Proof.
  apply (@blocked_popup_never_denied Reference.builtins Scenarios.env_blocked
           (fst Scenarios.blocked_session) (snd Scenarios.blocked_session)).
  - reflexivity.
  - constructor; [left; reflexivity|].
    constructor; [right; reflexivity|].
    constructor; [left; reflexivity|constructor].
Defined.

Lemma transaction_handshake_witness :
  exists s w1,
    @Popup.showPopup Reference.builtins Examples.env0 Examples.w_tx = (Normal s, w1) /\
    @Popup.step Reference.builtins Examples.env0 (s, w1) (Popup.Deliver (JStr "popup-loaded")) =
      (Handshake.with_txId s (JNum 7),
       Store.extend Examples.w_tx
         [Store.new_channel "torus_channel_abc"; Store.window_open 660 500;
          Store.postTransaction (JStr "https://dapp.example")
            (Examples.transaction 7 Store.unapproved) (JStr "mainnet") (JStr "2")]).
Proof.
  exact (@transaction_handshake Reference.builtins Examples.env0 Examples.w_tx
           [] (Examples.transaction 7 Store.unapproved) (2 * 10 ^ 18)
           (conj eq_refl (conj eq_refl eq_refl)) eq_refl eq_refl).
Defined.

Lemma message_handshake_witness :
  exists s w1 w2,
    @Popup.showPopup Reference.builtins Examples.env0 Examples.w_two = (Normal s, w1) /\
    @Popup.step Reference.builtins Examples.env0 (s, w1) (Popup.Deliver (JStr "popup-loaded")) =
      (Handshake.with_txId s (JStr "2"), w2) /\
    @Popup.step Reference.builtins Examples.env0 (Handshake.with_txId s (JStr "2"), w2)
      (Popup.Deliver (Examples.obj [("type", JStr "deny-transaction"); ("id", JNum 2)])) =
      (Handshake.with_txId s (JStr "2"), w2).
Proof.
  destruct (@message_handshake Reference.builtins Examples.env0 Examples.w_two
              [((Store.Personal, "1"), Examples.message "0x6869" 50)] []
              Store.Typed "2" (Examples.message "typed" 75))
    as (s & w1 & w2 & H1 & H2 & _ & H4).
  - intros k. destruct k; simpl; repeat constructor; simpl; tauto.
  - reflexivity.
  - simpl. lia.
  - constructor; [simpl; lia|constructor].
  - constructor.
  - exists s, w1, w2. split; [exact H1|]. split; [exact H2|].
    apply (H4 _ 2). reflexivity.
Defined.

Lemma transform_frame_witness :
  @Transform.transform Reference.builtins Scenarios.send_request =
    Normal Scenarios.send_request /\
  match @Transform.transform Reference.builtins Examples.call_request with
  | Normal c => Pipeline.param0_field c "to" = Some (JStr "0x01")
  | Throw _ => False
  end.
Proof.
  split.
  - apply (proj1 (@transform_frame Reference.builtins Scenarios.send_request)
             (JStr "eth_sendTransaction") eq_refl); discriminate.
  - destruct (@Transform.transform Reference.builtins Examples.call_request) as [c|e] eqn:E.
    + rewrite (proj2 (proj2 (proj2 (@transform_frame Reference.builtins
                                      Examples.call_request) c E)))
        by discriminate.
      reflexivity.
    + discriminate E.
Defined.

Lemma transform_type_error_iff_witness :
  @Transform.transform Reference.builtins Scenarios.call_without_params = Throw TypeError.
Proof.
  apply (proj2 (@transform_type_error_iff Reference.builtins Scenarios.call_without_params
                  (or_introl eq_refl))).
  left. exists JUndefined. split; [reflexivity|left; reflexivity].
Defined.

Lemma buf2hex_faithful_witness :
  String.length (Pipeline.buf2hex [x0a; xff; x00]%byte) = 6%nat /\
  Pipeline.buf2hex [x0a; xff; x00]%byte = "0aff00".
Proof.
  split.
  - exact (proj1 (buf2hex_faithful [x0a; xff; x00]%byte [])).
  - reflexivity.
Defined.

Lemma request_round_trip_witness :
  exists c,
    NetworkChange.handle Scenarios.hostname_of Scenarios.initial_component
      Scenarios.rpc_request = Normal c /\
    ProviderChange.origin c = "dapp.example" /\
    ProviderChange.type c = "rpc" /\
    ProviderChange.rpcNetwork c = Scenarios.rpc_endpoint.
Proof.
  eexists. split; [reflexivity|].
  destruct (request_round_trip Scenarios.hostname_of Scenarios.initial_component _
              Scenarios.rpc_request eq_refl)
    as (p & n & t & Hp & Hn & Ht & _ & [(_ & H1 & H2)|(Hne & _)]).
  - injection Hp as <-. injection Hn as <-. repeat split; assumption.
  - injection Hp as <-. injection Ht as <-. now contradiction Hne.
Defined.

Lemma surface_takes_one_request_witness :
  fold_left (NetworkChange.deliver Scenarios.hostname_of)
    ([Examples.obj [("data", JStr "popup-loaded")]; JStr "popup-loaded"]
     ++ Scenarios.rpc_request :: [Scenarios.rpc_request])
    Scenarios.initial_surface =
  {| NetworkChange.component :=
       {| ProviderChange.origin := "dapp.example";
          ProviderChange.type := "rpc";
          ProviderChange.network := JStr "";
          ProviderChange.rpcNetwork := Scenarios.rpc_endpoint;
          ProviderChange.payload :=
            Examples.obj [("network", Scenarios.rpc_endpoint); ("type", JStr "rpc")] |};
     NetworkChange.listening := false |}.
Proof.
  assert (Hb : Forall NetworkChange.no_request
                 [Examples.obj [("data", JStr "popup-loaded")]; JStr "popup-loaded"]).
  { constructor; [|constructor; [|constructor]];
      (right; exists JUndefined; split; [reflexivity|left; reflexivity]). }
  apply (surface_takes_one_request Scenarios.hostname_of Scenarios.initial_surface
           _ [Scenarios.rpc_request] Scenarios.rpc_request _ eq_refl Hb).
  reflexivity.
Defined.

(** ** A session resolves at most once *)

Section LifetimeFacts.

Import Store Registry Popup Lifetime.
Context {rt : Builtins}.
Variable env : Env.

Lemma resolutions_app (a b : list Event) :
  resolutions (a ++ b) = (resolutions a + resolutions b)%nat.
Proof. unfold resolutions. now rewrite filter_app, length_app. Qed.

Lemma reject_calls_resolutions (st : State) (n : jsval) :
  (resolutions (reject_calls st n) <= 1)%nat.
Proof.
  unfold reject_calls.
  destruct (nonempty (unapprovedPersonalMsgs st)); [cbn; lia|].
  destruct (nonempty (unapprovedMsgs st)); [cbn; lia|].
  destruct (nonempty (unapprovedTypedMessages st)); [cbn; lia|].
  destruct (nonempty (transactions st)); cbn; lia.
Qed.

(** A confirm that returns has made exactly one resolving call; a confirm
    that raises has made none. *)
Lemma handleConfirm_resolutions (evdata : jsval) (w : World) :
  resolutions (trace (snd (handleConfirm evdata w))) =
  (resolutions (trace w) +
   match fst (handleConfirm evdata w) with Normal _ => 1 | Throw _ => 0 end)%nat.
Proof.
  rewrite handleConfirm_dispatch. cbv zeta.
  set (w' := extend w [enter_handleConfirm evdata]).
  assert (Hw' : resolutions (trace w') = resolutions (trace w)).
  { unfold w', extend. cbn [trace]. rewrite resolutions_app. cbn. lia. }
  assert (Hmsg : forall k,
            resolutions (trace (snd (confirm_message k evdata w'))) =
            (resolutions (trace w) +
             match fst (confirm_message k evdata w') with Normal _ => 1 | Throw _ => 0 end)%nat).
  { intros k. rewrite confirm_message_cases.
    destruct (get_prop evdata "id") as [evid|]; [|cbn [fst snd]; lia].
    destruct (deref _ _); [|cbn [fst snd]; lia].
    unfold signed_world. cbn [fst snd trace]. rewrite resolutions_app, Hw'.
    destruct k; cbn; lia. }
  destruct (nonempty (unapprovedPersonalMsgs (state w))); [apply Hmsg|].
  destruct (nonempty (unapprovedMsgs (state w))); [apply Hmsg|].
  destruct (nonempty (unapprovedTypedMessages (state w))); [apply Hmsg|].
  destruct (nonempty (transactions (state w))); [|cbn [fst snd]; lia].
  rewrite confirm_transaction_cases.
  destruct (get_prop evdata "id") as [evid|]; [|cbn [fst snd]; lia].
  destruct (get_prop evdata "gasPrice") as [g|]; [|cbn [fst snd]; lia]. cbv zeta.
  destruct (truthy g).
  - destruct (find _ _); [|cbn [fst snd]; lia].
    unfold extend. cbn [fst snd trace]. rewrite resolutions_app, Hw'. cbn. lia.
  - unfold extend. cbn [fst snd trace]. rewrite resolutions_app, Hw'. cbn. lia.
Qed.

(** Nothing reaches a settled session. *)
Lemma settled_quiet (hs : list Happening) :
  forall (s : Session) (w : World),
    settled s ->
    trace (snd (live env (s, w) hs)) = trace w.
Proof.
  induction hs as [|h r IH]; intros s w Hset; [reflexivity|].
  pose proof Hset as [Hbc Hi].
  unfold live in *. cbn [fold_left]. destruct h as [i|st]; cbn [happen].
  - destruct i; unfold step.
    + rewrite Hbc. now apply IH.
    + destruct (confirmTimer s) eqn:Ht; [|now apply IH].
      unfold watchdog, bind, defined, ret, throw.
      destruct (confirmWindow s) as [win|]; cbn [settle]; [|now apply IH].
      destruct (closed win); cbn [settle]; [|now apply IH].
      rewrite (Hi eq_refl). cbn [negb settle]. apply IH. split; [reflexivity|discriminate].
    + apply IH. split; assumption.
  - cbn [fst snd]. now rewrite IH.
Qed.

(** The ways the message handler can go. *)
Lemma onmessage_outcomes (s : Session) (evdata : jsval) (w : World) :
  (exists e, onmessage env s evdata w = (Throw e, w)) \/
  onmessage env s evdata w = (Normal s, w) \/
  onmessage env s evdata w = on_ready env s w \/
  onmessage env s evdata w =
    bind (handleConfirm evdata) (fun _ => ret (close_by_orchestrator s)) w \/
  (exists evid,
     onmessage env s evdata w =
       bind (handleDeny evid) (fun _ => ret (close_by_orchestrator s)) w).
Proof.
  remember (onmessage env s evdata w) as om eqn:Hom.
  unfold onmessage in Hom.
  assert (Hstale :
    (exists e, (if negb (strict_eq (txId s) JUndefined)
                then bind (defined (get_prop evdata "id"))
                       (fun evid => ret (negb (strict_eq (txId s) evid)))
                else ret false) w = (Throw e, w)) \/
    (exists b, (if negb (strict_eq (txId s) JUndefined)
                then bind (defined (get_prop evdata "id"))
                       (fun evid => ret (negb (strict_eq (txId s) evid)))
                else ret false) w = (Normal b, w))).
  { destruct (negb (strict_eq (txId s) JUndefined)); [|right; eexists; reflexivity].
    unfold bind, defined. destruct (get_prop evdata "id");
      [right|left]; eexists; reflexivity. }
  unfold bind at 1 in Hom.
  destruct Hstale as [[e He]|[stale He]]; rewrite He in Hom; [left; eauto|].
  destruct stale; [right; left; exact Hom|].
  destruct (strict_eq evdata (JStr "popup-loaded") && strict_eq (txId s) JUndefined)%bool;
    [right; right; left; exact Hom|].
  unfold bind at 1 in Hom. unfold defined at 1 in Hom.
  destruct (get_prop evdata "type") as [ty|]; [|left; eexists; exact Hom].
  unfold ret at 1 in Hom.
  destruct (strict_eq ty (JStr "confirm-transaction"));
    [right; right; right; left; exact Hom|].
  destruct (strict_eq ty (JStr "deny-transaction")); [|right; left; exact Hom].
  unfold bind at 1 in Hom. unfold defined at 1 in Hom.
  destruct (get_prop evdata "id") as [evid|]; [|left; eexists; exact Hom].
  right; right; right; right. exists evid. exact Hom.
Qed.

(** One happening makes no resolving call, or makes one and settles the
    session. *)
Lemma one_happening (s : Session) (w : World) (h : Happening) :
  resolutions (trace (snd (happen env (s, w) h))) = resolutions (trace w) \/
  (resolutions (trace (snd (happen env (s, w) h))) = S (resolutions (trace w)) /\
   settled (fst (happen env (s, w) h))).
Proof.
  destruct h as [i|st]; cbn [happen]; [|now left].
  destruct i as [evdata| |]; unfold step.
  - destruct (bc_closed s); [now left|].
    destruct (onmessage_outcomes s evdata w)
      as [[e ->]|[->|[->|[->|[evid ->]]]]]; try (now left).
    + unfold on_ready, bind, defined, ret, emit, get_state, throw.
      destruct (isTx s).
      * destruct (shown_tx s); cbn [settle snd trace]; [|now left].
        left. rewrite resolutions_app. cbn. lia.
      * cbn [settle snd trace]. left. rewrite resolutions_app. cbn. lia.
    + unfold bind, ret. pose proof (handleConfirm_resolutions evdata w) as Hc.
      destruct (handleConfirm evdata w) as [[[]|e] w1]; cbn [fst snd settle] in *.
      * right. split; [lia|]. split; [reflexivity|reflexivity].
      * left. lia.
    + unfold bind, ret. rewrite handleDeny_calls. cbn [settle fst snd].
      unfold extend. cbn [trace]. rewrite resolutions_app.
      pose proof (reject_calls_resolutions (state w) (parseInt10 evid)) as Hr.
      change (resolutions (enter_handleDeny evid :: reject_calls (state w) (parseInt10 evid)))
        with (resolutions (reject_calls (state w) (parseInt10 evid))).
      destruct (resolutions (reject_calls (state w) (parseInt10 evid))) as [|[|n]];
        [left; lia|right|lia].
      split; [lia|]. split; reflexivity.
  - destruct (confirmTimer s); [|now left].
    unfold watchdog, bind, defined, ret, emit, throw.
    destruct (confirmWindow s) as [win|]; cbn [settle]; [|now left].
    destruct (closed win); cbn [settle]; [|now left].
    destruct (negb (truthy (iClosedConfirmWindow s))); [|now left].
    rewrite handleDeny_calls. cbn [settle fst snd]. unfold extend. cbn [trace state].
    rewrite !resolutions_app.
    pose proof (reject_calls_resolutions (state w) (parseInt10 (txId s))) as Hr.
    change (resolutions (enter_handleDeny (txId s)
                         :: reject_calls (state w) (parseInt10 (txId s))))
      with (resolutions (reject_calls (state w) (parseInt10 (txId s)))).
    change (resolutions [log_error "user closed popup"]) with 0%nat.
    destruct (resolutions (reject_calls (state w) (parseInt10 (txId s)))) as [|[|n]];
      [left; lia|right|lia].
    split; [lia|]. split; [reflexivity|discriminate].
  - now left.
Qed.

(** X15: Over its whole life a session makes at most one resolving call (one
    signature, one approval or one reject), whatever arrives on its
    channel, however often the watchdog ticks or the window is closed,
    and whatever is done to the store in between; this from any state of
    the session variables. *)
Theorem session_resolves_at_most_once (s : Session) (w : World) (hs : list Happening) :
  (resolutions (trace (snd (live env (s, w) hs))) <= S (resolutions (trace w)))%nat.
Proof.
  revert s w. induction hs as [|h r IH]; intros s w; [cbn; lia|].
  unfold live in *. cbn [fold_left].
  destruct (one_happening s w h) as [Hsame|[Hone Hset]].
  - destruct (happen env (s, w) h) as [s' w']. cbn [snd] in Hsame.
    rewrite <- Hsame. apply IH.
  - destruct (happen env (s, w) h) as [s' w']. cbn [fst snd] in *.
    fold (live env (s', w') r). rewrite (settled_quiet r s' w' Hset). lia.
Qed.

End LifetimeFacts.

(** ** Selecting twice *)

Section IdempotenceFacts.

Import Store Registry.
Context {rt : Builtins}.

Lemma assoc_set_twice {A : Type} (k : string) (v v' : A) (l : list (string * A)) :
  assoc_set k v (assoc_set k v' l) = assoc_set k v l.
Proof.
  induction l as [|[k0 v0] l IH]; simpl.
  - now rewrite String.eqb_refl.
  - destruct (String.eqb k k0) eqn:E; simpl.
    + now rewrite String.eqb_refl.
    + now rewrite E, IH.
Qed.

Lemma set_message_twice (p : props) : set_message (set_message p) = set_message p.
Proof.
  unfold set_message at 1.
  assert (Hd : prop "data" (set_message p) = prop "data" p).
  { unfold set_message, prop. rewrite assoc_get_set_other; [reflexivity|discriminate]. }
  rewrite Hd. unfold set_message. apply assoc_set_twice.
Qed.

Lemma set_typedMessages_twice (p : props) :
  set_typedMessages (set_typedMessages p) = set_typedMessages p.
Proof.
  unfold set_typedMessages at 1.
  assert (Hd : prop "data" (set_typedMessages p) = prop "data" p).
  { unfold set_typedMessages, prop. rewrite assoc_get_set_other; [reflexivity|discriminate]. }
  rewrite Hd. unfold set_typedMessages. apply assoc_set_twice.
Qed.

Lemma update_at_twice (key : string) (f : props -> props) (c : list (string * Message)) :
  (forall p, f (f p) = f p) -> update_at key f (update_at key f c) = update_at key f c.
Proof.
  intros Hf. induction c as [|[k m] c IH]; [reflexivity|]. simpl.
  destruct (String.eqb key k) eqn:E; simpl; rewrite E.
  - now rewrite Hf.
  - now rewrite IH.
Qed.

Lemma update_at_skeleton (key : string) (f : props -> props) (c : list (string * Message)) :
  skeleton (update_at key f c) = skeleton c.
Proof.
  induction c as [|[k m] c IH]; [reflexivity|]. simpl.
  destruct (String.eqb key k); simpl; [reflexivity|now rewrite IH].
Qed.

Lemma update_at_fresh (key : string) (f : props -> props)
    (pre r : list (string * Message)) (m : Message) :
  ~ In key (map fst pre) ->
  update_at key f (pre ++ (key, m) :: r) =
  pre ++ (key, {| msgParams := f (msgParams m); time := time m |}) :: r.
Proof.
  intros Hnot. induction pre as [|[k0 m0] pre IH]; simpl.
  - now rewrite String.eqb_refl.
  - destruct (String.eqb key k0) eqn:E.
    + apply String.eqb_eq in E. subst k0. exfalso. apply Hnot. now left.
    + rewrite IH; [reflexivity|]. intros H. apply Hnot. now right.
Qed.

Lemma set_coll_twice (k : kind) (c c' : list (string * Message)) (st : State) :
  set_coll k c (set_coll k c' st) = set_coll k c st.
Proof. destruct k; reflexivity. Qed.

Lemma set_coll_same (k : kind) (st : State) : set_coll k (coll k st) st = st.
Proof. destruct st, k; reflexivity. Qed.

Lemma set_coll_swap (k k' : kind) (c c' : list (string * Message)) (st : State) :
  k <> k' -> set_coll k c (set_coll k' c' st) = set_coll k' c' (set_coll k c st).
Proof. destruct k, k'; intros H; try reflexivity; congruence. Qed.

(** The scan reads keys and times only. *)
Lemma scan_loop_skeleton (k : kind) (c c' : list (string * Message)) :
  skeleton c = skeleton c' ->
  forall acc, fold_left (scan_step k) c acc = fold_left (scan_step k) c' acc.
Proof.
  revert c'. induction c as [|[k0 m0] c IH]; intros [|[k1 m1] c'] H acc;
    try discriminate; [reflexivity|].
  simpl in H. injection H as -> Ht Hr. simpl. unfold scan_step at 2 4. simpl.
  rewrite Ht. now apply IH.
Qed.

Lemma mark_skeleton (c : list (string * Message)) :
  forall acc, skeleton (mark acc c) = skeleton c.
Proof.
  induction c as [|[k m] c IH]; intros acc; [reflexivity|]. simpl.
  destruct (time m >? s_time acc); simpl; now rewrite IH.
Qed.

Lemma mark_twice (c : list (string * Message)) :
  forall acc, mark acc (mark acc c) = mark acc c.
Proof.
  induction c as [|[k m] c IH]; intros acc; [reflexivity|]. simpl.
  destruct (time m >? s_time acc) eqn:E; simpl; rewrite E.
  - now rewrite set_typedMessages_twice, IH.
  - now rewrite IH.
Qed.

(** The typed loop, as a function of the typed collection. *)
Lemma typed_loop_marks (c : list (string * Message)) :
  forall pre acc st,
    NoDup (map fst (pre ++ c)) ->
    coll Typed st = pre ++ c ->
    snd (fold_left typed_step c (acc, st)) = set_coll Typed (pre ++ mark acc c) st.
Proof.
  induction c as [|[k m] c IH]; intros pre acc st Hnd Hc.
  - cbn [fold_left snd mark]. rewrite app_nil_r in *. rewrite <- Hc.
    now rewrite set_coll_same.
  - assert (Hnot : ~ In k (map fst pre)).
    { rewrite map_app in Hnd. simpl in Hnd. apply NoDup_remove_2 in Hnd.
      intros H. apply Hnd. apply in_or_app. now left. }
    cbn [fold_left mark]. unfold typed_step at 2. cbn [fst snd].
    destruct (time m >? s_time acc).
    + set (m' := {| msgParams := set_typedMessages (msgParams m); time := time m |}).
      set (st1 := mutate (Typed, k) set_typedMessages st).
      assert (Hst1 : st1 = set_coll Typed (pre ++ (k, m') :: c) st).
      { unfold st1, mutate. cbn [fst snd]. rewrite Hc. now rewrite update_at_fresh. }
      rewrite (IH (pre ++ [(k, m')]) _ st1).
      * rewrite Hst1, set_coll_twice, <- app_assoc. reflexivity.
      * rewrite <- app_assoc. cbn [app]. rewrite map_app in *. exact Hnd.
      * rewrite Hst1, coll_set_coll_same, <- app_assoc. reflexivity.
    + rewrite (IH (pre ++ [(k, m)]) acc st).
      * rewrite <- app_assoc. reflexivity.
      * rewrite <- app_assoc. exact Hnd.
      * rewrite <- app_assoc. exact Hc.
Qed.

Lemma skeleton_keys (c : list (string * Message)) :
  map fst c = map fst (skeleton c).
Proof. unfold skeleton. rewrite map_map. reflexivity. Qed.

Lemma mutate_skeleton (r : ref) (f : props -> props) (st : State) (k : kind) :
  skeleton (coll k (mutate r f st)) = skeleton (coll k st).
Proof.
  destruct r as [k0 key]. unfold mutate. cbn [fst snd].
  destruct (kind_eqb k0 k) eqn:E.
  - assert (k0 = k) by (destruct k0, k; simpl in E; congruence). subst k0.
    rewrite coll_set_coll_same. apply update_at_skeleton.
  - rewrite coll_set_coll_other; [reflexivity|]. intros ->. destruct k; discriminate.
Qed.

Lemma mutate_twice (r : ref) (f : props -> props) (st : State) :
  (forall p, f (f p) = f p) -> mutate r f (mutate r f st) = mutate r f st.
Proof.
  intros Hf. unfold mutate. rewrite coll_set_coll_same, set_coll_twice.
  now rewrite update_at_twice.
Qed.

Lemma mutate_past_typed (r : ref) (f : props -> props)
    (c : list (string * Message)) (st : State) :
  fst r <> Typed ->
  mutate r f (set_coll Typed c st) = set_coll Typed c (mutate r f st).
Proof.
  intros Hk. unfold mutate.
  rewrite coll_set_coll_other by congruence.
  apply set_coll_swap. exact Hk.
Qed.

Lemma decoded_skeleton (st : State) (k : kind) :
  skeleton (coll k (decoded st)) = skeleton (coll k st).
Proof.
  unfold decoded. destruct (s_msg (after_two_loops st)); [|reflexivity].
  apply mutate_skeleton.
Qed.

Lemma after_two_loops_skeleton (st st' : State) :
  skeleton (unapprovedMsgs st) = skeleton (unapprovedMsgs st') ->
  skeleton (unapprovedPersonalMsgs st) = skeleton (unapprovedPersonalMsgs st') ->
  after_two_loops st = after_two_loops st'.
Proof.
  intros H1 H2. unfold after_two_loops.
  rewrite (scan_loop_skeleton Plain _ _ H1). apply scan_loop_skeleton. exact H2.
Qed.

(** The store the typed loop leaves. *)
Lemma typed_loop_store (st : State) :
  keys_unique st ->
  snd (typed_loop st) =
  set_coll Typed (mark (after_two_loops st) (unapprovedTypedMessages st)) (decoded st).
Proof.
  intros Huniq. unfold typed_loop.
  rewrite (typed_loop_marks _ [] _ (decoded st)).
  - cbn [app]. now rewrite decoded_typed.
  - cbn [app]. rewrite decoded_typed. exact (Huniq Typed).
  - reflexivity.
Qed.

(** Run on the store it has left, the function goes the same way and
    writes nothing new. *)
Lemma typed_loop_fixed (st : State) :
  keys_unique st -> typed_loop (snd (typed_loop st)) = typed_loop st.
Proof.
  intros Huniq.
  set (a2 := after_two_loops st).
  set (T := unapprovedTypedMessages st).
  set (st2 := snd (typed_loop st)).
  assert (Hst2 : st2 = set_coll Typed (mark a2 T) (decoded st))
    by (apply typed_loop_store; exact Huniq).
  assert (Hother : forall k, k <> Typed -> coll k st2 = coll k (decoded st)).
  { intros k Hk. rewrite Hst2. apply coll_set_coll_other. congruence. }
  assert (Ha2 : after_two_loops st2 = a2).
  { unfold a2. apply after_two_loops_skeleton.
    - change (unapprovedMsgs ?x) with (coll Plain x).
      rewrite Hother by discriminate. apply decoded_skeleton.
    - change (unapprovedPersonalMsgs ?x) with (coll Personal x).
      rewrite Hother by discriminate. apply decoded_skeleton. }
  assert (Hdec : decoded st2 = st2).
  { unfold decoded at 1. rewrite Ha2.
    destruct (s_msg a2) as [r|] eqn:Er; [|reflexivity].
    assert (Hk : fst r <> Typed).
    { unfold a2 in Er. rewrite after_two_loops_pick in Er.
      now apply pick_first_two in Er. }
    rewrite Hst2, mutate_past_typed by exact Hk. f_equal.
    unfold decoded. fold a2. rewrite Er.
    apply mutate_twice. apply set_message_twice. }
  assert (HT2 : unapprovedTypedMessages st2 = mark a2 T).
  { change (unapprovedTypedMessages st2) with (coll Typed st2).
    rewrite Hst2. apply coll_set_coll_same. }
  assert (Hsnd : snd (typed_loop st2) = st2).
  { unfold typed_loop. rewrite Hdec, Ha2, HT2.
    rewrite (typed_loop_marks _ [] _ st2).
    - cbn [app]. rewrite mark_twice, Hst2. apply set_coll_twice.
    - cbn [app]. rewrite skeleton_keys, mark_skeleton, <- skeleton_keys.
      exact (Huniq Typed).
    - exact HT2. }
  assert (Hfst : fst (typed_loop st2) = fst (typed_loop st)).
  { unfold typed_loop. rewrite Hdec, Ha2, HT2, !typed_loop_pick, decoded_typed.
    fold a2 T. rewrite <- !scan_loop_pick. apply scan_loop_skeleton.
    apply mark_skeleton. }
  rewrite (surjective_pairing (typed_loop st2)), Hsnd, Hfst.
  symmetry. apply surjective_pairing.
Qed.

(** X4: With distinct keys in each collection, a second call of
    [getLatestMessageParams] returns what the first returned and leaves
    the store as the first left it. *)
Theorem getLatestMessageParams_twice (w : World) :
  keys_unique (state w) ->
  getLatestMessageParams (snd (getLatestMessageParams w)) = getLatestMessageParams w.
Proof.
  intros Huniq. rewrite !getLatestMessageParams_stages. cbn [snd state trace].
  now rewrite (typed_loop_fixed _ Huniq).
Qed.

End IdempotenceFacts.

Lemma getLatestMessageParams_twice_witness :
  @Store.getLatestMessageParams Reference.builtins
    (snd (@Store.getLatestMessageParams Reference.builtins Examples.w_two)) =
  @Store.getLatestMessageParams Reference.builtins Examples.w_two.
Proof.
  apply (@getLatestMessageParams_twice Reference.builtins Examples.w_two).
  intros k. destruct k; simpl; repeat constructor; simpl; tauto.
Defined.
